(** * Energy reports and reservation listings: a shallow embedding

    The repository is a set of small Python scripts.  Task A reads a
    semicolon separated reservation file and lists it; Task D and Task E
    read hourly energy measurements, total them per calendar day and
    render a fixed-width report, Task D on standard output and Task E in
    a file; of Task C the two functions that reformat a date and a time
    are embedded.

    Python values are embedded as follows.
    - [str] is [string]; a character is a code point below 256.
    - [float] is an IEEE 754 binary64 value, [spec_float] with
      precision 53 and maximal exponent 1024; [+] and [/] are the
      correctly rounded operations of [SpecFloat].
    - [int] is [Z].
    - a [dict] is an association list in insertion order with unique
      keys, because iteration order is observable.
    - a raised exception is the [Raise] branch of [result]; the scripts
      catch exactly one exception ([FileNotFoundError], in Task A).
    - the file system is a function from file names to the lines that
      iterating over the opened text file yields; what a script prints
      is the list of its lines, and what it writes to a file is the list
      of the strings passed to [write].
    - library functions are modelled on the inputs the scripts give
      them: [str.strip], [str.split], [float], [int], the format
      [.2f], [datetime.fromisoformat], [datetime.strptime] and
      [strftime] with the formats the scripts use, [date.weekday] and
      [sorted].  The rows
      that [csv.reader] yields for the lines of a file are a parameter
      of the reader of Task E. *)

From Stdlib Require Import ZArith List String Ascii Bool Lia SpecFloat Permutation.
Import ListNotations.

Local Open Scope string_scope.
Local Open Scope list_scope.
Local Open Scope Z_scope.

(** String concatenation, Python's [+] on [str] and adjacent pieces of an
    f-string. *)
Infix "+++" := String.append (right associativity, at level 60).

Set Implicit Arguments.

(** ** Exceptions *)

Inductive exn : Type :=
| FileNotFoundError
| ValueError
| IndexError
| KeyError
| OverflowError.

Inductive result (A : Type) : Type :=
| Ok (a : A)
| Raise (e : exn).

Arguments Ok {A} a.
Arguments Raise {A} e.

Definition bind {A B : Type} (r : result A) (k : A -> result B) : result B :=
  match r with
  | Ok a => k a
  | Raise e => Raise e
  end.

Notation "x <- e ;; k" := (bind e (fun x => k))
  (at level 61, e at next level, right associativity).

(** ** Strings *)

Module Str.

Definition code (c : ascii) : Z := Z.of_nat (nat_of_ascii c).

(** [str.isspace] on the code points below 256. *)
Definition is_space (c : ascii) : bool :=
  let n := code c in
  ((9 <=? n) && (n <=? 13)) || ((28 <=? n) && (n <=? 32))
  || (n =? 133) || (n =? 160).

Definition is_digit (c : ascii) : bool :=
  let n := code c in (48 <=? n) && (n <=? 57).

Definition digit_val (c : ascii) : Z := code c - 48.

Definition digit_char (d : Z) : ascii := ascii_of_nat (Z.to_nat (48 + d)).

Fixpoint lstrip (s : string) : string :=
  match s with
  | String c s' => if is_space c then lstrip s' else s
  | EmptyString => EmptyString
  end.

Fixpoint rstrip (s : string) : string :=
  match s with
  | String c s' =>
      match rstrip s' with
      | EmptyString => if is_space c then EmptyString else String c EmptyString
      | r => String c r
      end
  | EmptyString => EmptyString
  end.

(** [s.strip()] *)
Definition strip (s : string) : string := rstrip (lstrip s).

(** [s.split(sep)] for a separator of one character: the result always
    has at least one field. *)
Fixpoint split (sep : ascii) (s : string) : list string :=
  match s with
  | EmptyString => [EmptyString]
  | String c s' =>
      if Ascii.eqb c sep then EmptyString :: split sep s'
      else match split sep s' with
           | f :: fs => String c f :: fs
           | [] => [String c EmptyString]
           end
  end.

(** [s.replace(old, new)] for [old] and [new] of one character. *)
Fixpoint replace (old new : ascii) (s : string) : string :=
  match s with
  | EmptyString => EmptyString
  | String c s' =>
      String (if Ascii.eqb c old then new else c) (replace old new s')
  end.

Definition lower_char (c : ascii) : ascii :=
  let n := code c in
  if (65 <=? n) && (n <=? 90) then ascii_of_nat (Z.to_nat (n + 32)) else c.

Definition upper_char (c : ascii) : ascii :=
  let n := code c in
  if (97 <=? n) && (n <=? 122) then ascii_of_nat (Z.to_nat (n - 32)) else c.

(** [s.lower()] on ASCII letters. *)
Fixpoint lower (s : string) : string :=
  match s with
  | EmptyString => EmptyString
  | String c s' => String (lower_char c) (lower s')
  end.

(** [s.capitalize()]: first character upper case, the rest lower case. *)
Definition capitalize (s : string) : string :=
  match s with
  | EmptyString => EmptyString
  | String c s' => String (upper_char c) (lower s')
  end.

Fixpoint repeat (c : ascii) (n : nat) : string :=
  match n with
  | O => EmptyString
  | S n' => String c (repeat c n')
  end.

(** Format specs [{s:<w}] and [{s:>w}]. *)
Definition ljust (w : nat) (s : string) : string :=
  s +++ repeat " "%char (w - String.length s).

Definition rjust (w : nat) (s : string) : string :=
  repeat " "%char (w - String.length s) +++ s.

(** Decimal digits of a non-negative integer, most significant first.
    The fuel is the binary size of the number, which bounds the number
    of decimal digits. *)
Fixpoint digits_fuel (fuel : nat) (n : Z) (acc : string) : string :=
  let acc' := String (digit_char (n mod 10)) acc in
  match fuel with
  | O => acc'
  | S f => if n <? 10 then acc' else digits_fuel f (n / 10) acc'
  end.

Definition of_Z_nonneg (n : Z) : string :=
  digits_fuel (Z.to_nat (Z.log2 n)) n EmptyString.

(** [str(n)] and [{n:02d}], [{n:04d}] for non-negative [n]. *)
Definition zfill (w : nat) (s : string) : string :=
  repeat "0"%char (w - String.length s) +++ s.

(** [digit (["_"] digit)*], entered after a first digit was read:
    returns the value, the number of digits and the unread rest. *)
Fixpoint digitpart_loop (acc : Z) (n : nat) (s : string) : Z * nat * string :=
  match s with
  | String c s' =>
      if is_digit c then digitpart_loop (10 * acc + digit_val c) (S n) s'
      else if Ascii.eqb c "_"%char then
        match s' with
        | String d s'' =>
            if is_digit d
            then digitpart_loop (10 * acc + digit_val d) (S n) s''
            else (acc, n, s)
        | EmptyString => (acc, n, s)
        end
      else (acc, n, s)
  | EmptyString => (acc, n, s)
  end.

Definition digitpart (s : string) : option (Z * nat * string) :=
  match s with
  | String c s' =>
      if is_digit c then Some (digitpart_loop (digit_val c) 1%nat s') else None
  | EmptyString => None
  end.

(** Exactly [n] ASCII digits at the front of [s]. *)
Fixpoint fixed_digits (n : nat) (acc : Z) (s : string) : option (Z * string) :=
  match n with
  | O => Some (acc, s)
  | S n' =>
      match s with
      | String c s' =>
          if is_digit c then fixed_digits n' (10 * acc + digit_val c) s' else None
      | EmptyString => None
      end
  end.

Definition sign_prefix (s : string) : bool * string :=
  match s with
  | String "-"%char s' => (true, s')
  | String "+"%char s' => (false, s')
  | _ => (false, s)
  end.

End Str.

(** ** Integers and floats *)

Module Num.

(** [int(s)] in base 10: surrounding white space, an optional sign and
    digits with single underscores between them. *)
Definition int_of_string (s : string) : result Z :=
  let (neg, body) := Str.sign_prefix (Str.strip s) in
  match Str.digitpart body with
  | Some (v, _, EmptyString) => Ok (if neg then - v else v)
  | _ => Raise ValueError
  end.

Definition float := spec_float.

Definition prec : Z := 53.
Definition emax : Z := 1024.

Definition fadd (x y : float) : float := SFadd prec emax x y.
Definition fdiv (x y : float) : float := SFdiv prec emax x y.
Definition fle (x y : float) : bool := SFleb x y.

Definition float_of_Z (n : Z) : float := binary_normalize prec emax n 0 false.

Definition fzero : float := S754_zero false.

(** The binary64 value nearest to [(-1)^neg * m * 10^e] (ties to even),
    as Python's correctly rounded string conversion gives it. *)
Definition float_of_decimal (neg : bool) (m e : Z) : float :=
  match m with
  | Zpos p =>
      if 0 <=? e
      then binary_normalize prec emax ((if neg then -1 else 1) * (m * 10 ^ e)) 0 false
      else fdiv (S754_finite neg p 0)
                (S754_finite false (Z.to_pos (10 ^ (- e))) 0)
  | _ => S754_zero neg
  end.

(** [[digitpart] "." digitpart | digitpart ["."]], then an optional
    exponent: returns mantissa, decimal exponent and the unread rest. *)
Definition number_body (s : string) : option (Z * Z * string) :=
  let with_fraction (i : Z) (rest : string) :=
    match rest with
    | String "."%char r1 =>
        match Str.digitpart r1 with
        | Some (f, nf, r2) => Some (i * 10 ^ Z.of_nat nf + f, - Z.of_nat nf, r2)
        | None => Some (i, 0, r1)
        end
    | _ => Some (i, 0, rest)
    end in
  match Str.digitpart s with
  | Some (i, _, rest) => with_fraction i rest
  | None =>
      match s with
      | String "."%char r1 =>
          match Str.digitpart r1 with
          | Some (f, nf, r2) => Some (f, - Z.of_nat nf, r2)
          | None => None
          end
      | _ => None
      end
  end.

Definition exponent_part (s : string) : option (Z * string) :=
  match s with
  | String c r =>
      if Ascii.eqb (Str.lower_char c) "e"%char then
        let (neg, r1) := Str.sign_prefix r in
        match Str.digitpart r1 with
        | Some (v, _, r2) => Some (if neg then - v else v, r2)
        | None => None
        end
      else Some (0, s)
  | EmptyString => Some (0, s)
  end.

(** [float(s)]: white space is stripped; then an optional sign and
    [inf], [infinity], [nan] (any case) or a decimal number. *)
Definition float_of_string (s : string) : result float :=
  let (neg, body) := Str.sign_prefix (Str.strip s) in
  let low := Str.lower body in
  if String.eqb low "inf" || String.eqb low "infinity" then Ok (S754_infinity neg)
  else if String.eqb low "nan" then Ok S754_nan
  else
    match number_body body with
    | Some (m, e, rest) =>
        match exponent_part rest with
        | Some (x, EmptyString) => Ok (float_of_decimal neg m (e + x))
        | _ => Raise ValueError
        end
    | None => Raise ValueError
    end.

(** The integer nearest to [100 * m * 2^e], ties to even. *)
Definition round_cents (m : positive) (e : Z) : Z :=
  if 0 <=? e then 100 * Zpos m * 2 ^ e
  else
    let num := 100 * Zpos m in
    let den := 2 ^ (- e) in
    let q := num / den in
    let r := num mod den in
    match 2 * r ?= den with
    | Lt => q
    | Gt => q + 1
    | Eq => if Z.even q then q else q + 1
    end.

Definition show_cents (neg : bool) (n : Z) : string :=
  (if neg then "-" else "")
    +++ Str.of_Z_nonneg (n / 100) +++ "."
    +++ Str.zfill 2 (Str.of_Z_nonneg (n mod 100)).

(** [f"{x:.2f}"]: the exact binary value rounded to two decimals. *)
Definition format_2f (x : float) : string :=
  match x with
  | S754_nan => "nan"
  | S754_infinity s => if s then "-inf" else "inf"
  | S754_zero s => show_cents s 0
  | S754_finite s m e => show_cents s (round_cents m e)
  end.

End Num.

(** ** Calendar dates: [datetime.date] and [datetime.datetime] *)

Module Cal.

Record date : Type := mkdate { year : Z; month : Z; day : Z }.

Record datetime : Type :=
  mkdatetime { dt_date : date; hour : Z; minute : Z; second : Z;
               microsecond : Z }.

Definition date_eqb (a b : date) : bool :=
  (year a =? year b) && (month a =? month b) && (day a =? day b).

(** [a < b] on dates: the order of [(year, month, day)]. *)
Definition date_ltb (a b : date) : bool :=
  (year a <? year b)
  || ((year a =? year b)
      && ((month a <? month b)
          || ((month a =? month b) && (day a <? day b)))).

Definition is_leap (y : Z) : bool :=
  (y mod 4 =? 0) && (negb (y mod 100 =? 0) || (y mod 400 =? 0)).

Definition days_before_year (y : Z) : Z :=
  let y1 := y - 1 in y1 * 365 + y1 / 4 - y1 / 100 + y1 / 400.

Definition days_in_month (y m : Z) : Z :=
  if (m =? 2) && is_leap y then 29
  else nth (Z.to_nat m) [0; 31; 28; 31; 30; 31; 30; 31; 31; 30; 31; 30; 31] 0.

Definition days_before_month (y m : Z) : Z :=
  nth (Z.to_nat m) [0; 0; 31; 59; 90; 120; 151; 181; 212; 243; 273; 304; 334] 0
  + (if (2 <? m) && is_leap y then 1 else 0).

(** [d.toordinal()]: 1 January of year 1 is day 1. *)
Definition toordinal (d : date) : Z :=
  days_before_year (year d) + days_before_month (year d) (month d) + day d.

(** [d.weekday()]: Monday is 0, Sunday is 6. *)
Definition weekday (d : date) : Z := (toordinal d + 6) mod 7.

(** The checks of the [date] and [time] constructors. *)
Definition valid_date (y m d : Z) : bool :=
  (1 <=? y) && (y <=? 9999) && (1 <=? m) && (m <=? 12)
  && (1 <=? d) && (d <=? days_in_month y m).

Definition valid_time (h mi s : Z) : bool :=
  (h <? 24) && (mi <? 60) && (s <? 60).

(** The constructors [date(year, month, day)] and [time(hour, minute)]
    first convert their arguments to a C [int], which raises
    [OverflowError] for an integer that does not fit, and then check the
    ranges, which raises [ValueError]. *)
Definition fits_c_int (v : Z) : bool :=
  (- 2 ^ 31 <=? v) && (v <? 2 ^ 31).

Definition new_date (y m d : Z) : result date :=
  if fits_c_int y && fits_c_int m && fits_c_int d then
    if valid_date y m d then Ok (mkdate y m d) else Raise ValueError
  else Raise OverflowError.

(** [time(hour, minute)]: the hour and the minute. *)
Definition new_time (h mi : Z) : result (Z * Z) :=
  if fits_c_int h && fits_c_int mi then
    if (0 <=? h) && (h <? 24) && (0 <=? mi) && (mi <? 60) then Ok (h, mi)
    else Raise ValueError
  else Raise OverflowError.

Definition make_datetime (y m d h mi s us : Z) : result datetime :=
  if valid_date y m d && valid_time h mi s
  then Ok (mkdatetime (mkdate y m d) h mi s us)
  else Raise ValueError.

(** [HH[:MM[:SS[.fff[fff]]]]], the whole string. *)
Definition parse_hh_mm_ss_ff (s : string) : option (Z * Z * Z * Z) :=
  match Str.fixed_digits 2 0 s with
  | Some (h, EmptyString) => Some (h, 0, 0, 0)
  | Some (h, String ":"%char r1) =>
      match Str.fixed_digits 2 0 r1 with
      | Some (mi, EmptyString) => Some (h, mi, 0, 0)
      | Some (mi, String ":"%char r2) =>
          match Str.fixed_digits 2 0 r2 with
          | Some (sec, EmptyString) => Some (h, mi, sec, 0)
          | Some (sec, String "."%char r3) =>
              match Str.fixed_digits 3 0 r3 with
              | Some (ms, EmptyString) => Some (h, mi, sec, ms * 1000)
              | Some (ms, r4) =>
                  match Str.fixed_digits 3 ms r4 with
                  | Some (us, EmptyString) => Some (h, mi, sec, us)
                  | _ => None
                  end
              | None => None
              end
          | _ => None
          end
      | _ => None
      end
  | _ => None
  end.

(** Splits a time string at its first ["-"] or, when there is none, at
    its first ["+"]: the clock part and the UTC offset after the sign. *)
Fixpoint cut_at (sep : ascii) (s : string) : option (string * string) :=
  match s with
  | EmptyString => None
  | String c s' =>
      if Ascii.eqb c sep then Some (EmptyString, s')
      else match cut_at sep s' with
           | Some (a, b) => Some (String c a, b)
           | None => None
           end
  end.

Definition split_offset (s : string) : string * option string :=
  match cut_at "-"%char s with
  | Some (a, b) => (a, Some b)
  | None =>
      match cut_at "+"%char s with
      | Some (a, b) => (a, Some b)
      | None => (s, None)
      end
  end.

(** A UTC offset is [HH:MM], [HH:MM:SS] or [HH:MM:SS.ffffff] and lies
    strictly within one day. *)
Definition valid_offset (s : string) : bool :=
  let n := String.length s in
  (Nat.eqb n 5 || Nat.eqb n 8 || Nat.eqb n 15)
  && match parse_hh_mm_ss_ff s with
     | Some (h, mi, sec, us) =>
         ((h * 3600 + mi * 60 + sec) * 1000000 + us <? 86400 * 1000000)
     | None => false
     end.

(** [datetime.fromisoformat(s)] on the grammar that every CPython from
    3.7 on reads: [YYYY-MM-DD], optionally followed by one separator
    character and [HH[:MM[:SS[.fff[fff]]]]] with an optional UTC offset.
    The offset is checked and then dropped, since the scripts only use
    the calendar date.  A string outside this grammar is a [ValueError]
    here, as it is up to CPython 3.10.  From 3.11 on the library also
    reads the basic format without hyphens and colons, a trailing [Z],
    any number of fractional digits, week dates and offsets without a
    colon; these forms are not embedded, and what is proved of a refused
    time stamp is stated for the outcome of the call, not for a set of
    strings. *)
Definition fromisoformat (s : string) : result datetime :=
  match Str.fixed_digits 4 0 s with
  | Some (y, String "-"%char r1) =>
      match Str.fixed_digits 2 0 r1 with
      | Some (m, String "-"%char r2) =>
          match Str.fixed_digits 2 0 r2 with
          | Some (d, EmptyString) => make_datetime y m d 0 0 0 0
          | Some (d, String _ tstr) =>
              let (clock, off) := split_offset tstr in
              match parse_hh_mm_ss_ff clock with
              | Some (h, mi, sec, us) =>
                  if match off with Some o => valid_offset o | None => true end
                  then make_datetime y m d h mi sec us
                  else Raise ValueError
              | None => Raise ValueError
              end
          | None => Raise ValueError
          end
      | _ => Raise ValueError
      end
  | _ => Raise ValueError
  end.

(** [%Y] of [strftime] is handed to the C library.  The one of Linux
    writes the year without padding, so that a year below 1000 has fewer
    than four digits; other platforms pad it with zeros.  From the year
    1000 on all of them write the same four digits. *)
Definition strftime_Y (y : Z) : string := Str.of_Z_nonneg y.

(** [d.strftime("%d.%m.%Y")]. *)
Definition strftime_dmY (d : date) : string :=
  Str.zfill 2 (Str.of_Z_nonneg (day d)) +++ "."
    +++ Str.zfill 2 (Str.of_Z_nonneg (month d)) +++ "."
    +++ strftime_Y (year d).

(** [dt.strftime("%Y-%m-%d %H:%M")]. *)
Definition strftime_Ymd_HM (dt : datetime) : string :=
  strftime_Y (year (dt_date dt)) +++ "-"
    +++ Str.zfill 2 (Str.of_Z_nonneg (month (dt_date dt))) +++ "-"
    +++ Str.zfill 2 (Str.of_Z_nonneg (day (dt_date dt))) +++ " "
    +++ Str.zfill 2 (Str.of_Z_nonneg (hour dt)) +++ ":"
    +++ Str.zfill 2 (Str.of_Z_nonneg (minute dt)).

End Cal.

(** ** Dictionaries and lists *)

Module Dict.

Section Ops.
Variables K V : Type.
Variable eqb : K -> K -> bool.

Definition t : Type := list (K * V).

(** [d[k]] *)
Fixpoint getitem (d : t) (k : K) : result V :=
  match d with
  | [] => Raise KeyError
  | (k', v) :: d' => if eqb k k' then Ok v else getitem d' k
  end.

(** [k in d] *)
Fixpoint contains (d : t) (k : K) : bool :=
  match d with
  | [] => false
  | (k', _) :: d' => eqb k k' || contains d' k
  end.

(** [d[k] = v]: an existing key keeps its position, a new key goes
    to the end. *)
Fixpoint setitem (d : t) (k : K) (v : V) : t :=
  match d with
  | [] => [(k, v)]
  | (k', v') :: d' =>
      if eqb k k' then (k', v) :: d' else (k', v') :: setitem d' k v
  end.

Definition keys (d : t) : list K := map fst d.
Definition values (d : t) : list V := map snd d.
End Ops.

End Dict.

(** [l[i]] and [l[i] = v] for an index [i >= 0]. *)
Definition list_getitem {A : Type} (l : list A) (i : nat) : result A :=
  match nth_error l i with
  | Some a => Ok a
  | None => Raise IndexError
  end.

Fixpoint list_setitem {A : Type} (l : list A) (i : nat) (v : A) : result (list A) :=
  match l, i with
  | [], _ => Raise IndexError
  | _ :: l', O => Ok (v :: l')
  | a :: l', S i' => l'' <- list_setitem l' i' v ;; Ok (a :: l'')
  end.

(** [sorted(keys)]: a stable sort that only uses [<]. *)
Section Sorted.
Variable A : Type.
Variable ltb : A -> A -> bool.

(** Puts [x] after the elements that are not greater than it. *)
Fixpoint insort (x : A) (l : list A) : list A :=
  match l with
  | [] => [x]
  | y :: l' => if ltb x y then x :: y :: l' else y :: insort x l'
  end.

Definition sorted (l : list A) : list A :=
  fold_left (fun acc x => insort x acc) l [].
End Sorted.

(** [for x in l: body], with the loop state threaded through. *)
Fixpoint for_each {A S : Type} (l : list A) (body : S -> A -> result S) (s : S)
  : result S :=
  match l with
  | [] => Ok s
  | x :: l' => s' <- body s x ;; for_each l' body s'
  end.

(** The text files of a run: [None] when the file does not exist, else
    the lines that iterating over the open file yields. *)
Definition filesystem : Type := string -> option (list string).

Definition open_read (fs : filesystem) (filename : string) : result (list string) :=
  match fs filename with
  | Some lines => Ok lines
  | None => Raise FileNotFoundError
  end.

(** ** Task D: [task_d.py] *)

Module TaskD.
Import Num Cal.

(** One accepted line: the list of its fields. *)
Definition row : Type := list string.

(** The value kept for a date: [{"cons": [v1, v2, v3], "prod": [...]}]. *)
Definition day_totals : Type := Dict.t string (list float).
Definition daily_totals : Type := Dict.t date day_totals.

(** Body of the loop of [read_data] over [lines[1:]]. *)
Definition read_line (rows : list row) (line : string) : list row :=
  if String.eqb line "" then rows
  else
    let parts := Str.split ";" line in
    if Z.of_nat (List.length parts) <? 7 then rows
    else rows ++ [parts].

Definition read_lines (raw : list string) : list row :=
  let lines := map Str.strip raw in
  fold_left read_line (skipn 1 lines) [].

Definition read_data (fs : filesystem) (filename : string) : result (list row) :=
  raw <- open_read fs filename ;;
  Ok (read_lines raw).

Definition new_day : day_totals :=
  [("cons", [fzero; fzero; fzero]); ("prod", [fzero; fzero; fzero])].

(** [daily[d][key][i] += v].  The inner dictionary and its lists are
    created fresh for each date and never shared, so the in-place
    update of the list is written back through the two dictionaries. *)
Definition add_to (daily : daily_totals) (d : date) (key : string) (i : nat)
           (v : float) : result daily_totals :=
  data <- Dict.getitem date_eqb daily d ;;
  lst <- Dict.getitem String.eqb data key ;;
  old <- list_getitem lst i ;;
  lst' <- list_setitem lst i (fadd old v) ;;
  Ok (Dict.setitem date_eqb daily d (Dict.setitem String.eqb data key lst')).

Definition float_field (parts : row) (i : nat) : result float :=
  p <- list_getitem parts i ;; float_of_string p.

(** Body of the loop of [calculate_daily_totals]. *)
Definition daily_step (daily : daily_totals) (parts : row) : result daily_totals :=
  timestamp_str <- list_getitem parts 0 ;;
  dt <- fromisoformat timestamp_str ;;
  let d := dt_date dt in
  cons_v1 <- float_field parts 1 ;;
  cons_v2 <- float_field parts 2 ;;
  cons_v3 <- float_field parts 3 ;;
  prod_v1 <- float_field parts 4 ;;
  prod_v2 <- float_field parts 5 ;;
  prod_v3 <- float_field parts 6 ;;
  let daily :=
    if Dict.contains date_eqb daily d then daily
    else Dict.setitem date_eqb daily d new_day in
  daily <- add_to daily d "cons" 0 cons_v1 ;;
  daily <- add_to daily d "cons" 1 cons_v2 ;;
  daily <- add_to daily d "cons" 2 cons_v3 ;;
  daily <- add_to daily d "prod" 0 prod_v1 ;;
  daily <- add_to daily d "prod" 1 prod_v2 ;;
  add_to daily d "prod" 2 prod_v3.

Definition calculate_daily_totals (rows : list row) : result daily_totals :=
  for_each rows daily_step [].

Definition format_kwh (value_wh : float) : string :=
  let value_kwh := fdiv value_wh (float_of_Z 1000) in
  let value_str := format_2f value_kwh in
  Str.replace "." "," value_str.

Definition weekday_name_finnish (d : date) : result string :=
  let names := ["monday"; "tuesday"; "wednesday"; "thursday"; "friday";
                "saturday"; "sunday"] in
  list_getitem names (Z.to_nat (weekday d)).

(** The four lines printed before the rows. *)
Definition report_head : list string :=
  [ "Week 42 electricity consumption and production (kWh, by phase)";
    "Day       Date         " +++ "Consumption [kWh]           Production [kWh]";
    "          (dd.mm.yyyy)  " +++ "v1      v2      v3      v1      v2      v3";
    Str.repeat "-" 75 ].

(** Body of the loop of [print_report]: the line printed for [d]. *)
Definition report_row (daily : daily_totals) (d : date) : result string :=
  data <- Dict.getitem date_eqb daily d ;;
  cons <- Dict.getitem String.eqb data "cons" ;;
  prod <- Dict.getitem String.eqb data "prod" ;;
  name <- weekday_name_finnish d ;;
  let day_name := Str.capitalize name in
  let date_str := strftime_dmY d in
  c0 <- list_getitem cons 0 ;;
  c1 <- list_getitem cons 1 ;;
  c2 <- list_getitem cons 2 ;;
  p0 <- list_getitem prod 0 ;;
  p1 <- list_getitem prod 1 ;;
  p2 <- list_getitem prod 2 ;;
  Ok (Str.ljust 9 day_name +++ " " +++ Str.ljust 11 date_str +++ " "
      +++ Str.rjust 6 (format_kwh c0) +++ "  "
      +++ Str.rjust 6 (format_kwh c1) +++ "  "
      +++ Str.rjust 6 (format_kwh c2) +++ "  "
      +++ Str.rjust 6 (format_kwh p0) +++ "  "
      +++ Str.rjust 6 (format_kwh p1) +++ "  "
      +++ Str.rjust 6 (format_kwh p2)).

(** The rows printed for the dates [ds], up to the first exception. *)
Fixpoint print_rows (daily : daily_totals) (ds : list date)
  : list string * result unit :=
  match ds with
  | [] => ([], Ok tt)
  | d :: ds' =>
      match report_row daily d with
      | Ok line =>
          let (out, r) := print_rows daily ds' in (line :: out, r)
      | Raise e => ([], Raise e)
      end
  end.

(** [print_report]: the lines written to standard output, one per
    [print] call, and how the call ends. *)
Definition print_report (daily : daily_totals) : list string * result unit :=
  let (out, r) := print_rows daily (sorted date_ltb (Dict.keys daily)) in
  (report_head ++ out, r).

(** [main]: reads [week42.csv], totals it and prints the report. *)
Definition main (fs : filesystem) : list string * result unit :=
  match (rows <- read_data fs "week42.csv" ;; calculate_daily_totals rows) with
  | Ok daily_totals => print_report daily_totals
  | Raise e => ([], Raise e)
  end.

End TaskD.

(** [[f(x) for x in l]], stopping at the first exception. *)
Fixpoint map_result {A B : Type} (f : A -> result B) (l : list A) : result (list B) :=
  match l with
  | [] => Ok []
  | x :: l' => y <- f x ;; ys <- map_result f l' ;; Ok (y :: ys)
  end.

(** [str(n)] for an [int]. *)
Definition str_of_Z (n : Z) : string :=
  if n <? 0 then "-" +++ Str.of_Z_nonneg (- n) else Str.of_Z_nonneg n.

(** The line end that the scripts write after a line. *)
Definition newline : string := String "010" EmptyString.

(** [str(b)] for a [bool]. *)
Definition str_of_bool (b : bool) : string := if b then "True" else "False".

(** ** Task E: [task_e.py] *)

Module TaskE.
Import Num Cal.

Record Measurement : Type :=
  mkMeasurement {
      timestamp : datetime;
      cons_v1 : float; cons_v2 : float; cons_v3 : float;
      prod_v1 : float; prod_v2 : float; prod_v3 : float }.

Definition DailySummary : Type := Dict.t string float.
Definition WeekDailySummaries : Type := Dict.t date DailySummary.

(** Body of the loop of [read_data] over the rows of the reader. *)
Definition read_row (measurements : list Measurement) (row : list string)
  : result (list Measurement) :=
  if Z.of_nat (List.length row) <? 7 then Ok measurements
  else
    r0 <- list_getitem row 0 ;;
    ts <- fromisoformat (Str.strip r0) ;;
    c1 <- (p <- list_getitem row 1 ;; float_of_string p) ;;
    c2 <- (p <- list_getitem row 2 ;; float_of_string p) ;;
    c3 <- (p <- list_getitem row 3 ;; float_of_string p) ;;
    p1 <- (p <- list_getitem row 4 ;; float_of_string p) ;;
    p2 <- (p <- list_getitem row 5 ;; float_of_string p) ;;
    p3 <- (p <- list_getitem row 6 ;; float_of_string p) ;;
    Ok (measurements ++ [mkMeasurement ts c1 c2 c3 p1 p2 p3]).

(** [next(reader, None)] drops the first row, the loop reads the rest. *)
Definition read_rows (reader : list (list string)) : result (list Measurement) :=
  for_each (skipn 1 reader) read_row [].

Section Reader.
(** [csv.reader(f, delimiter=";")] belongs to the standard library:
    the rows it yields for the lines of a file are a parameter. *)
Variable csv_reader : list string -> list (list string).

Definition read_data (fs : filesystem) (filename : string)
  : result (list Measurement) :=
  f <- open_read fs filename ;;
  read_rows (csv_reader f).
End Reader.

Definition wh_to_kwh (value_wh : float) : float :=
  fdiv value_wh (float_of_Z 1000).

Definition format_kwh_finnish (value_kwh : float) : string :=
  Str.replace "." "," (format_2f value_kwh).

Definition format_date_finnish (d : date) : string :=
  Str.zfill 2 (str_of_Z (day d)) +++ "."
    +++ Str.zfill 2 (str_of_Z (month d)) +++ "." +++ str_of_Z (year d).

Definition weekday_name (d : date) : result string :=
  let names := ["Monday"; "Tuesday"; "Wednesday";
                "Thursday"; "Friday"; "Saturday"; "Sunday"] in
  list_getitem names (Z.to_nat (weekday d)).

(** The keys of the dictionary literals of [calculate_daily_summaries]
    and [sum_week_totals], in their order. *)
Definition summary_keys : list string :=
  ["cons_v1"; "cons_v2"; "cons_v3"; "prod_v1"; "prod_v2"; "prod_v3"].

Definition new_summary : DailySummary :=
  [("cons_v1", fzero); ("cons_v2", fzero); ("cons_v3", fzero);
   ("prod_v1", fzero); ("prod_v2", fzero); ("prod_v3", fzero)].

(** [daily[d][key] += v]; each summary is owned by one date, so the
    in-place update is written back through the outer dictionary. *)
Definition add_to (daily : WeekDailySummaries) (d : date) (key : string)
           (v : float) : result WeekDailySummaries :=
  s <- Dict.getitem date_eqb daily d ;;
  old <- Dict.getitem String.eqb s key ;;
  Ok (Dict.setitem date_eqb daily d (Dict.setitem String.eqb s key (fadd old v))).

(** Body of the loop of [calculate_daily_summaries]. *)
Definition daily_step (daily : WeekDailySummaries) (m : Measurement)
  : result WeekDailySummaries :=
  let d := dt_date (timestamp m) in
  let daily :=
    if Dict.contains date_eqb daily d then daily
    else Dict.setitem date_eqb daily d new_summary in
  daily <- add_to daily d "cons_v1" (cons_v1 m) ;;
  daily <- add_to daily d "cons_v2" (cons_v2 m) ;;
  daily <- add_to daily d "cons_v3" (cons_v3 m) ;;
  daily <- add_to daily d "prod_v1" (prod_v1 m) ;;
  daily <- add_to daily d "prod_v2" (prod_v2 m) ;;
  add_to daily d "prod_v3" (prod_v3 m).

Definition calculate_daily_summaries (measurements : list Measurement)
  : result WeekDailySummaries :=
  for_each measurements daily_step [].

Definition section_head (week_number : Z) : list string :=
  [ "Week " +++ str_of_Z week_number
      +++ " electricity consumption and production (kWh, by phase)";
    "Day       Date         Consumption [kWh]           Production [kWh]";
    "                      v1      v2      v3           v1      v2      v3";
    Str.repeat "-" 75 ].

(** [[format_kwh_finnish(wh_to_kwh(s[f"cons_v{i}"])) for i in (1, 2, 3)]],
    and the same with ["prod_v"]. *)
Definition phase_cells (s : DailySummary) (prefix : string) : result (list string) :=
  map_result
    (fun i => v <- Dict.getitem String.eqb s (prefix +++ str_of_Z i) ;;
              Ok (format_kwh_finnish (wh_to_kwh v)))
    [1; 2; 3].

(** Body of the loop of [format_week_section]: the line of one day. *)
Definition section_row (daily : WeekDailySummaries) (d : date) : result string :=
  s <- Dict.getitem date_eqb daily d ;;
  cons <- phase_cells s "cons_v" ;;
  prod <- phase_cells s "prod_v" ;;
  name <- weekday_name d ;;
  c0 <- list_getitem cons 0 ;;
  c1 <- list_getitem cons 1 ;;
  c2 <- list_getitem cons 2 ;;
  p0 <- list_getitem prod 0 ;;
  p1 <- list_getitem prod 1 ;;
  p2 <- list_getitem prod 2 ;;
  Ok (Str.ljust 9 name +++ " " +++ Str.ljust 11 (format_date_finnish d) +++ " "
      +++ Str.rjust 7 c0 +++ " " +++ Str.rjust 7 c1 +++ " " +++ Str.rjust 7 c2
      +++ "   "
      +++ Str.rjust 7 p0 +++ " " +++ Str.rjust 7 p1 +++ " " +++ Str.rjust 7 p2).

Definition format_week_section (week_number : Z) (daily : WeekDailySummaries)
  : result (list string) :=
  rows <- map_result (section_row daily) (sorted date_ltb (Dict.keys daily)) ;;
  Ok (section_head week_number ++ rows ++ [""]).

(** Body of the inner loop of [sum_week_totals].  The loop runs over
    the keys of [totals] while it assigns to existing keys only, so the
    keys it visits are the ones the dictionary had on entry. *)
Definition add_key (day_summary : DailySummary) (totals : DailySummary)
           (key : string) : result DailySummary :=
  old <- Dict.getitem String.eqb totals key ;;
  v <- Dict.getitem String.eqb day_summary key ;;
  Ok (Dict.setitem String.eqb totals key (fadd old v)).

Definition add_day (totals day_summary : DailySummary) : result DailySummary :=
  for_each (Dict.keys totals) (add_key day_summary) totals.

Definition sum_week_totals (daily : WeekDailySummaries) : result DailySummary :=
  for_each (Dict.values daily) add_day new_summary.

(** The mapping from a week number to the totals of the week. *)
Definition WeeklyTotals : Type := Dict.t Z DailySummary.

(** The three lines written before the rows of the combined summary. *)
Definition combined_head : list string :=
  [ "Combined summary of all weeks (kWh, by phase)" +++ newline;
    "Week   cons_v1  cons_v2  cons_v3   prod_v1  prod_v2  prod_v3" +++ newline;
    Str.repeat "-" 70 +++ newline ].

(** Body of the last loop of [write_report]: the line of one week. *)
Definition summary_row (weekly_totals : WeeklyTotals) (week : Z) : result string :=
  t <- Dict.getitem Z.eqb weekly_totals week ;;
  cons <- phase_cells t "cons_v" ;;
  prod <- phase_cells t "prod_v" ;;
  c0 <- list_getitem cons 0 ;;
  c1 <- list_getitem cons 1 ;;
  c2 <- list_getitem cons 2 ;;
  p0 <- list_getitem prod 0 ;;
  p1 <- list_getitem prod 1 ;;
  p2 <- list_getitem prod 2 ;;
  Ok (Str.ljust 5 (str_of_Z week) +++ "  "
      +++ Str.rjust 7 c0 +++ "  " +++ Str.rjust 7 c1 +++ "  " +++ Str.rjust 7 c2
      +++ "   "
      +++ Str.rjust 7 p0 +++ "  " +++ Str.rjust 7 p1 +++ "  " +++ Str.rjust 7 p2).

(** The strings written for the weeks [weeks], up to the first
    exception. *)
Fixpoint write_rows (weekly_totals : WeeklyTotals) (weeks : list Z)
  : list string * result unit :=
  match weeks with
  | [] => ([], Ok tt)
  | week :: weeks' =>
      match summary_row weekly_totals week with
      | Ok line =>
          let (out, r) := write_rows weekly_totals weeks' in
          ((line +++ newline) :: out, r)
      | Raise e => ([], Raise e)
      end
  end.

(** [write_report]: the name of the file that is opened for writing, the
    strings written to it, one per [write] call, and how the call ends. *)
Definition write_report (filename : string) (week_sections : list (list string))
           (weekly_totals : WeeklyTotals)
  : (string * list string) * result unit :=
  let sections := map (fun line => line +++ newline) (List.concat week_sections) in
  let (rows, r) := write_rows weekly_totals (sorted Z.ltb (Dict.keys weekly_totals)) in
  ((filename, sections ++ combined_head ++ rows), r).

(** The dictionary literal [week_files] of [main], in its order. *)
Definition week_files : list (Z * string) :=
  [(41, "week41.csv"); (42, "week42.csv"); (43, "week43.csv")].

Section Main.
Variable csv_reader : list string -> list (list string).

(** Body of the loop of [main] over [week_files.items()]. *)
Definition main_step (fs : filesystem)
           (state : list (list string) * WeeklyTotals) (item : Z * string)
  : result (list (list string) * WeeklyTotals) :=
  let (week_sections, weekly_totals) := state in
  let (week, filename) := item in
  measurements <- read_data csv_reader fs filename ;;
  daily <- calculate_daily_summaries measurements ;;
  section <- format_week_section week daily ;;
  totals <- sum_week_totals daily ;;
  Ok (week_sections ++ [section], Dict.setitem Z.eqb weekly_totals week totals).

(** [main]: the file written, if one was opened, and how the run ends. *)
Definition main (fs : filesystem)
  : option (string * list string) * result unit :=
  match for_each week_files (main_step fs) ([], []) with
  | Ok (week_sections, weekly_totals) =>
      let (file, r) := write_report "summary.txt" week_sections weekly_totals in
      (Some file, r)
  | Raise e => (None, Raise e)
  end.
End Main.

End TaskE.

(** ** Task A: [read_reservations.py] *)

Module TaskA.
Import Num Cal.

Record reservation : Type :=
  mkreservation {
      user_name : string;
      resource : string;
      start : datetime;
      end_ : datetime;
      confirmed : bool;
      participants : Z }.

(** The alternatives of a directive of [strptime], in the order in
    which the regular expression of the library tries them: each is a
    value and the unread rest. *)
Definition alts : Type := list (Z * string).

Definition two_digits (ok : Z -> Z -> bool) (s : string) : alts :=
  match s with
  | String a (String b r) =>
      if Str.is_digit a && Str.is_digit b && ok (Str.digit_val a) (Str.digit_val b)
      then [(10 * Str.digit_val a + Str.digit_val b, r)] else []
  | _ => []
  end.

Definition one_digit (ok : Z -> bool) (s : string) : alts :=
  match s with
  | String a r =>
      if Str.is_digit a && ok (Str.digit_val a) then [(Str.digit_val a, r)] else []
  | _ => []
  end.

(** [%Y]: four digits. *)
Definition dir_Y (s : string) : alts :=
  match Str.fixed_digits 4 0 s with Some vr => [vr] | None => [] end.

(** [%m]: [1[0-2]|0[1-9]|[1-9]] *)
Definition dir_m (s : string) : alts :=
  two_digits (fun a b => (a =? 1) && (b <=? 2)) s
  ++ two_digits (fun a b => (a =? 0) && (1 <=? b)) s
  ++ one_digit (fun a => 1 <=? a) s.

(** [%d]: [3[01]|[12]\d|0[1-9]|[1-9]| [1-9]] *)
Definition dir_d (s : string) : alts :=
  two_digits (fun a b => (a =? 3) && (b <=? 1)) s
  ++ two_digits (fun a b => (a =? 1) || (a =? 2)) s
  ++ two_digits (fun a b => (a =? 0) && (1 <=? b)) s
  ++ one_digit (fun a => 1 <=? a) s
  ++ match s with
     | String " "%char r => one_digit (fun a => 1 <=? a) r
     | _ => []
     end.

(** [%H]: [2[0-3]|[0-1]\d|\d] *)
Definition dir_H (s : string) : alts :=
  two_digits (fun a b => (a =? 2) && (b <=? 3)) s
  ++ two_digits (fun a b => a <=? 1) s
  ++ one_digit (fun _ => true) s.

(** [%M]: [[0-5]\d|\d] *)
Definition dir_M (s : string) : alts :=
  two_digits (fun a b => a <=? 5) s ++ one_digit (fun _ => true) s.

Definition lit (c : ascii) (s : string) : list string :=
  match s with
  | String a r => if Ascii.eqb a c then [r] else []
  | EmptyString => []
  end.

(** White space in the format is [\s+]: the longest run first. *)
Fixpoint spaces (s : string) : list string :=
  match s with
  | String a r => if Str.is_space a then spaces r ++ [r] else []
  | EmptyString => []
  end.

(** [datetime.strptime(s, "%Y-%m-%d %H:%M")]: the first way in which
    the pattern matches a prefix of [s] must use all of [s]. *)
Definition strptime (s : string) : result datetime :=
  let matches :=
    flat_map (fun '(y, r) =>
    flat_map (fun r =>
    flat_map (fun '(m, r) =>
    flat_map (fun r =>
    flat_map (fun '(d, r) =>
    flat_map (fun r =>
    flat_map (fun '(h, r) =>
    flat_map (fun r =>
    map (fun '(mi, r) => (y, m, d, h, mi, r)) (dir_M r))
      (lit ":" r)) (dir_H r)) (spaces r)) (dir_d r)) (lit "-" r)) (dir_m r))
      (lit "-" r)) (dir_Y s) in
  match matches with
  | (y, m, d, h, mi, EmptyString) :: _ => make_datetime y m d h mi 0 0
  | _ => Raise ValueError
  end.

Definition parse_reservation_line (line : string) : result reservation :=
  let parts := Str.split ";" (Str.strip line) in
  p0 <- list_getitem parts 0 ;;
  p1 <- list_getitem parts 1 ;;
  p2 <- list_getitem parts 2 ;;
  st <- strptime p2 ;;
  p3 <- list_getitem parts 3 ;;
  en <- strptime p3 ;;
  p4 <- list_getitem parts 4 ;;
  p5 <- list_getitem parts 5 ;;
  n <- int_of_string p5 ;;
  Ok (mkreservation p0 p1 st en (String.eqb (Str.lower p4) "true") n).

(** Body of the loop of [read_reservations]. *)
Definition read_line (reservations : list reservation) (line : string)
  : result (list reservation) :=
  r <- parse_reservation_line line ;;
  Ok (reservations ++ [r]).

(** [read_reservations]: what is printed, and the list returned or the
    exception that escapes.  Only a missing file is caught. *)
Definition read_reservations (fs : filesystem) (filename : string)
  : list string * result (list reservation) :=
  match fs filename with
  | Some file => ([], for_each file read_line [])
  | None => (["File '" +++ filename +++ "' not found."], Ok [])
  end.

(** Body of the loop of [display_reservations]: the line of one
    reservation. *)
Definition display_line (r : reservation) : string :=
  user_name r +++ " booked " +++ resource r +++ " from "
    +++ strftime_Ymd_HM (start r) +++ " to " +++ strftime_Ymd_HM (end_ r)
    +++ ", " +++ "confirmed: " +++ str_of_bool (confirmed r)
    +++ ", participants: " +++ str_of_Z (participants r).

(** [display_reservations]: the lines printed. *)
Definition display_reservations (reservations : list reservation) : list string :=
  map display_line reservations.

(** [main]: reads [reservations.txt] and displays what was read. *)
Definition main (fs : filesystem) : list string * result unit :=
  let (out, r) := read_reservations fs "reservations.txt" in
  match r with
  | Ok reservations => (out ++ display_reservations reservations, Ok tt)
  | Raise e => (out, Raise e)
  end.

End TaskA.

(** ** Task C: [task_c.py], the functions without the euro sign *)

Module TaskC.
Import Num Cal.

Definition parse_reservation (line : string) : list string :=
  Str.split "|" (Str.strip line).

(** [format_date]: the unpacking needs exactly three parts; then the
    three [int] conversions, the [date] constructor and
    [strftime("%d.%m.%Y")]. *)
Definition format_date (date_str : string) : result string :=
  match Str.split "-" date_str with
  | [year; month; day] =>
      y <- int_of_string year ;;
      m <- int_of_string month ;;
      d <- int_of_string day ;;
      d <- new_date y m d ;;
      Ok (strftime_dmY d)
  | _ => Raise ValueError
  end.

(** [format_time]: [datetime.time(hour, minute)] wants an hour from 0 to
    23 and a minute from 0 to 59; [strftime("%H.%M")] writes two digits
    each. *)
Definition format_time (time_str : string) : result string :=
  match Str.split ":" time_str with
  | [hour; minute] =>
      h <- int_of_string hour ;;
      mi <- int_of_string minute ;;
      t <- new_time h mi ;;
      Ok (Str.zfill 2 (Str.of_Z_nonneg (fst t)) +++ "."
          +++ Str.zfill 2 (Str.of_Z_nonneg (snd t)))
  | _ => Raise ValueError
  end.

Definition format_paid (paid_str : string) : string :=
  if String.eqb paid_str "True" then "Yes" else "No".

End TaskC.

(** ** Vocabulary of the specification *)

Module Spec.
Import Num Cal.

(** The sum of a list of floats taken from left to right, from [0.0]. *)
Definition float_sum (vs : list float) : float := fold_left fadd vs fzero.

(** The values of one field over the days of a week, in the iteration
    order of the mapping. *)
Definition field_values (key : string) (daily : TaskE.WeekDailySummaries)
  : result (list float) :=
  map_result (fun s => Dict.getitem String.eqb s key) (Dict.values daily).

(** A summary that has the six field keys. *)
Definition has_summary_keys (s : TaskE.DailySummary) : bool :=
  forallb (Dict.contains String.eqb s) TaskE.summary_keys.

(** [n] is the integer nearest to the fraction [num / den], for a
    positive [den]: it is at most one half away, and when it is exactly
    one half away it is the even one of the two candidates. *)
Definition nearest_even (num den n : Z) : Prop :=
  2 * Z.abs (n * den - num) <= den
  /\ (2 * Z.abs (n * den - num) = den -> Z.even n = true).

(** The magnitude [m * 2^e] of a finite float, times 100, as a fraction
    of integers. *)
Definition hundredfold (m : positive) (e : Z) : Z * Z :=
  (100 * Zpos m * 2 ^ Z.max e 0, 2 ^ Z.max (- e) 0).

(** [r] is [v] rounded to two decimals: for a finite [v] with sign [s]
    and magnitude [m * 2^e], the float nearest to the decimal number
    [n / 100] with sign [s], where [n] is the integer nearest to
    [100 * m * 2^e]; a zero, an infinity and NaN are kept. *)
Definition round2 (v r : float) : Prop :=
  match v with
  | S754_finite s m e =>
      exists n, nearest_even (fst (hundredfold m e)) (snd (hundredfold m e)) n
                /\ r = float_of_decimal s n (-2)
  | _ => r = v
  end.

(** Reading a formatted value back: comma to period, then [float]. *)
Definition parse_back (s : string) : result float :=
  float_of_string (Str.replace "," "." s).

Definition weekday_names : list string :=
  ["Monday"; "Tuesday"; "Wednesday"; "Thursday"; "Friday"; "Saturday"; "Sunday"].

(** The Gregorian calendar, written out: a year is a leap year when it
    is a multiple of 400, or a multiple of 4 that is not a multiple of
    100; February has 29 days in a leap year and 28 otherwise; April,
    June, September and November have 30 days and the other months 31. *)
Definition leap_year (y : Z) : bool :=
  if y mod 400 =? 0 then true
  else if y mod 100 =? 0 then false
  else y mod 4 =? 0.

Definition month_length (y m : Z) : Z :=
  if m =? 2 then (if leap_year y then 29 else 28)
  else if (m =? 4) || (m =? 6) || (m =? 9) || (m =? 11) then 30
  else 31.

Definition year_length (y : Z) : Z := if leap_year y then 366 else 365.

(** The day after a date. *)
Definition next_day (d : date) : date :=
  if day d <? month_length (year d) (month d)
  then mkdate (year d) (month d) (day d + 1)
  else if month d <? 12 then mkdate (year d) (month d + 1) 1
  else mkdate (year d + 1) 1 1.

(** The days of the years 1 to [n], and the days of the months 1 to [n]
    of the year [y], counted year by year and month by month. *)
Fixpoint days_of_years (n : nat) : Z :=
  match n with
  | O => 0
  | S k => days_of_years k + year_length (Z.of_nat (S k))
  end.

Fixpoint days_of_months (y : Z) (n : nat) : Z :=
  match n with
  | O => 0
  | S k => days_of_months y k + month_length y (Z.of_nat (S k))
  end.

(** The number of a day, counted from 1 January of the year 1 as day 1:
    the days of the years before its year, the days of the months before
    its month, and its day of the month. *)
Definition day_number (d : date) : Z :=
  days_of_years (Z.to_nat (year d - 1))
  + days_of_months (year d) (Z.to_nat (month d - 1))
  + day d.

(** The weekday of a date, Monday 0 to Sunday 6, counted from the
    reference date of ISO 8601: 1 January 2000 is a Saturday. *)
Definition saturday : date := mkdate 2000 1 1.

Definition iso_weekday_index (d : date) : Z :=
  (day_number d - day_number saturday + 5) mod 7.

(** The label of a date: the English name of its weekday. *)
Definition weekday_label (d : date) : string :=
  nth (Z.to_nat (iso_weekday_index d)) weekday_names "".

(** The name of the day after the day of a name. *)
Definition next_name (name : string) : string :=
  if String.eqb name "Monday" then "Tuesday"
  else if String.eqb name "Tuesday" then "Wednesday"
  else if String.eqb name "Wednesday" then "Thursday"
  else if String.eqb name "Thursday" then "Friday"
  else if String.eqb name "Friday" then "Saturday"
  else if String.eqb name "Saturday" then "Sunday"
  else if String.eqb name "Sunday" then "Monday"
  else name.

Definition date_eq_dec (a b : date) : {a = b} + {a <> b}.
Proof. decide equality; apply Z.eq_dec. Defined.

(** The number of distinct dates of a list. *)
Definition distinct_dates (ds : list date) : nat :=
  List.length (nodup date_eq_dec ds).

(** The date of a row of Task D, when its time stamp parses. *)
Definition row_date (parts : TaskD.row) : list date :=
  match (ts <- list_getitem parts 0 ;; fromisoformat ts) with
  | Ok dt => [dt_date dt]
  | Raise _ => []
  end.

Definition row_dates (rows : list TaskD.row) : list date :=
  flat_map row_date rows.

Definition measurement_dates (ms : list TaskE.Measurement) : list date :=
  map (fun m => dt_date (TaskE.timestamp m)) ms.

(** The summary with exactly the six keys, in the order of the code, and
    the values [f] gives them. *)
Definition summary (f : string -> float) : TaskE.DailySummary :=
  map (fun k => (k, f k)) TaskE.summary_keys.

(** The value a summary has under a key ([0.0] when it has none). *)
Definition field_of (s : TaskE.DailySummary) (k : string) : float :=
  match Dict.getitem String.eqb s k with
  | Ok v => v
  | Raise _ => fzero
  end.

(** The field of a measurement that is added under a key. *)
Definition measurement_field (m : TaskE.Measurement) (k : string) : float :=
  if String.eqb k "cons_v1" then TaskE.cons_v1 m
  else if String.eqb k "cons_v2" then TaskE.cons_v2 m
  else if String.eqb k "cons_v3" then TaskE.cons_v3 m
  else if String.eqb k "prod_v1" then TaskE.prod_v1 m
  else if String.eqb k "prod_v2" then TaskE.prod_v2 m
  else TaskE.prod_v3 m.

(** The value Task D keeps for a date: two lists of three totals. *)
Definition totals (c0 c1 c2 p0 p1 p2 : float) : TaskD.day_totals :=
  [("cons", [c0; c1; c2]); ("prod", [p0; p1; p2])].

(** A binary64 value that is not negative: [0.0 <= x]. *)
Definition nonneg (x : float) : bool :=
  valid_binary prec emax x && fle fzero x.

Definition nonneg_measurement (m : TaskE.Measurement) : bool :=
  nonneg (TaskE.cons_v1 m) && nonneg (TaskE.cons_v2 m) && nonneg (TaskE.cons_v3 m)
  && nonneg (TaskE.prod_v1 m) && nonneg (TaskE.prod_v2 m) && nonneg (TaskE.prod_v3 m).

(** A row of Task D whose six values parse to non-negative numbers. *)
Definition nonneg_row (parts : TaskD.row) : bool :=
  forallb (fun i => match TaskD.float_field parts i with
                    | Ok v => nonneg v
                    | Raise _ => false
                    end) [1; 2; 3; 4; 5; 6]%nat.

(** Every summary of the mapping has exactly the six keys. *)
Definition full_keys (daily : TaskE.WeekDailySummaries) : Prop :=
  forall d s, Dict.getitem date_eqb daily d = Ok s ->
              Dict.keys s = TaskE.summary_keys.

(** No value of [daily] is greater than the value that [daily'] has in
    its place. *)
Definition not_decreased (daily daily' : TaskE.WeekDailySummaries) : Prop :=
  forall d s k v,
    Dict.getitem date_eqb daily d = Ok s ->
    Dict.getitem String.eqb s k = Ok v ->
    exists s' v',
      Dict.getitem date_eqb daily' d = Ok s'
      /\ Dict.getitem String.eqb s' k = Ok v'
      /\ fle v v' = true.

(** The same for Task D, where the six values are in two lists. *)
Definition full_lists (daily : TaskD.daily_totals) : Prop :=
  forall d data, Dict.getitem date_eqb daily d = Ok data ->
                 exists c0 c1 c2 p0 p1 p2, data = totals c0 c1 c2 p0 p1 p2.

Definition not_decreased_lists (daily daily' : TaskD.daily_totals) : Prop :=
  forall d c0 c1 c2 p0 p1 p2,
    Dict.getitem date_eqb daily d = Ok (totals c0 c1 c2 p0 p1 p2) ->
    exists c0' c1' c2' p0' p1' p2',
      Dict.getitem date_eqb daily' d = Ok (totals c0' c1' c2' p0' p1' p2')
      /\ fle c0 c0' = true /\ fle c1 c1' = true /\ fle c2 c2' = true
      /\ fle p0 p0' = true /\ fle p1 p1' = true /\ fle p2 p2' = true.

(** The files of the scenario. *)
Definition nl : string := String "010" "".

Definition scenario_lines : list string :=
  [ "timestamp;cons_v1;cons_v2;cons_v3;prod_v1;prod_v2;prod_v3" +++ nl;
    "2025-10-13T00:00:00;100;200;300;10;20;30" +++ nl;
    "2025-10-13T01:00:00;50;50;50;5;5;5" +++ nl ].

Definition scenario_rows : list (list string) :=
  [ Str.split ";" "timestamp;cons_v1;cons_v2;cons_v3;prod_v1;prod_v2;prod_v3";
    Str.split ";" "2025-10-13T00:00:00;100;200;300;10;20;30";
    Str.split ";" "2025-10-13T01:00:00;50;50;50;5;5;5" ].

(** A line without its line end. *)
Fixpoint chomp (s : string) : string :=
  match s with
  | String c s' =>
      match chomp s' with
      | EmptyString =>
          if Ascii.eqb c "010" || Ascii.eqb c "013" then EmptyString
          else String c EmptyString
      | r => String c r
      end
  | EmptyString => EmptyString
  end.

(** What [csv.reader(f, delimiter=";")] yields for lines without quote
    characters: the fields between the delimiters of each line, and no
    field for an empty line. *)
Definition plain_reader (lines : list string) : list (list string) :=
  map (fun l => match chomp l with
                | EmptyString => []
                | s => Str.split ";" s
                end) lines.

Definition one_file (name : string) (lines : list string) : filesystem :=
  fun n => if String.eqb n name then Some lines else None.

Definition no_files : filesystem := fun _ => None.

(** The dates of a list in the order of their first occurrence. *)
Fixpoint first_occurrences (ds : list date) : list date :=
  match ds with
  | [] => []
  | d :: ds' => d :: filter (fun x => negb (date_eqb x d)) (first_occurrences ds')
  end.

(** The measurements of one date, in their order. *)
Definition on_date (d : date) (ms : list TaskE.Measurement) : list TaskE.Measurement :=
  filter (fun m => date_eqb (dt_date (TaskE.timestamp m)) d) ms.

(** The sum of one field over the measurements of one date. *)
Definition day_sum (ms : list TaskE.Measurement) (d : date) (k : string) : float :=
  float_sum (map (fun m => measurement_field m k) (on_date d ms)).

(** Grouping by date: one entry per date, in the order of first
    occurrence, with the sum of each field over the date. *)
Definition grouped_summaries (ms : list TaskE.Measurement)
  : TaskE.WeekDailySummaries :=
  map (fun d => (d, summary (day_sum ms d)))
      (first_occurrences (measurement_dates ms)).

(** The same for the rows of Task D: a row that parses has a date and
    six values. *)
Definition is_ok {A : Type} (r : result A) : bool :=
  match r with Ok _ => true | Raise _ => false end.

Definition row_parses (parts : TaskD.row) : bool :=
  is_ok (ts <- list_getitem parts 0 ;; fromisoformat ts)
  && forallb (fun i => is_ok (TaskD.float_field parts i)) [1; 2; 3; 4; 5; 6]%nat.

Definition row_on_date (d : date) (rows : list TaskD.row) : list TaskD.row :=
  filter (fun parts => existsb (fun x => date_eqb x d) (row_date parts)) rows.

Definition row_value (i : nat) (parts : TaskD.row) : float :=
  match TaskD.float_field parts i with
  | Ok v => v
  | Raise _ => fzero
  end.

Definition row_sum (rows : list TaskD.row) (d : date) (i : nat) : float :=
  float_sum (map (row_value i) (row_on_date d rows)).

Definition grouped_totals (rows : list TaskD.row) : TaskD.daily_totals :=
  map (fun d => (d, totals (row_sum rows d 1) (row_sum rows d 2) (row_sum rows d 3)
                           (row_sum rows d 4) (row_sum rows d 5) (row_sum rows d 6)))
      (first_occurrences (row_dates rows)).

(** A list in strictly ascending order: an element at an earlier
    position is less than one at a later position. *)
Definition ascending {A : Type} (ltb : A -> A -> bool) (l : list A) : Prop :=
  forall i j a b, (i < j)%nat -> nth_error l i = Some a -> nth_error l j = Some b ->
                  ltb a b = true.

(** A row that the reader of Task E keeps, and the measurement it makes
    of it. *)
Definition long_row (row : list string) : bool :=
  negb (Z.of_nat (List.length row) <? 7).

Definition row_measurement (row : list string) : result TaskE.Measurement :=
  ms <- TaskE.read_row [] row ;; list_getitem ms 0.

(** The totals of a week of measurements: every field is the sum, over
    the dates in the order of their first occurrence, of the sums of the
    dates. *)
Definition week_totals (ms : list TaskE.Measurement) : TaskE.DailySummary :=
  summary (fun k => float_sum (map (fun d => day_sum ms d k)
                                   (first_occurrences (measurement_dates ms)))).

(** A float that is a number: not an infinity and not NaN. *)
Definition is_number (v : float) : bool :=
  match v with
  | S754_zero _ | S754_finite _ _ _ => true
  | _ => false
  end.

(** The measurement that a row of Task D stands for: its date and time
    and its six values. *)
Definition measurement_of_row (row : TaskD.row) : TaskE.Measurement :=
  TaskE.mkMeasurement
    (match (ts <- list_getitem row 0 ;; fromisoformat ts) with
     | Ok dt => dt
     | Raise _ => mkdatetime (mkdate 1 1 1) 0 0 0 0
     end)
    (row_value 1 row) (row_value 2 row) (row_value 3 row)
    (row_value 4 row) (row_value 5 row) (row_value 6 row).

(** A date written as [YYYY-MM-DD], and a time written as two digits, a
    separator and two digits. *)
Definition iso_date (d : date) : string :=
  Str.zfill 4 (Str.of_Z_nonneg (year d)) +++ "-"
    +++ Str.zfill 2 (Str.of_Z_nonneg (month d)) +++ "-"
    +++ Str.zfill 2 (Str.of_Z_nonneg (day d)).

Definition iso_time_with (sep : ascii) (h mi : Z) : string :=
  Str.zfill 2 (Str.of_Z_nonneg h) +++ String sep (Str.zfill 2 (Str.of_Z_nonneg mi)).

(** Reading a date written as [dd.mm.yyyy]. *)
Definition parse_dmY (s : string) : option date :=
  match Str.fixed_digits 2 0 s with
  | Some (d, String "."%char r1) =>
      match Str.fixed_digits 2 0 r1 with
      | Some (m, String "."%char r2) =>
          match Str.fixed_digits 4 0 r2 with
          | Some (y, EmptyString) => Some (mkdate y m d)
          | _ => None
          end
      | _ => None
      end
  | _ => None
  end.

(** The measurements of the scenario, and a file system in which each
    of the three weekly files of Task E holds the lines of the scenario. *)
Definition scenario_measurements : list TaskE.Measurement :=
  [TaskE.mkMeasurement (mkdatetime (mkdate 2025 10 13) 0 0 0 0)
     (float_of_Z 100) (float_of_Z 200) (float_of_Z 300)
     (float_of_Z 10) (float_of_Z 20) (float_of_Z 30);
   TaskE.mkMeasurement (mkdatetime (mkdate 2025 10 13) 1 0 0 0)
     (float_of_Z 50) (float_of_Z 50) (float_of_Z 50)
     (float_of_Z 5) (float_of_Z 5) (float_of_Z 5)].

Definition three_weeks : filesystem :=
  fun n => if String.eqb n "week41.csv" || String.eqb n "week42.csv"
              || String.eqb n "week43.csv"
           then Some scenario_lines else None.

End Spec.

(** ** Invariants used in the proofs *)

(** Every value of the mapping is a summary with exactly the six keys. *)
Definition summaries_ok (daily : TaskE.WeekDailySummaries) : Prop :=
  Forall (fun kv => exists f, snd kv = Spec.summary f) daily.

(** The summary a date has before a step: its entry, or zeros. *)
Definition summary_before (daily : TaskE.WeekDailySummaries) (d : Cal.date)
  : string -> Num.float :=
  match Dict.getitem Cal.date_eqb daily d with
  | Ok s => Spec.field_of s
  | Raise _ => fun _ => Num.fzero
  end.

(** Every value of the mapping is two lists of three totals. *)
Definition totals_ok (daily : TaskD.daily_totals) : Prop :=
  Forall (fun kv => exists c0 c1 c2 p0 p1 p2,
              snd kv = Spec.totals c0 c1 c2 p0 p1 p2) daily.

(** Every value of the mapping is a summary of non-negative numbers. *)
Definition summaries_nonneg (daily : TaskE.WeekDailySummaries) : Prop :=
  Forall (fun kv => exists f,
              snd kv = Spec.summary f
              /\ forall k, In k TaskE.summary_keys -> Spec.nonneg (f k) = true)
         daily.

(** Every value of the mapping of Task D holds non-negative numbers. *)
Definition totals_nonneg (daily : TaskD.daily_totals) : Prop :=
  Forall (fun kv => exists c0 c1 c2 p0 p1 p2,
              snd kv = Spec.totals c0 c1 c2 p0 p1 p2
              /\ Spec.nonneg c0 = true /\ Spec.nonneg c1 = true
              /\ Spec.nonneg c2 = true /\ Spec.nonneg p0 = true
              /\ Spec.nonneg p1 = true /\ Spec.nonneg p2 = true)
         daily.

(** The name at the index that [weekday] gives for a date, as both
    scripts look it up. *)
Definition name_at_weekday (d : Cal.date) : string :=
  nth (Z.to_nat (Cal.weekday d)) Spec.weekday_names "".

(** All characters of a string satisfy a test. *)
Fixpoint all_chars (p : ascii -> bool) (s : string) : bool :=
  match s with
  | EmptyString => true
  | String c s' => p c && all_chars p s'
  end.

(** Reading a run of digits: the accumulator is shifted and the value of
    the run is added. *)
Definition reads (ds : string) (n : Z) : Prop :=
  forall a k rest,
    Str.digitpart_loop a k (ds +++ rest)
    = Str.digitpart_loop (a * 10 ^ Z.of_nat (String.length ds) + n)
        (k + String.length ds) rest.

(** A list in which no element is less than an earlier one. *)
Fixpoint nondecreasing {A : Type} (ltb : A -> A -> bool) (l : list A) : Prop :=
  match l with
  | [] => True
  | x :: l' => Forall (fun y => ltb y x = false) l' /\ nondecreasing ltb l'
  end.

(** The last character of a string is not white space. *)
Fixpoint last_not_space (s : string) : bool :=
  match s with
  | EmptyString => false
  | String c EmptyString => negb (Str.is_space c)
  | String _ s' => last_not_space s'
  end.

(** * Properties *)

Unset Implicit Arguments.

(** ** Dictionaries *)

Section DictFacts.
Variables K V : Type.
Variable eqb : K -> K -> bool.
Hypothesis eqb_eq : forall a b, eqb a b = true <-> a = b.

Let eqb_refl (k : K) : eqb k k = true.
Proof. apply eqb_eq. reflexivity. Qed.

Lemma getitem_setitem_same (d : Dict.t K V) k v :
  Dict.getitem eqb (Dict.setitem eqb d k v) k = Ok v.
Proof.
  induction d as [|[k0 v0] d IH]; simpl.
  - now rewrite eqb_refl.
  - destruct (eqb k k0) eqn:E; simpl; rewrite E; auto.
Qed.

Lemma getitem_setitem_other (d : Dict.t K V) k v q :
  q <> k ->
  Dict.getitem eqb (Dict.setitem eqb d k v) q = Dict.getitem eqb d q.
Proof.
  intros Hq.
  assert (Hf : eqb q k = false).
  { destruct (eqb q k) eqn:E; auto. apply eqb_eq in E. contradiction. }
  induction d as [|[k0 v0] d IH]; simpl.
  - now rewrite Hf.
  - destruct (eqb k k0) eqn:E; simpl.
    + apply eqb_eq in E. subst k0. now rewrite Hf.
    + now rewrite IH.
Qed.

Lemma setitem_setitem (d : Dict.t K V) k v v' :
  Dict.setitem eqb (Dict.setitem eqb d k v) k v' = Dict.setitem eqb d k v'.
Proof.
  induction d as [|[k0 v0] d IH]; simpl.
  - now rewrite eqb_refl.
  - destruct (eqb k k0) eqn:E; simpl; rewrite E; congruence.
Qed.

Lemma contains_In (d : Dict.t K V) k :
  Dict.contains eqb d k = true <-> In k (Dict.keys d).
Proof.
  induction d as [|[k0 v0] d IH]; simpl.
  - split; [discriminate | tauto].
  - rewrite orb_true_iff, IH, eqb_eq. intuition congruence.
Qed.

Lemma contains_getitem (d : Dict.t K V) k :
  Dict.contains eqb d k = true -> exists v, Dict.getitem eqb d k = Ok v.
Proof.
  induction d as [|[k0 v0] d IH]; simpl; [discriminate|].
  destruct (eqb k k0); simpl; eauto.
Qed.

Lemma getitem_contains (d : Dict.t K V) k v :
  Dict.getitem eqb d k = Ok v -> Dict.contains eqb d k = true.
Proof.
  induction d as [|[k0 v0] d IH]; simpl; [discriminate|].
  destruct (eqb k k0); simpl; auto.
Qed.

Lemma getitem_In (d : Dict.t K V) k v :
  Dict.getitem eqb d k = Ok v -> In (k, v) d.
Proof.
  induction d as [|[k0 v0] d IH]; simpl; [discriminate|].
  destruct (eqb k k0) eqn:E; auto.
  intros [= ->]. apply eqb_eq in E. subst. auto.
Qed.

Lemma In_getitem (d : Dict.t K V) k v :
  NoDup (Dict.keys d) -> In (k, v) d -> Dict.getitem eqb d k = Ok v.
Proof.
  induction d as [|[k0 v0] d IH]; simpl; [tauto|].
  intros Hnd [H|H].
  - inversion H; subst. now rewrite eqb_refl.
  - inversion Hnd as [|? ? Hnot Hnd']; subst.
    destruct (eqb k k0) eqn:E; auto.
    apply eqb_eq in E. subst k0. exfalso. apply Hnot.
    change k with (fst (k, v)). now apply in_map.
Qed.

Lemma keys_setitem (d : Dict.t K V) k v :
  Dict.keys (Dict.setitem eqb d k v)
  = if Dict.contains eqb d k then Dict.keys d else Dict.keys d ++ [k].
Proof.
  induction d as [|[k0 v0] d IH]; simpl; auto.
  destruct (eqb k k0) eqn:E; simpl; auto.
  rewrite IH. now destruct (Dict.contains eqb d k).
Qed.

Lemma NoDup_keys_setitem (d : Dict.t K V) k v :
  NoDup (Dict.keys d) -> NoDup (Dict.keys (Dict.setitem eqb d k v)).
Proof.
  intros H. rewrite keys_setitem.
  destruct (Dict.contains eqb d k) eqn:E; auto.
  apply NoDup_app; auto.
  - repeat constructor. simpl. tauto.
  - intros x Hx [<-|[]]. apply contains_In in Hx. congruence.
Qed.
End DictFacts.

Arguments getitem_setitem_same {K V} eqb eqb_eq d k v.
Arguments getitem_setitem_other {K V} eqb eqb_eq d k v q _.
Arguments setitem_setitem {K V} eqb eqb_eq d k v v'.
Arguments contains_In {K V} eqb eqb_eq d k.
Arguments contains_getitem {K V} eqb d k _.
Arguments getitem_contains {K V} eqb d k v _.
Arguments getitem_In {K V} eqb eqb_eq d k v _.
Arguments In_getitem {K V} eqb eqb_eq d k v _ _.
Arguments keys_setitem {K V} eqb d k v.
Arguments NoDup_keys_setitem {K V} eqb eqb_eq d k v _.

(** ** Loops *)

Lemma for_each_app {A S : Type} (body : S -> A -> result S) (l1 l2 : list A) (s : S) :
  for_each (l1 ++ l2) body s = (s' <- for_each l1 body s ;; for_each l2 body s').
Proof.
  revert s. induction l1 as [|x l1 IH]; intros s; simpl; auto.
  destruct (body s x); simpl; auto.
Qed.

Lemma for_each_ext {A S : Type} (f g : S -> A -> result S) (l : list A) (s : S) :
  (forall s x, f s x = g s x) -> for_each l f s = for_each l g s.
Proof.
  intros H. revert s. induction l as [|x l IH]; intros s; simpl; auto.
  rewrite H. destruct (g s x); simpl; auto.
Qed.

Lemma for_each_map {A B S : Type} (h : A -> B) (body : S -> B -> result S)
      (l : list A) (s : S) :
  for_each (map h l) body s = for_each l (fun s x => body s (h x)) s.
Proof.
  revert s. induction l as [|x l IH]; intros s; simpl; auto.
  destruct (body s (h x)); simpl; auto.
Qed.

Lemma list_getitem_firstn {A : Type} (l : list A) (n i : nat) :
  (i < n)%nat -> list_getitem (firstn n l) i = list_getitem l i.
Proof.
  unfold list_getitem. revert l i.
  induction n as [|n IH]; intros l i Hi; [lia|].
  destruct l as [|a l]; simpl; auto.
  destruct i as [|i]; simpl; auto.
  apply IH. lia.
Qed.

(** ** The readers *)

Lemma taskd_read_line_short (rows : list TaskD.row) (line : string) :
  (List.length (Str.split ";" line) < 7)%nat -> TaskD.read_line rows line = rows.
Proof.
  intros H. unfold TaskD.read_line.
  destruct (String.eqb line ""); auto.
  destruct (Z.ltb_spec (Z.of_nat (List.length (Str.split ";" line))) 7); auto; lia.
Qed.

Lemma taskd_read_line_long (rows : list TaskD.row) (line : string) :
  (7 <= List.length (Str.split ";" line))%nat ->
  TaskD.read_line rows line = rows ++ [Str.split ";" line].
Proof.
  intros H. unfold TaskD.read_line.
  destruct (String.eqb_spec line "") as [->|_].
  - simpl in H. lia.
  - destruct (Z.ltb_spec (Z.of_nat (List.length (Str.split ";" line))) 7); auto; lia.
Qed.

Lemma taske_read_row_short (ms : list TaskE.Measurement) (row : list string) :
  (List.length row < 7)%nat -> TaskE.read_row ms row = Ok ms.
Proof.
  intros H. unfold TaskE.read_row.
  destruct (Z.ltb_spec (Z.of_nat (List.length row)) 7); auto; lia.
Qed.

Lemma taske_read_row_firstn (ms : list TaskE.Measurement) (row : list string) :
  TaskE.read_row ms row = TaskE.read_row ms (firstn 7 row).
Proof.
  destruct (Nat.lt_ge_cases (List.length row) 7) as [H|H].
  - now rewrite firstn_all2 by lia.
  - unfold TaskE.read_row.
    rewrite length_firstn, Nat.min_l by lia.
    destruct (Z.ltb_spec (Z.of_nat (List.length row)) 7); [lia|].
    change (Z.of_nat 7 <? 7) with false. cbv iota.
    now rewrite !list_getitem_firstn by lia.
Qed.

Lemma taskd_daily_step_firstn (daily : TaskD.daily_totals) (parts : TaskD.row) :
  TaskD.daily_step daily parts = TaskD.daily_step daily (firstn 7 parts).
Proof.
  unfold TaskD.daily_step, TaskD.float_field.
  now rewrite !list_getitem_firstn by lia.
Qed.

Lemma taska_short_line_raises (line : string) :
  (List.length (Str.split ";" (Str.strip line)) < 6)%nat ->
  exists e, TaskA.parse_reservation_line line = Raise e.
Proof.
  unfold TaskA.parse_reservation_line.
  destruct (Str.split ";" (Str.strip line)) as [|p0 [|p1 [|p2 [|p3 [|p4 [|p5 l]]]]]];
    simpl; intros H; eauto; try lia.
  - destruct (TaskA.strptime p2); simpl; eauto.
  - destruct (TaskA.strptime p2); simpl; eauto.
    destruct (TaskA.strptime p3); simpl; eauto.
  - destruct (TaskA.strptime p2); simpl; eauto.
    destruct (TaskA.strptime p3); simpl; eauto.
Qed.

Lemma taska_for_each_raises (file : list string) (line : string)
      (acc : list TaskA.reservation) :
  In line file ->
  (exists e, TaskA.parse_reservation_line line = Raise e) ->
  exists e, for_each file TaskA.read_line acc = Raise e.
Proof.
  intros Hin [e He]. revert acc.
  induction file as [|l file IH]; intros acc; [contradiction|].
  simpl. destruct Hin as [->|Hin].
  - unfold TaskA.read_line at 1. rewrite He. simpl. eauto.
  - unfold TaskA.read_line at 1.
    destruct (TaskA.parse_reservation_line l); simpl; eauto.
Qed.

(** ** The scenario of the specification *)

(** C1: the two rows of 2025-10-13 aggregate to one group, keyed by that
    date, with the totals 150, 250, 350 and 15, 25, 35 Wh, in Task D and
    in Task E, and the total 150 Wh is formatted as "0,15". *)
Theorem scenario_one_group :
  (rows <- TaskD.read_data (Spec.one_file "week42.csv" Spec.scenario_lines) "week42.csv" ;;
   TaskD.calculate_daily_totals rows)
  = Ok [(Cal.mkdate 2025 10 13,
         [("cons", [Num.float_of_Z 150; Num.float_of_Z 250; Num.float_of_Z 350]);
          ("prod", [Num.float_of_Z 15; Num.float_of_Z 25; Num.float_of_Z 35])])]
  /\ TaskD.format_kwh (Num.float_of_Z 150) = "0,15"
  /\ (ms <- TaskE.read_data Spec.plain_reader
            (Spec.one_file "week42.csv" Spec.scenario_lines) "week42.csv" ;;
      TaskE.calculate_daily_summaries ms)
     = Ok [(Cal.mkdate 2025 10 13,
            [("cons_v1", Num.float_of_Z 150); ("cons_v2", Num.float_of_Z 250);
             ("cons_v3", Num.float_of_Z 350); ("prod_v1", Num.float_of_Z 15);
             ("prod_v2", Num.float_of_Z 25); ("prod_v3", Num.float_of_Z 35)])]
  /\ (ms <- TaskE.read_rows Spec.scenario_rows ;; TaskE.calculate_daily_summaries ms)
     = (ms <- TaskE.read_data Spec.plain_reader
              (Spec.one_file "week42.csv" Spec.scenario_lines) "week42.csv" ;;
        TaskE.calculate_daily_summaries ms)
  /\ TaskE.format_kwh_finnish (TaskE.wh_to_kwh (Num.float_of_Z 150)) = "0,15".
Proof. vm_compute. repeat split. Qed.

(** ** Short lines *)

(** C3, as stated, fails for the reservation reader: a line of two
    fields is not skipped, the read ends with [IndexError]; without that
    line the same file is read normally. *)
Lemma reservation_short_line_not_skipped :
  let short := "alice;room 1" +++ Spec.nl in
  let good := "bob;room 2;2025-01-01 10:00;2025-01-01 11:30;True;3" +++ Spec.nl in
  List.length (Str.split ";" (Str.strip short)) = 2%nat
  /\ TaskA.read_reservations (Spec.one_file "reservations.txt" [short; good])
       "reservations.txt" = ([], Raise IndexError)
  /\ TaskA.read_reservations (Spec.one_file "reservations.txt" [good])
       "reservations.txt"
     = ([], Ok [TaskA.mkreservation "bob" "room 2"
                  (Cal.mkdatetime (Cal.mkdate 2025 1 1) 10 0 0 0)
                  (Cal.mkdatetime (Cal.mkdate 2025 1 1) 11 30 0 0) true 3]).
Proof. vm_compute. repeat split. Qed.

(** C3, amended: the measurement readers of Task D and Task E skip a
    line (a row) of fewer than seven fields and go on with the next one;
    the reservation reader has no such check, and a line of fewer than
    six fields anywhere in its file ends the read with an exception. *)
Theorem short_line_skipped_by_measurement_readers
        (hdr line : string) (pre post : list string)
        (rhdr short : list string) (rpre rpost : list (list string))
        (fs : filesystem) (filename aline : string) (file : list string) :
  (List.length (Str.split ";" (Str.strip line)) < 7)%nat ->
  (List.length short < 7)%nat ->
  (List.length (Str.split ";" (Str.strip aline)) < 6)%nat ->
  fs filename = Some file ->
  In aline file ->
  TaskD.read_lines (hdr :: pre ++ line :: post) = TaskD.read_lines (hdr :: pre ++ post)
  /\ TaskE.read_rows (rhdr :: rpre ++ short :: rpost)
     = TaskE.read_rows (rhdr :: rpre ++ rpost)
  /\ exists e, TaskA.read_reservations fs filename = ([], Raise e).
Proof.
  intros Hline Hshort Haline Hfile Hin. split; [|split].
  - unfold TaskD.read_lines. simpl.
    rewrite !map_app. simpl. rewrite !fold_left_app. simpl.
    now rewrite taskd_read_line_short.
  - unfold TaskE.read_rows. simpl.
    rewrite !for_each_app. simpl.
    destruct (for_each rpre TaskE.read_row []); simpl; auto.
    now rewrite taske_read_row_short.
  - unfold TaskA.read_reservations. rewrite Hfile.
    destruct (taska_for_each_raises file aline [] Hin
                (taska_short_line_raises aline Haline)) as [e He].
    exists e. now rewrite He.
Qed.

Lemma short_line_skipped_witness :
  TaskD.read_lines ("h" :: ["a;b;c;d;e;f;g"] ++ "x;y" :: ["1;2;3;4;5;6;7"])
  = TaskD.read_lines ("h" :: ["a;b;c;d;e;f;g"] ++ ["1;2;3;4;5;6;7"])
  /\ TaskE.read_rows (["h"] :: [] ++ ["x"; "y"] :: [])
     = TaskE.read_rows (["h"] :: [] ++ [])
  /\ exists e, TaskA.read_reservations (Spec.one_file "r.txt" ["x;y"]) "r.txt"
               = ([], Raise e).
Proof.
  apply (short_line_skipped_by_measurement_readers
           "h" "x;y" ["a;b;c;d;e;f;g"] ["1;2;3;4;5;6;7"]
           ["h"] ["x"; "y"] [] []
           (Spec.one_file "r.txt" ["x;y"]) "r.txt" "x;y" ["x;y"]).
  - vm_compute. lia.
  - simpl. lia.
  - vm_compute. lia.
  - reflexivity.
  - simpl. auto.
Defined.

(** ** The header line *)

(** C4, as stated, fails for the reservation reader: the first line of
    its file is read as a reservation, and a header there ends the read
    with [ValueError]. *)
Lemma reservation_first_line_is_data :
  let good := "bob;room 2;2025-01-01 10:00;2025-01-01 11:30;True;3" +++ Spec.nl in
  let head := "user_name;resource;start;end;confirmed;participants" +++ Spec.nl in
  TaskA.read_reservations (Spec.one_file "reservations.txt" [good])
    "reservations.txt"
  = ([], Ok [TaskA.mkreservation "bob" "room 2"
               (Cal.mkdatetime (Cal.mkdate 2025 1 1) 10 0 0 0)
               (Cal.mkdatetime (Cal.mkdate 2025 1 1) 11 30 0 0) true 3])
  /\ TaskA.read_reservations (Spec.one_file "reservations.txt" [head; good])
       "reservations.txt" = ([], Raise ValueError).
Proof. vm_compute. repeat split. Qed.

(** C4, amended: the measurement readers of Task D and Task E drop the
    first line (Task E: the first row of the reader) unread: the result
    is what the remaining lines give, whatever the first one contains,
    and reading an existing file in Task D never fails.  The reservation
    reader has no header: it parses the first line like every other. *)
Theorem header_dropped_by_measurement_readers
        (fs : filesystem) (filename hdr : string) (rest : list string)
        (csv_reader : list string -> list (list string))
        (rhdr : list string) (rows : list (list string)) :
  fs filename = Some (hdr :: rest) ->
  csv_reader (hdr :: rest) = rhdr :: rows ->
  TaskD.read_data fs filename
  = Ok (fold_left TaskD.read_line (map Str.strip rest) [])
  /\ TaskE.read_data csv_reader fs filename = for_each rows TaskE.read_row []
  /\ TaskA.read_reservations fs filename
     = ([], r <- TaskA.parse_reservation_line hdr ;;
            for_each rest TaskA.read_line [r]).
Proof.
  intros Hfs Hcsv.
  unfold TaskD.read_data, TaskE.read_data, TaskA.read_reservations, open_read.
  rewrite Hfs. simpl. rewrite Hcsv. repeat split.
  f_equal. unfold TaskA.read_line at 1.
  destruct (TaskA.parse_reservation_line hdr); reflexivity.
Qed.

Lemma header_dropped_witness :
  TaskD.read_data (Spec.one_file "week42.csv" Spec.scenario_lines) "week42.csv"
  = Ok (fold_left TaskD.read_line (map Str.strip (tl Spec.scenario_lines)) [])
  /\ TaskE.read_data Spec.plain_reader
       (Spec.one_file "week42.csv" Spec.scenario_lines) "week42.csv"
     = for_each (tl Spec.scenario_rows) TaskE.read_row []
  /\ TaskA.read_reservations (Spec.one_file "week42.csv" Spec.scenario_lines)
       "week42.csv"
     = ([], r <- TaskA.parse_reservation_line (hd "" Spec.scenario_lines) ;;
            for_each (tl Spec.scenario_lines) TaskA.read_line [r]).
Proof.
  apply (header_dropped_by_measurement_readers
           (Spec.one_file "week42.csv" Spec.scenario_lines) "week42.csv"
           (hd "" Spec.scenario_lines) (tl Spec.scenario_lines)
           Spec.plain_reader (hd [] Spec.scenario_rows)
           (tl Spec.scenario_rows)); vm_compute; reflexivity.
Defined.

(** ** A missing file *)

(** C7: when the file does not exist, [read_reservations] prints the
    notice and returns the empty list, and [read_data] of Task D and of
    Task E raise [FileNotFoundError]. *)
Theorem missing_file
        (fs : filesystem) (filename : string)
        (csv_reader : list string -> list (list string)) :
  fs filename = None ->
  TaskA.read_reservations fs filename
  = (["File '" +++ filename +++ "' not found."], Ok [])
  /\ TaskD.read_data fs filename = Raise FileNotFoundError
  /\ TaskE.read_data csv_reader fs filename = Raise FileNotFoundError.
Proof.
  intros H.
  unfold TaskA.read_reservations, TaskD.read_data, TaskE.read_data, open_read.
  now rewrite H.
Qed.

Lemma missing_file_witness :
  TaskA.read_reservations Spec.no_files "reservations.txt"
  = (["File 'reservations.txt' not found."], Ok [])
  /\ TaskD.read_data Spec.no_files "reservations.txt" = Raise FileNotFoundError
  /\ TaskE.read_data Spec.plain_reader Spec.no_files "reservations.txt"
     = Raise FileNotFoundError.
Proof.
  apply (missing_file Spec.no_files "reservations.txt" Spec.plain_reader).
  reflexivity.
Defined.

(** ** Extra fields *)

(** C10: a line of more than seven fields is accepted by the measurement
    readers, and the fields after the seventh do not influence the daily
    totals: every row can be cut to its first seven fields. *)
Theorem extra_fields_ignored
        (rows all : list TaskD.row) (line : string)
        (ms : list TaskE.Measurement) (row rhdr : list string)
        (rrows : list (list string)) :
  (7 < List.length (Str.split ";" line))%nat ->
  (7 < List.length row)%nat ->
  TaskD.read_line rows line = rows ++ [Str.split ";" line]
  /\ TaskD.calculate_daily_totals all
     = TaskD.calculate_daily_totals (map (firstn 7) all)
  /\ TaskE.read_row ms row = TaskE.read_row ms (firstn 7 row)
  /\ ((exists m, TaskE.read_row ms row = Ok (ms ++ [m]))
      \/ (exists e, TaskE.read_row ms row = Raise e))
  /\ TaskE.read_rows (rhdr :: rrows) = TaskE.read_rows (rhdr :: map (firstn 7) rrows).
Proof.
  intros Hline Hrow. repeat split.
  - apply taskd_read_line_long. lia.
  - unfold TaskD.calculate_daily_totals. rewrite for_each_map.
    apply for_each_ext. intros. apply taskd_daily_step_firstn.
  - apply taske_read_row_firstn.
  - unfold TaskE.read_row.
    destruct (Z.ltb_spec (Z.of_nat (List.length row)) 7); [lia|].
    repeat match goal with
           | |- context [bind ?r _] =>
               lazymatch r with
               | bind _ _ => fail
               | _ => destruct r; simpl; eauto
               end
           end.
  - unfold TaskE.read_rows. simpl. rewrite for_each_map.
    apply for_each_ext. intros. apply taske_read_row_firstn.
Qed.

Lemma extra_fields_witness :
  let line := "2025-10-13T00:00:00;100;200;300;10;20;30;extra;more" in
  let row := Str.split ";" line in
  TaskD.read_line [] line = [] ++ [Str.split ";" line]
  /\ TaskD.calculate_daily_totals [row]
     = TaskD.calculate_daily_totals (map (firstn 7) [row])
  /\ TaskE.read_row [] row = TaskE.read_row [] (firstn 7 row)
  /\ ((exists m, TaskE.read_row [] row = Ok ([] ++ [m]))
      \/ (exists e, TaskE.read_row [] row = Raise e))
  /\ TaskE.read_rows ([] :: [row]) = TaskE.read_rows ([] :: map (firstn 7) [row]).
Proof.
  apply (extra_fields_ignored
           [] [Str.split ";" "2025-10-13T00:00:00;100;200;300;10;20;30;extra;more"]
           "2025-10-13T00:00:00;100;200;300;10;20;30;extra;more" []
           (Str.split ";" "2025-10-13T00:00:00;100;200;300;10;20;30;extra;more") []
           [Str.split ";" "2025-10-13T00:00:00;100;200;300;10;20;30;extra;more"]);
    vm_compute; lia.
Defined.

(** ** The weekly roll-up *)

Section Rollup.
Import Num.

Lemma has_summary_keys_getitem (s : TaskE.DailySummary) (k : string) :
  Spec.has_summary_keys s = true -> In k TaskE.summary_keys ->
  Dict.getitem String.eqb s k = Ok (Spec.field_of s k).
Proof.
  unfold Spec.has_summary_keys. rewrite forallb_forall. intros H Hk.
  destruct (contains_getitem String.eqb s k (H k Hk)) as [v Hv].
  unfold Spec.field_of. now rewrite Hv.
Qed.

Lemma add_day_summary (f : string -> float) (s : TaskE.DailySummary) :
  Spec.has_summary_keys s = true ->
  TaskE.add_day (Spec.summary f) s = Ok (Spec.summary (fun k => fadd (f k) (Spec.field_of s k))).
Proof.
  intros H.
  unfold TaskE.add_day, Spec.summary, TaskE.add_key. simpl.
  repeat (rewrite (has_summary_keys_getitem s) by (auto; simpl; tauto); simpl).
  reflexivity.
Qed.

Lemma sum_days_summary (vals : list TaskE.DailySummary) (f : string -> float) :
  forallb Spec.has_summary_keys vals = true ->
  for_each vals TaskE.add_day (Spec.summary f)
  = Ok (Spec.summary (fun k => fold_left fadd (map (fun s => Spec.field_of s k) vals) (f k))).
Proof.
  revert f. induction vals as [|s vals IH]; intros f H; simpl in *.
  - reflexivity.
  - apply andb_true_iff in H. destruct H as [Hs Hvals].
    rewrite add_day_summary by assumption. simpl.
    now rewrite IH.
Qed.

Lemma field_values_summary (vals : list TaskE.DailySummary) (k : string) :
  forallb Spec.has_summary_keys vals = true -> In k TaskE.summary_keys ->
  map_result (fun s => Dict.getitem String.eqb s k) vals
  = Ok (map (fun s => Spec.field_of s k) vals).
Proof.
  intros H Hk. induction vals as [|s vals IH]; simpl in *; auto.
  apply andb_true_iff in H. destruct H as [Hs Hvals].
  rewrite has_summary_keys_getitem by assumption. simpl.
  now rewrite IH.
Qed.

Lemma getitem_summary (f : string -> float) (k : string) :
  In k TaskE.summary_keys -> Dict.getitem String.eqb (Spec.summary f) k = Ok (f k).
Proof.
  simpl. intros H.
  repeat (destruct H as [<-|H]; [reflexivity|]). contradiction.
Qed.

(** C2: for a mapping whose values all have the six field keys,
    [sum_week_totals] returns a summary with the six keys in which every
    field is the sum, taken from left to right from 0.0 in the iteration
    order of the mapping, of that field over the days. *)
Theorem weekly_rollup_is_fieldwise_sum
        (daily : TaskE.WeekDailySummaries) (key : string) :
  forallb Spec.has_summary_keys (Dict.values daily) = true ->
  In key TaskE.summary_keys ->
  exists totals vs,
    TaskE.sum_week_totals daily = Ok totals
    /\ Dict.keys totals = TaskE.summary_keys
    /\ Spec.field_values key daily = Ok vs
    /\ Dict.getitem String.eqb totals key = Ok (Spec.float_sum vs).
Proof.
  intros H Hk.
  exists (Spec.summary (fun k => fold_left fadd
                            (map (fun s => Spec.field_of s k) (Dict.values daily)) fzero)).
  exists (map (fun s => Spec.field_of s key) (Dict.values daily)).
  split; [|split; [|split]].
  - unfold TaskE.sum_week_totals.
    change TaskE.new_summary with (Spec.summary (fun _ => fzero)).
    now apply sum_days_summary.
  - reflexivity.
  - now apply field_values_summary.
  - now rewrite getitem_summary.
Qed.
End Rollup.

Lemma weekly_rollup_witness :
  let daily : TaskE.WeekDailySummaries :=
    [(Cal.mkdate 2025 10 13,
       [("cons_v1", Num.float_of_Z 150); ("cons_v2", Num.float_of_Z 250);
        ("cons_v3", Num.float_of_Z 350); ("prod_v1", Num.float_of_Z 15);
        ("prod_v2", Num.float_of_Z 25); ("prod_v3", Num.float_of_Z 35)]);
     (Cal.mkdate 2025 10 14,
       [("cons_v1", Num.float_of_Z 1); ("cons_v2", Num.float_of_Z 2);
        ("cons_v3", Num.float_of_Z 3); ("prod_v1", Num.float_of_Z 4);
        ("prod_v2", Num.float_of_Z 5); ("prod_v3", Num.float_of_Z 6)])] in
  exists totals vs,
    TaskE.sum_week_totals daily = Ok totals
    /\ Dict.keys totals = TaskE.summary_keys
    /\ Spec.field_values "prod_v2" daily = Ok vs
    /\ Dict.getitem String.eqb totals "prod_v2" = Ok (Spec.float_sum vs).
Proof.
  apply weekly_rollup_is_fieldwise_sum.
  - vm_compute. reflexivity.
  - simpl. tauto.
Defined.

Example weekly_rollup_example :
  TaskE.sum_week_totals
    [(Cal.mkdate 2025 10 13,
       [("cons_v1", Num.float_of_Z 150); ("cons_v2", Num.float_of_Z 250);
        ("cons_v3", Num.float_of_Z 350); ("prod_v1", Num.float_of_Z 15);
        ("prod_v2", Num.float_of_Z 25); ("prod_v3", Num.float_of_Z 35)]);
     (Cal.mkdate 2025 10 14,
       [("prod_v3", Num.float_of_Z 6); ("cons_v1", Num.float_of_Z 1);
        ("cons_v2", Num.float_of_Z 2); ("cons_v3", Num.float_of_Z 3);
        ("prod_v1", Num.float_of_Z 4); ("prod_v2", Num.float_of_Z 5)])]
  = Ok [("cons_v1", Num.float_of_Z 151); ("cons_v2", Num.float_of_Z 252);
        ("cons_v3", Num.float_of_Z 353); ("prod_v1", Num.float_of_Z 19);
        ("prod_v2", Num.float_of_Z 30); ("prod_v3", Num.float_of_Z 41)]
  /\ TaskE.sum_week_totals [(Cal.mkdate 2025 10 13, [("cons_v1", Num.fzero)])]
     = Raise KeyError.
Proof. vm_compute. split; reflexivity. Qed.

(** ** The aggregation of Task E *)

Lemma date_eqb_eq (a b : Cal.date) : Cal.date_eqb a b = true <-> a = b.
Proof.
  destruct a as [y m d], b as [y' m' d']. unfold Cal.date_eqb. simpl.
  rewrite !andb_true_iff, !Z.eqb_eq. split.
  - intros [[-> ->] ->]. reflexivity.
  - intros [= -> -> ->]. auto.
Qed.

Lemma Forall_setitem {K V : Type} (eqb : K -> K -> bool) (Q : V -> Prop)
      (d : Dict.t K V) (k : K) (v : V) :
  Forall (fun kv => Q (snd kv)) d -> Q v ->
  Forall (fun kv => Q (snd kv)) (Dict.setitem eqb d k v).
Proof.
  intros H Hv. induction d as [|[k0 v0] d IH]; simpl.
  - repeat constructor. exact Hv.
  - inversion H; subst. destruct (eqb k k0); constructor; auto.
Qed.

Lemma summaries_ok_getitem (daily : TaskE.WeekDailySummaries) d s :
  summaries_ok daily -> Dict.getitem Cal.date_eqb daily d = Ok s ->
  exists f, s = Spec.summary f.
Proof.
  intros H Hg. apply (getitem_In Cal.date_eqb date_eqb_eq) in Hg.
  unfold summaries_ok in H. rewrite Forall_forall in H. exact (H _ Hg).
Qed.

(** The six additions of one step, on an entry that is a summary. *)
Lemma taske_six_additions (daily : TaskE.WeekDailySummaries) d f
      (m : TaskE.Measurement) :
  Dict.getitem Cal.date_eqb daily d = Ok (Spec.summary f) ->
  (daily <- TaskE.add_to daily d "cons_v1" (TaskE.cons_v1 m) ;;
   daily <- TaskE.add_to daily d "cons_v2" (TaskE.cons_v2 m) ;;
   daily <- TaskE.add_to daily d "cons_v3" (TaskE.cons_v3 m) ;;
   daily <- TaskE.add_to daily d "prod_v1" (TaskE.prod_v1 m) ;;
   daily <- TaskE.add_to daily d "prod_v2" (TaskE.prod_v2 m) ;;
   TaskE.add_to daily d "prod_v3" (TaskE.prod_v3 m))
  = Ok (Dict.setitem Cal.date_eqb daily d
          (Spec.summary (fun k => Num.fadd (f k) (Spec.measurement_field m k)))).
Proof.
  intros H. unfold TaskE.add_to at 1. rewrite H. simpl.
  repeat (unfold TaskE.add_to at 1;
          rewrite (getitem_setitem_same Cal.date_eqb date_eqb_eq); simpl;
          rewrite (setitem_setitem Cal.date_eqb date_eqb_eq)).
  reflexivity.
Qed.

Lemma taske_daily_step_ok (daily : TaskE.WeekDailySummaries) (m : TaskE.Measurement) :
  summaries_ok daily ->
  TaskE.daily_step daily m
  = Ok (Dict.setitem Cal.date_eqb daily (Cal.dt_date (TaskE.timestamp m))
          (Spec.summary
             (fun k => Num.fadd
                         (summary_before daily (Cal.dt_date (TaskE.timestamp m)) k)
                         (Spec.measurement_field m k)))).
Proof.
  intros Hok. unfold TaskE.daily_step, summary_before.
  set (d := Cal.dt_date (TaskE.timestamp m)).
  destruct (Dict.contains Cal.date_eqb daily d) eqn:Hc.
  - destruct (contains_getitem Cal.date_eqb daily d Hc) as [s Hs].
    destruct (summaries_ok_getitem daily d s Hok Hs) as [f ->].
    rewrite Hs. now rewrite (taske_six_additions daily d f m Hs).
  - assert (Hr : Dict.getitem Cal.date_eqb daily d = Raise KeyError).
    { destruct (Dict.getitem Cal.date_eqb daily d) eqn:Hg.
      - apply getitem_contains in Hg. congruence.
      - clear -Hg. induction daily as [|[k0 v0] daily IH]; simpl in *.
        + congruence.
        + destruct (Cal.date_eqb d k0); auto. discriminate. }
    rewrite Hr.
    change TaskE.new_summary with (Spec.summary (fun _ => Num.fzero)).
    rewrite (taske_six_additions _ d (fun _ => Num.fzero) m
               (getitem_setitem_same Cal.date_eqb date_eqb_eq daily d _)).
    now rewrite (setitem_setitem Cal.date_eqb date_eqb_eq).
Qed.

Lemma taske_daily_step_inv (daily daily' : TaskE.WeekDailySummaries)
      (m : TaskE.Measurement) :
  summaries_ok daily -> NoDup (Dict.keys daily) ->
  TaskE.daily_step daily m = Ok daily' ->
  summaries_ok daily' /\ NoDup (Dict.keys daily')
  /\ forall d, In d (Dict.keys daily')
               <-> In d (Dict.keys daily) \/ d = Cal.dt_date (TaskE.timestamp m).
Proof.
  intros Hok Hnd Hstep. rewrite taske_daily_step_ok in Hstep by assumption.
  injection Hstep as <-. split; [|split].
  - apply (Forall_setitem Cal.date_eqb (fun s => exists f, s = Spec.summary f));
      eauto.
  - apply NoDup_keys_setitem; auto. apply date_eqb_eq.
  - intros d. rewrite keys_setitem.
    destruct (Dict.contains Cal.date_eqb daily _) eqn:Hc.
    + apply (contains_In Cal.date_eqb date_eqb_eq) in Hc.
      intuition (subst; auto).
    + rewrite in_app_iff. simpl. intuition.
Qed.

Lemma taske_for_each_inv (ms : list TaskE.Measurement)
      (daily0 : TaskE.WeekDailySummaries) :
  summaries_ok daily0 -> NoDup (Dict.keys daily0) ->
  exists daily,
    for_each ms TaskE.daily_step daily0 = Ok daily
    /\ summaries_ok daily /\ NoDup (Dict.keys daily)
    /\ forall d, In d (Dict.keys daily)
                 <-> In d (Dict.keys daily0) \/ In d (Spec.measurement_dates ms).
Proof.
  revert daily0. induction ms as [|m ms IH]; intros daily0 Hok Hnd; simpl.
  - exists daily0. intuition.
  - rewrite taske_daily_step_ok by assumption. simpl.
    destruct (taske_daily_step_inv daily0 _ m Hok Hnd
                (taske_daily_step_ok daily0 m Hok)) as (Hok' & Hnd' & Hk').
    destruct (IH _ Hok' Hnd') as (daily & Hrun & Hok'' & Hnd'' & Hk'').
    exists daily. repeat split; auto.
    + intros H. apply Hk'' in H. rewrite Hk' in H. intuition.
    + intros H. apply Hk''. rewrite Hk'. intuition.
Qed.

(** Sorting keeps the elements. *)
Lemma insort_perm {A : Type} (ltb : A -> A -> bool) (x : A) (l : list A) :
  Permutation (insort ltb x l) (x :: l).
Proof.
  induction l as [|y l IH]; simpl; auto.
  destruct (ltb x y); auto.
  rewrite IH. apply perm_swap.
Qed.

Lemma sorted_perm {A : Type} (ltb : A -> A -> bool) (l : list A) :
  Permutation (sorted ltb l) l.
Proof.
  unfold sorted.
  assert (G : forall acc, Permutation (fold_left (fun acc x => insort ltb x acc) l acc)
                                      (acc ++ l)).
  { induction l as [|x l IH]; intros acc; simpl.
    - now rewrite app_nil_r.
    - rewrite IH, insort_perm. simpl. apply Permutation_middle. }
  exact (G []).
Qed.

(** ** The aggregation of Task D *)

Lemma bind_ok {A B : Type} (r : result A) (k : A -> result B) (b : B) :
  bind r k = Ok b -> exists a, r = Ok a /\ k a = Ok b.
Proof. destruct r; simpl; [eauto | discriminate]. Qed.

Lemma bind_Ok {A B : Type} (a : A) (k : A -> result B) : bind (Ok a) k = k a.
Proof. reflexivity. Qed.

Lemma totals_ok_getitem (daily : TaskD.daily_totals) d data :
  totals_ok daily -> Dict.getitem Cal.date_eqb daily d = Ok data ->
  exists c0 c1 c2 p0 p1 p2, data = Spec.totals c0 c1 c2 p0 p1 p2.
Proof.
  intros H Hg. apply (getitem_In Cal.date_eqb date_eqb_eq) in Hg.
  unfold totals_ok in H. rewrite Forall_forall in H. exact (H _ Hg).
Qed.

Lemma taskd_six_additions (daily : TaskD.daily_totals) d c0 c1 c2 p0 p1 p2
      v1 v2 v3 v4 v5 v6 :
  Dict.getitem Cal.date_eqb daily d = Ok (Spec.totals c0 c1 c2 p0 p1 p2) ->
  (daily <- TaskD.add_to daily d "cons" 0 v1 ;;
   daily <- TaskD.add_to daily d "cons" 1 v2 ;;
   daily <- TaskD.add_to daily d "cons" 2 v3 ;;
   daily <- TaskD.add_to daily d "prod" 0 v4 ;;
   daily <- TaskD.add_to daily d "prod" 1 v5 ;;
   TaskD.add_to daily d "prod" 2 v6)
  = Ok (Dict.setitem Cal.date_eqb daily d
          (Spec.totals (Num.fadd c0 v1) (Num.fadd c1 v2) (Num.fadd c2 v3)
                       (Num.fadd p0 v4) (Num.fadd p1 v5) (Num.fadd p2 v6))).
Proof.
  intros H. unfold TaskD.add_to at 1. rewrite H. simpl.
  repeat (unfold TaskD.add_to at 1;
          rewrite (getitem_setitem_same Cal.date_eqb date_eqb_eq); simpl;
          rewrite (setitem_setitem Cal.date_eqb date_eqb_eq)).
  reflexivity.
Qed.

Lemma contains_false_getitem {K V : Type} (eqb : K -> K -> bool)
      (d : Dict.t K V) (k : K) :
  Dict.contains eqb d k = false -> Dict.getitem eqb d k = Raise KeyError.
Proof.
  induction d as [|[k0 v0] d IH]; simpl; auto.
  destruct (eqb k k0); simpl; auto. discriminate.
Qed.

(** A successful step of Task D: the row gave a date and six values, and
    the entry of that date, or a fresh one, received them. *)
Lemma taskd_daily_step_ok (daily daily' : TaskD.daily_totals) (parts : TaskD.row) :
  totals_ok daily ->
  TaskD.daily_step daily parts = Ok daily' ->
  exists d c0 c1 c2 p0 p1 p2 v1 v2 v3 v4 v5 v6,
    Spec.row_date parts = [d]
    /\ TaskD.float_field parts 1 = Ok v1 /\ TaskD.float_field parts 2 = Ok v2
    /\ TaskD.float_field parts 3 = Ok v3 /\ TaskD.float_field parts 4 = Ok v4
    /\ TaskD.float_field parts 5 = Ok v5 /\ TaskD.float_field parts 6 = Ok v6
    /\ match Dict.getitem Cal.date_eqb daily d with
       | Ok data => data
       | Raise _ => TaskD.new_day
       end = Spec.totals c0 c1 c2 p0 p1 p2
    /\ daily' = Dict.setitem Cal.date_eqb daily d
                  (Spec.totals (Num.fadd c0 v1) (Num.fadd c1 v2) (Num.fadd c2 v3)
                               (Num.fadd p0 v4) (Num.fadd p1 v5) (Num.fadd p2 v6)).
Proof.
  intros Hok H. unfold TaskD.daily_step in H.
  apply bind_ok in H. destruct H as (ts & Hts & H).
  apply bind_ok in H. destruct H as (dt & Hdt & H).
  apply bind_ok in H. destruct H as (v1 & Hv1 & H).
  apply bind_ok in H. destruct H as (v2 & Hv2 & H).
  apply bind_ok in H. destruct H as (v3 & Hv3 & H).
  apply bind_ok in H. destruct H as (v4 & Hv4 & H).
  apply bind_ok in H. destruct H as (v5 & Hv5 & H).
  apply bind_ok in H. destruct H as (v6 & Hv6 & H).
  set (d := Cal.dt_date dt) in *.
  assert (Hd : Spec.row_date parts = [d]).
  { unfold Spec.row_date. rewrite Hts. simpl. now rewrite Hdt. }
  destruct (Dict.contains Cal.date_eqb daily d) eqn:Hc.
  - destruct (contains_getitem Cal.date_eqb daily d Hc) as [data Hdata].
    destruct (totals_ok_getitem daily d data Hok Hdata)
      as (c0 & c1 & c2 & p0 & p1 & p2 & ->).
    rewrite (taskd_six_additions daily d _ _ _ _ _ _ v1 v2 v3 v4 v5 v6 Hdata) in H.
    injection H as <-.
    exists d, c0, c1, c2, p0, p1, p2, v1, v2, v3, v4, v5, v6.
    rewrite Hdata. repeat split; auto.
  - change TaskD.new_day
      with (Spec.totals Num.fzero Num.fzero Num.fzero Num.fzero Num.fzero Num.fzero)
      in H.
    rewrite (taskd_six_additions _ d _ _ _ _ _ _ v1 v2 v3 v4 v5 v6
               (getitem_setitem_same Cal.date_eqb date_eqb_eq daily d _)) in H.
    rewrite (setitem_setitem Cal.date_eqb date_eqb_eq) in H.
    injection H as <-.
    exists d, Num.fzero, Num.fzero, Num.fzero, Num.fzero, Num.fzero, Num.fzero,
      v1, v2, v3, v4, v5, v6.
    rewrite (contains_false_getitem _ _ _ Hc). repeat split; auto.
Qed.

Lemma taskd_daily_step_inv (daily daily' : TaskD.daily_totals) (parts : TaskD.row) :
  totals_ok daily -> NoDup (Dict.keys daily) ->
  TaskD.daily_step daily parts = Ok daily' ->
  totals_ok daily' /\ NoDup (Dict.keys daily')
  /\ forall x, In x (Dict.keys daily')
               <-> In x (Dict.keys daily) \/ In x (Spec.row_date parts).
Proof.
  intros Hok Hnd H.
  destruct (taskd_daily_step_ok daily daily' parts Hok H)
    as (d & c0 & c1 & c2 & p0 & p1 & p2 & v1 & v2 & v3 & v4 & v5 & v6
        & Hd & _ & _ & _ & _ & _ & _ & _ & ->).
  split; [|split].
  - apply (Forall_setitem Cal.date_eqb
             (fun data => exists c0 c1 c2 p0 p1 p2,
                  data = Spec.totals c0 c1 c2 p0 p1 p2)); auto.
    repeat eexists.
  - apply NoDup_keys_setitem; auto. apply date_eqb_eq.
  - intros x. rewrite keys_setitem, Hd.
    destruct (Dict.contains Cal.date_eqb daily d) eqn:Hc.
    + apply (contains_In Cal.date_eqb date_eqb_eq) in Hc.
      simpl. intuition (subst; auto).
    + rewrite in_app_iff. simpl. intuition.
Qed.

Lemma taskd_for_each_inv (rows : list TaskD.row) (daily0 daily : TaskD.daily_totals) :
  totals_ok daily0 -> NoDup (Dict.keys daily0) ->
  for_each rows TaskD.daily_step daily0 = Ok daily ->
  totals_ok daily /\ NoDup (Dict.keys daily)
  /\ forall x, In x (Dict.keys daily)
               <-> In x (Dict.keys daily0) \/ In x (Spec.row_dates rows).
Proof.
  revert daily0. induction rows as [|parts rows IH]; intros daily0 Hok Hnd H; simpl in *.
  - injection H as <-. intuition.
  - apply bind_ok in H. destruct H as (daily1 & Hstep & H).
    destruct (taskd_daily_step_inv daily0 daily1 parts Hok Hnd Hstep)
      as (Hok1 & Hnd1 & Hk1).
    destruct (IH daily1 Hok1 Hnd1 H) as (Hok2 & Hnd2 & Hk2).
    repeat split; auto.
    + intros Hx. apply Hk2 in Hx. rewrite Hk1 in Hx.
      rewrite in_app_iff. intuition.
    + intros Hx. apply Hk2. rewrite Hk1.
      rewrite in_app_iff in Hx. intuition.
Qed.

(** ** Weekday names *)

Lemma weekday_range (d : Cal.date) : 0 <= Cal.weekday d < 7.
Proof. unfold Cal.weekday. apply Z.mod_pos_bound. lia. Qed.

Lemma weekday_index (d : Cal.date) : (Z.to_nat (Cal.weekday d) < 7)%nat.
Proof. pose proof (weekday_range d). lia. Qed.

Lemma taske_weekday_name (d : Cal.date) :
  TaskE.weekday_name d
  = Ok (nth (Z.to_nat (Cal.weekday d)) Spec.weekday_names "").
Proof.
  unfold TaskE.weekday_name. pose proof (weekday_index d) as H.
  destruct (Z.to_nat (Cal.weekday d)) as [|[|[|[|[|[|[|n]]]]]]];
    try reflexivity; lia.
Qed.

Lemma taskd_weekday_name (d : Cal.date) :
  (name <- TaskD.weekday_name_finnish d ;; Ok (Str.capitalize name))
  = Ok (nth (Z.to_nat (Cal.weekday d)) Spec.weekday_names "").
Proof.
  unfold TaskD.weekday_name_finnish. pose proof (weekday_index d) as H.
  destruct (Z.to_nat (Cal.weekday d)) as [|[|[|[|[|[|[|n]]]]]]];
    try reflexivity; lia.
Qed.

Lemma prefix_append (s t : string) : String.prefix s (s +++ t) = true.
Proof.
  induction s as [|c s IH]; simpl.
  - now destruct t.
  - destruct (ascii_dec c c); [exact IH | contradiction].
Qed.

(** ** The report rows *)

Lemma taskd_report_row_ok (daily : TaskD.daily_totals) d c0 c1 c2 p0 p1 p2 :
  Dict.getitem Cal.date_eqb daily d = Ok (Spec.totals c0 c1 c2 p0 p1 p2) ->
  exists line, TaskD.report_row daily d = Ok line.
Proof.
  intros H. unfold TaskD.report_row. rewrite H. simpl.
  unfold TaskD.weekday_name_finnish. pose proof (weekday_index d) as Hn.
  destruct (Z.to_nat (Cal.weekday d)) as [|[|[|[|[|[|[|n]]]]]]];
    try lia; simpl; eexists; reflexivity.
Qed.

Lemma taskd_print_rows_ok (daily : TaskD.daily_totals) (ds : list Cal.date) :
  totals_ok daily ->
  (forall d, In d ds -> In d (Dict.keys daily)) ->
  exists out, TaskD.print_rows daily ds = (out, Ok tt)
              /\ List.length out = List.length ds.
Proof.
  intros Hok. induction ds as [|d ds IH]; intros Hin; simpl.
  - exists []. auto.
  - assert (Hd : In d (Dict.keys daily)) by (apply Hin; simpl; auto).
    apply (contains_In Cal.date_eqb date_eqb_eq) in Hd.
    destruct (contains_getitem Cal.date_eqb daily d Hd) as [data Hdata].
    destruct (totals_ok_getitem daily d data Hok Hdata)
      as (c0 & c1 & c2 & p0 & p1 & p2 & ->).
    destruct (taskd_report_row_ok daily d _ _ _ _ _ _ Hdata) as [line ->].
    destruct IH as (out & -> & Hlen); [intros; apply Hin; simpl; auto|].
    exists (line :: out). simpl. auto.
Qed.

Lemma taske_cells (fmt : Num.float -> string) (f : string -> Num.float) :
  map_result
    (fun i => v <- Dict.getitem String.eqb (Spec.summary f)
                     ("cons_v" +++ str_of_Z i) ;;
              Ok (fmt v)) [1; 2; 3]
  = Ok [fmt (f "cons_v1"); fmt (f "cons_v2"); fmt (f "cons_v3")]
  /\ map_result
       (fun i => v <- Dict.getitem String.eqb (Spec.summary f)
                        ("prod_v" +++ str_of_Z i) ;;
                 Ok (fmt v)) [1; 2; 3]
     = Ok [fmt (f "prod_v1"); fmt (f "prod_v2"); fmt (f "prod_v3")].
Proof. vm_compute. split; reflexivity. Qed.

Lemma taske_section_row_ok (daily : TaskE.WeekDailySummaries) d f :
  Dict.getitem Cal.date_eqb daily d = Ok (Spec.summary f) ->
  exists line, TaskE.section_row daily d = Ok line.
Proof.
  intros H. unfold TaskE.section_row, TaskE.phase_cells. rewrite H.
  rewrite bind_Ok.
  destruct (taske_cells (fun v => TaskE.format_kwh_finnish (TaskE.wh_to_kwh v)) f)
    as [-> ->].
  rewrite !bind_Ok, taske_weekday_name. simpl. eexists. reflexivity.
Qed.

Lemma map_result_ok {A B : Type} (f : A -> result B) (l : list A) :
  (forall x, In x l -> exists y, f x = Ok y) ->
  exists ys, map_result f l = Ok ys /\ List.length ys = List.length l.
Proof.
  induction l as [|x l IH]; intros H; simpl.
  - exists []. auto.
  - destruct (H x) as [y ->]; [simpl; auto|].
    destruct IH as (ys & -> & Hlen); [intros; apply H; simpl; auto|].
    exists (y :: ys). simpl. auto.
Qed.

Lemma distinct_count (l l' : list Cal.date) :
  NoDup l -> (forall x, In x l <-> In x l') ->
  List.length l = Spec.distinct_dates l'.
Proof.
  intros Hnd H. unfold Spec.distinct_dates.
  apply Permutation_length, NoDup_Permutation; auto.
  - apply NoDup_nodup.
  - intros x. now rewrite nodup_In.
Qed.

(** C5: when a file is read and aggregated without an exception, the
    report of Task D prints, after its four head lines, one row per key
    of the mapping, and that number is the number of distinct dates of
    the rows; the week section of Task E has, between its four head
    lines and the closing empty line, one line per key, that many. *)
Theorem report_rows_count
        (fs : filesystem) (filename : string) (rows : list TaskD.row)
        (daily : TaskD.daily_totals)
        (csv_reader : list string -> list (list string))
        (ms : list TaskE.Measurement) (week_number : Z) :
  TaskD.read_data fs filename = Ok rows ->
  TaskD.calculate_daily_totals rows = Ok daily ->
  TaskE.read_data csv_reader fs filename = Ok ms ->
  (exists out,
      TaskD.print_report daily = (TaskD.report_head ++ out, Ok tt)
      /\ List.length out = List.length (Dict.keys daily)
      /\ List.length out = Spec.distinct_dates (Spec.row_dates rows))
  /\ (exists summaries lines,
         TaskE.calculate_daily_summaries ms = Ok summaries
         /\ TaskE.format_week_section week_number summaries
            = Ok (TaskE.section_head week_number ++ lines ++ [""])
         /\ List.length lines = List.length (Dict.keys summaries)
         /\ List.length lines = Spec.distinct_dates (Spec.measurement_dates ms)).
Proof.
  intros _ Hcalc _. split.
  - destruct (taskd_for_each_inv rows [] daily (Forall_nil _) (NoDup_nil _) Hcalc)
      as (Hok & Hnd & Hkeys).
    destruct (taskd_print_rows_ok daily (sorted Cal.date_ltb (Dict.keys daily)) Hok)
      as (out & Hout & Hlen).
    { intros d. apply Permutation_in, sorted_perm. }
    exists out. unfold TaskD.print_report. rewrite Hout.
    rewrite Hlen, (Permutation_length (sorted_perm _ _)).
    repeat split.
    apply distinct_count; auto.
    intros x. rewrite Hkeys. simpl. tauto.
  - destruct (taske_for_each_inv ms [] (Forall_nil _) (NoDup_nil _))
      as (summaries & Hrun & Hok & Hnd & Hkeys).
    destruct (map_result_ok (TaskE.section_row summaries)
                (sorted Cal.date_ltb (Dict.keys summaries)))
      as (lines & Hlines & Hlen).
    { intros d Hd. apply (Permutation_in _ (sorted_perm _ _)) in Hd.
      apply (contains_In Cal.date_eqb date_eqb_eq) in Hd.
      destruct (contains_getitem Cal.date_eqb summaries d Hd) as [s Hs].
      destruct (summaries_ok_getitem summaries d s Hok Hs) as [f ->].
      eapply taske_section_row_ok; eauto. }
    exists summaries, lines. unfold TaskE.format_week_section.
    rewrite Hlines. simpl.
    rewrite Hlen, (Permutation_length (sorted_perm _ _)).
    repeat split; auto.
    apply distinct_count; auto.
    intros x. rewrite Hkeys. simpl. tauto.
Qed.

Lemma report_rows_count_witness :
  let fs := Spec.one_file "week42.csv" Spec.scenario_lines in
  let rows := TaskD.read_lines Spec.scenario_lines in
  let daily :=
    [(Cal.mkdate 2025 10 13,
       Spec.totals (Num.float_of_Z 150) (Num.float_of_Z 250) (Num.float_of_Z 350)
                   (Num.float_of_Z 15) (Num.float_of_Z 25) (Num.float_of_Z 35))] in
  let ms :=
    [TaskE.mkMeasurement (Cal.mkdatetime (Cal.mkdate 2025 10 13) 0 0 0 0)
       (Num.float_of_Z 100) (Num.float_of_Z 200) (Num.float_of_Z 300)
       (Num.float_of_Z 10) (Num.float_of_Z 20) (Num.float_of_Z 30);
     TaskE.mkMeasurement (Cal.mkdatetime (Cal.mkdate 2025 10 13) 1 0 0 0)
       (Num.float_of_Z 50) (Num.float_of_Z 50) (Num.float_of_Z 50)
       (Num.float_of_Z 5) (Num.float_of_Z 5) (Num.float_of_Z 5)] in
  (exists out,
      TaskD.print_report daily = (TaskD.report_head ++ out, Ok tt)
      /\ List.length out = List.length (Dict.keys daily)
      /\ List.length out = Spec.distinct_dates (Spec.row_dates rows))
  /\ (exists summaries lines,
         TaskE.calculate_daily_summaries ms = Ok summaries
         /\ TaskE.format_week_section 42 summaries
            = Ok (TaskE.section_head 42 ++ lines ++ [""])
         /\ List.length lines = List.length (Dict.keys summaries)
         /\ List.length lines = Spec.distinct_dates (Spec.measurement_dates ms)).
Proof.
  apply (report_rows_count
           (Spec.one_file "week42.csv" Spec.scenario_lines) "week42.csv"
           (TaskD.read_lines Spec.scenario_lines) _ Spec.plain_reader);
    vm_compute; reflexivity.
Defined.

(** ** The calendar *)

Lemma valid_date_bounds (y m d : Z) :
  Cal.valid_date y m d = true -> 1 <= y <= 9999 /\ 1 <= m <= 12 /\ 1 <= d <= 31.
Proof.
  unfold Cal.valid_date. rewrite !andb_true_iff, !Z.leb_le.
  intros (((((Hy1 & Hy2) & Hm1) & Hm2) & Hd1) & Hd2).
  repeat split; auto.
  unfold Cal.days_in_month in Hd2.
  destruct ((m =? 2) && Cal.is_leap y); [lia|].
  assert (C : m = 1 \/ m = 2 \/ m = 3 \/ m = 4 \/ m = 5 \/ m = 6 \/ m = 7
              \/ m = 8 \/ m = 9 \/ m = 10 \/ m = 11 \/ m = 12) by lia.
  repeat (destruct C as [->|C]; [simpl in Hd2; lia|]).
  subst. simpl in Hd2. lia.
Qed.

Lemma leap_year_is_leap (y : Z) : Spec.leap_year y = Cal.is_leap y.
Proof.
  unfold Spec.leap_year, Cal.is_leap.
  destruct (Z.eqb_spec (y mod 400) 0) as [H400|H400];
    destruct (Z.eqb_spec (y mod 100) 0) as [H100|H100];
    destruct (Z.eqb_spec (y mod 4) 0) as [H4|H4]; try reflexivity; exfalso;
    Z.to_euclidean_division_equations; lia.
Qed.

Lemma month_cases (m : Z) :
  1 <= m <= 12 ->
  m = 1 \/ m = 2 \/ m = 3 \/ m = 4 \/ m = 5 \/ m = 6 \/ m = 7 \/ m = 8 \/ m = 9
  \/ m = 10 \/ m = 11 \/ m = 12.
Proof. lia. Qed.

Lemma month_length_days_in_month (y m : Z) :
  1 <= m <= 12 -> Spec.month_length y m = Cal.days_in_month y m.
Proof.
  intros H. unfold Spec.month_length, Cal.days_in_month.
  rewrite leap_year_is_leap.
  destruct (month_cases m H) as [->|[->|[->|[->|[->|[->|[->|[->|[->|[->|[->| ->]]]]]]]]]]];
    reflexivity.
Qed.

Lemma days_before_year_succ (y : Z) :
  Cal.days_before_year (y + 1) = Cal.days_before_year y + Spec.year_length y.
Proof.
  unfold Cal.days_before_year, Spec.year_length, Spec.leap_year. cbv zeta.
  replace (y + 1 - 1) with y by lia.
  destruct (Z.eqb_spec (y mod 400) 0) as [H400|H400];
    [|destruct (Z.eqb_spec (y mod 100) 0) as [H100|H100];
      [|destruct (Z.eqb_spec (y mod 4) 0) as [H4|H4]]];
    Z.to_euclidean_division_equations; lia.
Qed.

Lemma days_of_years_closed (n : nat) :
  Spec.days_of_years n = Cal.days_before_year (Z.of_nat n + 1).
Proof.
  induction n as [|n IH].
  - reflexivity.
  - cbn [Spec.days_of_years]. rewrite IH.
    replace (Z.of_nat (S n)) with (Z.of_nat n + 1) by lia.
    symmetry. apply days_before_year_succ.
Qed.

Lemma days_of_months_closed (y m : Z) :
  1 <= m <= 12 ->
  Spec.days_of_months y (Z.to_nat (m - 1)) = Cal.days_before_month y m.
Proof.
  intros H. unfold Cal.days_before_month.
  assert (L : Spec.month_length y 2 = 28 + (if Cal.is_leap y then 1 else 0)).
  { unfold Spec.month_length. rewrite leap_year_is_leap.
    destruct (Cal.is_leap y); reflexivity. }
  destruct (month_cases m H) as [->|[->|[->|[->|[->|[->|[->|[->|[->|[->|[->| ->]]]]]]]]]]];
    cbn [Z.to_nat Z.sub Z.add Z.opp Z.pos_sub Pos.to_nat Pos.iter_op Nat.add
         Spec.days_of_months Z.of_nat Pos.of_succ_nat Pos.succ Init.Nat.add];
    try reflexivity;
    try (simpl; rewrite ?L; destruct (Cal.is_leap y); reflexivity).
Qed.

(** The day number counted year by year and month by month is the
    ordinal of the library. *)
Lemma day_number_toordinal (d : Cal.date) :
  1 <= Cal.year d -> 1 <= Cal.month d <= 12 ->
  Spec.day_number d = Cal.toordinal d.
Proof.
  intros Hy Hm. unfold Spec.day_number, Cal.toordinal.
  rewrite days_of_years_closed, (days_of_months_closed _ _ Hm).
  rewrite Z2Nat.id by lia. do 2 f_equal. f_equal. lia.
Qed.

Lemma iso_weekday_index_weekday (d : Cal.date) :
  1 <= Cal.year d -> 1 <= Cal.month d <= 12 ->
  Spec.iso_weekday_index d = Cal.weekday d.
Proof.
  intros Hy Hm. unfold Spec.iso_weekday_index, Cal.weekday.
  rewrite (day_number_toordinal d Hy Hm).
  change (Spec.day_number Spec.saturday) with 730120.
  replace (Cal.toordinal d - 730120 + 5) with (Cal.toordinal d + 6 + (-104303) * 7)
    by lia.
  apply Z.mod_add. lia.
Qed.

Lemma weekday_label_name_at (d : Cal.date) :
  Cal.valid_date (Cal.year d) (Cal.month d) (Cal.day d) = true ->
  Spec.weekday_label d = name_at_weekday d.
Proof.
  intros H. destruct (valid_date_bounds _ _ _ H) as (Hy & Hm & _).
  unfold Spec.weekday_label, name_at_weekday.
  now rewrite iso_weekday_index_weekday by lia.
Qed.

(** The day after a date has the next day number. *)
Lemma days_of_months_year (y : Z) :
  Spec.days_of_months y 12 = Spec.year_length y.
Proof.
  unfold Spec.year_length. cbn. unfold Spec.month_length. cbn.
  destruct (Spec.leap_year y); reflexivity.
Qed.

Lemma day_number_next (d : Cal.date) :
  1 <= Cal.year d -> 1 <= Cal.month d <= 12 ->
  1 <= Cal.day d <= Spec.month_length (Cal.year d) (Cal.month d) ->
  Spec.day_number (Spec.next_day d) = Spec.day_number d + 1.
Proof.
  intros Hy Hm Hd. destruct d as [y m dd]. cbn [Cal.year Cal.month Cal.day] in *.
  unfold Spec.next_day. cbn [Cal.year Cal.month Cal.day].
  destruct (Z.ltb_spec dd (Spec.month_length y m)) as [Hlt|Hge].
  - unfold Spec.day_number. cbn [Cal.year Cal.month Cal.day]. lia.
  - assert (Hdd : dd = Spec.month_length y m) by lia.
    destruct (Z.ltb_spec m 12) as [Hm12|Hm12];
      unfold Spec.day_number; cbn [Cal.year Cal.month Cal.day].
    + replace (Z.to_nat (m + 1 - 1)) with (S (Z.to_nat (m - 1))) by lia.
      cbn [Spec.days_of_months].
      replace (Z.of_nat (S (Z.to_nat (m - 1)))) with m by lia. lia.
    + assert (m = 12) by lia. subst m.
      replace (Z.to_nat (y + 1 - 1)) with (S (Z.to_nat (y - 1))) by lia.
      cbn [Spec.days_of_years].
      replace (Z.of_nat (S (Z.to_nat (y - 1)))) with y by lia.
      rewrite <- days_of_months_year.
      change (Z.to_nat (1 - 1)) with 0%nat.
      change (Z.to_nat (12 - 1)) with 11%nat.
      change (Spec.days_of_months y 12)
        with (Spec.days_of_months y 11 + Spec.month_length y 12).
      change (Spec.days_of_months (y + 1) 0) with 0. lia.
Qed.

Lemma nth_next_name (k : Z) :
  0 <= k < 7 ->
  nth (Z.to_nat ((k + 1) mod 7)) Spec.weekday_names ""
  = Spec.next_name (nth (Z.to_nat k) Spec.weekday_names "").
Proof.
  intros H.
  assert (C : k = 0 \/ k = 1 \/ k = 2 \/ k = 3 \/ k = 4 \/ k = 5 \/ k = 6) by lia.
  destruct C as [->|[->|[->|[->|[->|[->| ->]]]]]]; reflexivity.
Qed.

Lemma weekday_label_next (d : Cal.date) :
  Cal.valid_date (Cal.year d) (Cal.month d) (Cal.day d) = true ->
  Spec.weekday_label (Spec.next_day d) = Spec.next_name (Spec.weekday_label d).
Proof.
  intros H. destruct (valid_date_bounds _ _ _ H) as (Hy & Hm & _).
  assert (Hd : 1 <= Cal.day d <= Spec.month_length (Cal.year d) (Cal.month d)).
  { rewrite month_length_days_in_month by lia.
    unfold Cal.valid_date in H. rewrite !andb_true_iff, !Z.leb_le in H. lia. }
  unfold Spec.weekday_label, Spec.iso_weekday_index.
  rewrite day_number_next by lia.
  set (c := Spec.day_number d - Spec.day_number Spec.saturday + 5).
  replace (Spec.day_number d + 1 - Spec.day_number Spec.saturday + 5) with (c + 1)
    by (unfold c; lia).
  rewrite <- nth_next_name by (apply Z.mod_pos_bound; lia).
  f_equal. f_equal. rewrite Zplus_mod_idemp_l. reflexivity.
Qed.

(** ** The weekday label of a row *)

Lemma append_assoc3 (s t u : string) : (s +++ t) +++ u = s +++ t +++ u.
Proof. induction s as [|c s IH]; simpl; [reflexivity | now rewrite IH]. Qed.

Lemma taskd_row_label (daily : TaskD.daily_totals) (d : Cal.date) (line : string) :
  TaskD.report_row daily d = Ok line ->
  String.prefix (Str.ljust 9 (name_at_weekday d) +++ " ") line = true.
Proof.
  intros H. unfold TaskD.report_row in H.
  apply bind_ok in H. destruct H as (data & _ & H).
  apply bind_ok in H. destruct H as (cons & _ & H).
  apply bind_ok in H. destruct H as (prod & _ & H).
  apply bind_ok in H. destruct H as (name & Hname & H).
  cbv zeta in H.
  apply bind_ok in H. destruct H as (c0 & _ & H).
  apply bind_ok in H. destruct H as (c1 & _ & H).
  apply bind_ok in H. destruct H as (c2 & _ & H).
  apply bind_ok in H. destruct H as (p0 & _ & H).
  apply bind_ok in H. destruct H as (p1 & _ & H).
  apply bind_ok in H. destruct H as (p2 & _ & H).
  injection H as <-.
  pose proof (taskd_weekday_name d) as Hn. rewrite Hname in Hn.
  simpl in Hn. injection Hn as ->.
  fold (name_at_weekday d).
  set (rest := Str.ljust 11 _ +++ _).
  change (String.prefix (Str.ljust 9 (name_at_weekday d) +++ " ")
            (Str.ljust 9 (name_at_weekday d) +++ " " +++ rest) = true).
  rewrite <- append_assoc3. apply prefix_append.
Qed.

Lemma taske_row_label (daily : TaskE.WeekDailySummaries) (d : Cal.date)
      (line : string) :
  TaskE.section_row daily d = Ok line ->
  String.prefix (Str.ljust 9 (name_at_weekday d) +++ " ") line = true.
Proof.
  intros H. unfold TaskE.section_row in H.
  apply bind_ok in H. destruct H as (s & _ & H).
  apply bind_ok in H. destruct H as (cons & _ & H).
  apply bind_ok in H. destruct H as (prod & _ & H).
  apply bind_ok in H. destruct H as (name & Hname & H).
  apply bind_ok in H. destruct H as (c0 & _ & H).
  apply bind_ok in H. destruct H as (c1 & _ & H).
  apply bind_ok in H. destruct H as (c2 & _ & H).
  apply bind_ok in H. destruct H as (p0 & _ & H).
  apply bind_ok in H. destruct H as (p1 & _ & H).
  apply bind_ok in H. destruct H as (p2 & _ & H).
  injection H as <-.
  rewrite taske_weekday_name in Hname. injection Hname as <-.
  fold (name_at_weekday d).
  set (rest := Str.ljust 11 _ +++ _).
  change (String.prefix (Str.ljust 9 (name_at_weekday d) +++ " ")
            (Str.ljust 9 (name_at_weekday d) +++ " " +++ rest) = true).
  rewrite <- append_assoc3. apply prefix_append.
Qed.

(** C9: the label that starts the row of a date, in the report of Task D
    and in the week section of Task E, is the English name of the weekday
    of the date, first letter in upper case.  The weekday is that of the
    calendar: it is counted from Saturday 1 January 2000 over the day
    number, which adds up the lengths of the years and of the months, and
    so it moves to the next name, Monday after Sunday, with each day.
    The index that the scripts use is this weekday with Monday as 0, and
    the ordinal of the library is the day number. *)
Theorem weekday_label_is_english_name
        (d : Cal.date) (daily : TaskD.daily_totals) (line : string)
        (summaries : TaskE.WeekDailySummaries) (section_line : string) :
  Cal.valid_date (Cal.year d) (Cal.month d) (Cal.day d) = true ->
  TaskD.report_row daily d = Ok line ->
  TaskE.section_row summaries d = Ok section_line ->
  In (Spec.weekday_label d) Spec.weekday_names
  /\ Spec.weekday_label (Spec.next_day d) = Spec.next_name (Spec.weekday_label d)
  /\ Cal.toordinal d = Spec.day_number d
  /\ Cal.weekday d = Spec.iso_weekday_index d
  /\ 0 <= Cal.weekday d < 7
  /\ Cal.weekday d = (Cal.toordinal d - 1) mod 7
  /\ (name <- TaskD.weekday_name_finnish d ;; Ok (Str.capitalize name))
     = Ok (Spec.weekday_label d)
  /\ TaskE.weekday_name d = Ok (Spec.weekday_label d)
  /\ String.prefix (Str.ljust 9 (Spec.weekday_label d) +++ " ") line = true
  /\ String.prefix (Str.ljust 9 (Spec.weekday_label d) +++ " ") section_line = true.
Proof.
  intros Hv HD HE. destruct (valid_date_bounds _ _ _ Hv) as (Hy & Hm & _).
  rewrite (weekday_label_name_at d Hv).
  split; [|split; [|split; [|split; [|split; [|split; [|split; [|split; [|split]]]]]]]].
  - unfold name_at_weekday. apply nth_In. apply weekday_index.
  - rewrite <- (weekday_label_name_at d Hv). now apply weekday_label_next.
  - symmetry. apply day_number_toordinal; lia.
  - symmetry. apply iso_weekday_index_weekday; lia.
  - apply weekday_range.
  - unfold Cal.weekday.
    replace (Cal.toordinal d + 6) with (Cal.toordinal d - 1 + 1 * 7) by lia.
    apply Z.mod_add. lia.
  - apply taskd_weekday_name.
  - apply taske_weekday_name.
  - eapply taskd_row_label; eauto.
  - eapply taske_row_label; eauto.
Qed.

Lemma weekday_label_witness :
  let d := Cal.mkdate 2025 10 15 in
  In (Spec.weekday_label d) Spec.weekday_names
  /\ Spec.weekday_label (Spec.next_day d) = Spec.next_name (Spec.weekday_label d)
  /\ Cal.toordinal d = Spec.day_number d
  /\ Cal.weekday d = Spec.iso_weekday_index d
  /\ 0 <= Cal.weekday d < 7
  /\ Cal.weekday d = (Cal.toordinal d - 1) mod 7
  /\ (name <- TaskD.weekday_name_finnish d ;; Ok (Str.capitalize name))
     = Ok (Spec.weekday_label d)
  /\ TaskE.weekday_name d = Ok (Spec.weekday_label d)
  /\ String.prefix (Str.ljust 9 (Spec.weekday_label d) +++ " ")
       "Wednesday 15.10.2025    0,15    0,25    0,35    0,01    0,03    0,04" = true
  /\ String.prefix (Str.ljust 9 (Spec.weekday_label d) +++ " ")
       "Wednesday 15.10.2025     0,15    0,25    0,35      0,01    0,03    0,04" = true.
Proof.
  apply (weekday_label_is_english_name
           (Cal.mkdate 2025 10 15)
           [(Cal.mkdate 2025 10 15,
              Spec.totals (Num.float_of_Z 150) (Num.float_of_Z 250)
                (Num.float_of_Z 350) (Num.float_of_Z 15) (Num.float_of_Z 25)
                (Num.float_of_Z 35))]
           _
           [(Cal.mkdate 2025 10 15,
              Spec.summary (fun k => Spec.measurement_field
                 (TaskE.mkMeasurement (Cal.mkdatetime (Cal.mkdate 2025 10 15) 0 0 0 0)
                    (Num.float_of_Z 150) (Num.float_of_Z 250) (Num.float_of_Z 350)
                    (Num.float_of_Z 15) (Num.float_of_Z 25) (Num.float_of_Z 35)) k))]
           _); vm_compute; reflexivity.
Defined.

(** Known dates: the week of the sample data runs from Monday to Sunday;
    1 January 1970 was a Thursday, 20 July 1969 a Sunday, and the leap
    days of 2000 and 2024 were a Tuesday and a Thursday. *)
Example weekdays_of_week_42 :
  map Spec.weekday_label
      [Cal.mkdate 2025 10 13; Cal.mkdate 2025 10 14; Cal.mkdate 2025 10 15;
       Cal.mkdate 2025 10 16; Cal.mkdate 2025 10 17; Cal.mkdate 2025 10 18;
       Cal.mkdate 2025 10 19]
  = ["Monday"; "Tuesday"; "Wednesday"; "Thursday"; "Friday"; "Saturday"; "Sunday"]
  /\ map Cal.weekday
         [Cal.mkdate 2025 10 13; Cal.mkdate 2025 10 14; Cal.mkdate 2025 10 15;
          Cal.mkdate 2025 10 16; Cal.mkdate 2025 10 17; Cal.mkdate 2025 10 18;
          Cal.mkdate 2025 10 19]
     = [0; 1; 2; 3; 4; 5; 6]
  /\ map Spec.weekday_label
         [Cal.mkdate 2000 1 1; Cal.mkdate 1970 1 1; Cal.mkdate 1969 7 20;
          Cal.mkdate 2000 2 29; Cal.mkdate 2024 2 29]
     = ["Saturday"; "Thursday"; "Sunday"; "Tuesday"; "Thursday"]
  /\ map TaskE.weekday_name
         [Cal.mkdate 2000 1 1; Cal.mkdate 1970 1 1; Cal.mkdate 1969 7 20;
          Cal.mkdate 2000 2 29; Cal.mkdate 2024 2 29]
     = [Ok "Saturday"; Ok "Thursday"; Ok "Sunday"; Ok "Tuesday"; Ok "Thursday"]
  /\ map Spec.next_day
         [Cal.mkdate 2025 10 13; Cal.mkdate 2025 10 31; Cal.mkdate 2025 12 31;
          Cal.mkdate 2024 2 28; Cal.mkdate 2025 2 28; Cal.mkdate 1900 2 28]
     = [Cal.mkdate 2025 10 14; Cal.mkdate 2025 11 1; Cal.mkdate 2026 1 1;
        Cal.mkdate 2024 2 29; Cal.mkdate 2025 3 1; Cal.mkdate 1900 3 1].
Proof. vm_compute. repeat split. Qed.

(** ** Formatting and reading back *)

Lemma all_chars_append (p : ascii -> bool) (s t : string) :
  all_chars p (s +++ t) = all_chars p s && all_chars p t.
Proof.
  induction s as [|c s IH]; simpl; auto. now rewrite IH, andb_assoc.
Qed.

Lemma all_chars_impl (p q : ascii -> bool) (s : string) :
  (forall c, p c = true -> q c = true) ->
  all_chars p s = true -> all_chars q s = true.
Proof.
  intros Hpq. induction s as [|c s IH]; simpl; auto.
  rewrite !andb_true_iff. intuition.
Qed.

Lemma digit_char_spec (d : Z) :
  0 <= d <= 9 ->
  Str.is_digit (Str.digit_char d) = true /\ Str.digit_val (Str.digit_char d) = d.
Proof.
  intros H.
  assert (C : d = 0 \/ d = 1 \/ d = 2 \/ d = 3 \/ d = 4 \/ d = 5 \/ d = 6
              \/ d = 7 \/ d = 8 \/ d = 9) by lia.
  repeat (destruct C as [->|C]; [split; reflexivity|]).
  subst. split; reflexivity.
Qed.

Lemma digit_props (c : ascii) :
  Str.is_digit c = true ->
  Str.is_space c = false
  /\ Ascii.eqb c "." = false /\ Ascii.eqb c "," = false
  /\ Ascii.eqb c "_" = false
  /\ 0 <= Str.digit_val c <= 9
  /\ (forall r, Str.sign_prefix (String c r) = (false, String c r))
  /\ (forall r, String.eqb (Str.lower (String c r)) "inf" = false
                /\ String.eqb (Str.lower (String c r)) "infinity" = false
                /\ String.eqb (Str.lower (String c r)) "nan" = false).
Proof.
  destruct c as [[] [] [] [] [] [] [] []]; intros H;
    try discriminate H; vm_compute; repeat split; congruence.
Qed.

Lemma replace_not_in (old new : ascii) (s : string) :
  all_chars (fun c => negb (Ascii.eqb c old)) s = true ->
  Str.replace old new s = s.
Proof.
  induction s as [|c s IH]; simpl; auto.
  rewrite andb_true_iff, negb_true_iff. intros [-> H]. now rewrite IH.
Qed.

Lemma replace_append (old new : ascii) (s t : string) :
  Str.replace old new (s +++ t) = Str.replace old new s +++ Str.replace old new t.
Proof. induction s as [|c s IH]; simpl; auto. now rewrite IH. Qed.

Lemma strip_no_space (s : string) :
  all_chars (fun c => negb (Str.is_space c)) s = true -> Str.strip s = s.
Proof.
  intros H. unfold Str.strip.
  assert (L : Str.lstrip s = s).
  { destruct s as [|c s]; simpl in *; auto.
    apply andb_true_iff in H. destruct H as [H _].
    apply negb_true_iff in H. now rewrite H. }
  rewrite L. induction s as [|c s IH]; simpl in *; auto.
  apply andb_true_iff in H. destruct H as [Hc H].
  apply negb_true_iff in Hc.
  rewrite IH; auto.
  - destruct s; [now rewrite Hc | reflexivity].
  - destruct s as [|c' s]; simpl in *; auto.
    apply andb_true_iff in H. destruct H as [H _].
    apply negb_true_iff in H. now rewrite H.
Qed.

Lemma reads_digit (d : Z) :
  0 <= d <= 9 -> reads (String (Str.digit_char d) "") d.
Proof.
  intros H a k rest.
  change (String (Str.digit_char d) "" +++ rest) with (String (Str.digit_char d) rest).
  change (String.length (String (Str.digit_char d) "")) with 1%nat.
  cbn [Str.digitpart_loop].
  destruct (digit_char_spec d H) as [-> ->].
  change (Z.of_nat 1) with 1. rewrite Z.pow_1_r.
  f_equal; lia.
Qed.

Lemma reads_snoc (ds : string) (n d : Z) :
  reads ds n -> 0 <= d <= 9 ->
  reads (ds +++ String (Str.digit_char d) "") (10 * n + d).
Proof.
  intros Hds Hd a k rest.
  rewrite append_assoc3, Hds.
  change (String (Str.digit_char d) "" +++ rest) with (String (Str.digit_char d) rest).
  cbn [Str.digitpart_loop].
  destruct (digit_char_spec d Hd) as [-> ->].
  assert (L : String.length (ds +++ String (Str.digit_char d) "")
              = S (String.length ds)).
  { clear. induction ds as [|c ds IH]; simpl; auto. }
  rewrite L, Nat2Z.inj_succ, Z.pow_succ_r by lia.
  f_equal; [lia | lia].
Qed.

Lemma digits_fuel_spec (fuel : nat) :
  forall n acc,
    0 <= n < 10 ^ (Z.of_nat fuel + 1) ->
    exists ds,
      Str.digits_fuel fuel n acc = ds +++ acc
      /\ all_chars Str.is_digit ds = true
      /\ ds <> ""
      /\ reads ds n.
Proof.
  induction fuel as [|fuel IH]; intros n acc Hn.
  - change (10 ^ (Z.of_nat 0 + 1)) with 10 in Hn.
    exists (String (Str.digit_char n) "").
    cbn [Str.digits_fuel]. rewrite Z.mod_small by lia.
    destruct (digit_char_spec n ltac:(lia)) as [Hd _].
    cbn [all_chars String.append]. rewrite Hd.
    repeat split; try discriminate.
    apply reads_digit. lia.
  - cbn [Str.digits_fuel]. destruct (Z.ltb_spec n 10) as [Hlt|Hge].
    + exists (String (Str.digit_char n) "").
      rewrite Z.mod_small by lia.
      destruct (digit_char_spec n ltac:(lia)) as [Hd _].
      cbn [all_chars String.append]. rewrite Hd.
      repeat split; try discriminate.
      apply reads_digit. lia.
    + assert (Hn' : 0 <= n / 10 < 10 ^ (Z.of_nat fuel + 1)).
      { split; [apply Z.div_pos; lia|].
        apply Z.div_lt_upper_bound; [lia|].
        rewrite Nat2Z.inj_succ in Hn.
        replace (Z.succ (Z.of_nat fuel) + 1) with (Z.succ (Z.of_nat fuel + 1))
          in Hn by lia.
        rewrite Z.pow_succ_r in Hn by lia. lia. }
      destruct (IH (n / 10) (String (Str.digit_char (n mod 10)) acc) Hn')
        as (ds & Heq & Hall & Hne & Hreads).
      pose proof (Z.mod_pos_bound n 10 ltac:(lia)) as Hm.
      exists (ds +++ String (Str.digit_char (n mod 10)) "").
      rewrite Heq, append_assoc3. simpl. split; [reflexivity|].
      split; [|split].
      * rewrite all_chars_append, Hall. simpl.
        destruct (digit_char_spec (n mod 10) ltac:(lia)) as [-> _]. reflexivity.
      * destruct ds; [congruence | discriminate].
      * replace n with (10 * (n / 10) + n mod 10) at 2
          by (symmetry; apply Z.div_mod; lia).
        apply reads_snoc; auto. lia.
Qed.

Lemma of_Z_nonneg_spec (n : Z) :
  0 <= n ->
  exists ds,
    Str.of_Z_nonneg n = ds
    /\ all_chars Str.is_digit ds = true
    /\ ds <> ""
    /\ reads ds n.
Proof.
  intros Hn. unfold Str.of_Z_nonneg.
  destruct (digits_fuel_spec (Z.to_nat (Z.log2 n)) n "") as (ds & Heq & H).
  - split; auto.
    pose proof (Z.log2_nonneg n) as Hl.
    rewrite Z2Nat.id by assumption.
    destruct (Z.eq_dec n 0) as [->|Hnz]; [reflexivity|].
    destruct (Z.log2_spec n ltac:(lia)) as [_ Hup].
    eapply Z.lt_le_trans; [exact Hup|].
    replace (Z.succ (Z.log2 n)) with (Z.log2 n + 1) by lia.
    apply Z.pow_le_mono_l. lia.
  - exists ds. split; auto. rewrite Heq.
    clear. induction ds as [|c ds IH]; simpl; congruence.
Qed.

Lemma cents_fraction (F : Z) :
  0 <= F < 100 ->
  Str.digitpart (Str.zfill 2 (Str.of_Z_nonneg F)) = Some (F, 2%nat, "")
  /\ all_chars Str.is_digit (Str.zfill 2 (Str.of_Z_nonneg F)) = true.
Proof.
  intros H. rewrite <- (Z2Nat.id F) by lia.
  assert (Hn : (Z.to_nat F < 100)%nat) by lia.
  generalize dependent (Z.to_nat F). clear. intros n Hn.
  do 100 (destruct n as [|n]; [vm_compute; split; reflexivity|]).
  lia.
Qed.

Lemma digits_plain (s : string) :
  all_chars Str.is_digit s = true ->
  all_chars (fun c => negb (Str.is_space c)) s = true
  /\ all_chars (fun c => negb (Ascii.eqb c ".")) s = true
  /\ all_chars (fun c => negb (Ascii.eqb c ",")) s = true.
Proof.
  intros H. repeat split; apply (all_chars_impl Str.is_digit); auto;
    intros c Hc; apply negb_true_iff; apply (digit_props c Hc).
Qed.

(** The text of a number of cents is read back as that number of
    hundredths. *)
Lemma show_cents_parse (neg : bool) (N : Z) :
  0 <= N ->
  Spec.parse_back (Str.replace "." "," (Num.show_cents neg N))
  = Ok (Num.float_of_decimal neg N (-2)).
Proof.
  intros HN. unfold Spec.parse_back, Num.show_cents.
  destruct (of_Z_nonneg_spec (N / 100) ltac:(apply Z.div_pos; lia))
    as (I & -> & HI & HIne & HIr).
  destruct (cents_fraction (N mod 100) ltac:(apply Z.mod_pos_bound; lia))
    as [HF HFd].
  set (FF := Str.zfill 2 (Str.of_Z_nonneg (N mod 100))) in *.
  destruct (digits_plain I HI) as (HIs & HIp & HIc).
  destruct (digits_plain FF HFd) as (HFs & HFp & HFc).
  set (sgn := if neg then "-" else "").
  assert (R : Str.replace "," "." (Str.replace "." "," (sgn +++ I +++ "." +++ FF))
              = sgn +++ I +++ "." +++ FF).
  { rewrite !replace_append.
    rewrite (replace_not_in "." "," I HIp), (replace_not_in "." "," FF HFp).
    rewrite (replace_not_in "," "." I HIc), (replace_not_in "," "." FF HFc).
    now destruct neg. }
  rewrite R. clear R.
  assert (S : Str.strip (sgn +++ I +++ "." +++ FF) = sgn +++ I +++ "." +++ FF).
  { apply strip_no_space. rewrite !all_chars_append, HIs, HFs.
    now destruct neg. }
  unfold Num.float_of_string. rewrite S. clear S.
  destruct I as [|c I]; [congruence|].
  simpl in HI. apply andb_true_iff in HI. destruct HI as [Hc HI].
  destruct (digit_props c Hc) as (_ & _ & _ & _ & _ & Hsign & Hlow).
  assert (P : Str.sign_prefix (sgn +++ String c I +++ "." +++ FF)
              = (neg, String c I +++ "." +++ FF)).
  { destruct neg; [reflexivity | apply Hsign]. }
  rewrite P. clear P.
  change (String c I +++ "." +++ FF) with (String c (I +++ "." +++ FF)).
  destruct (Hlow (I +++ "." +++ FF)) as (-> & -> & ->).
  cbn [orb].
  assert (B : Num.number_body (String c (I +++ "." +++ FF)) = Some (N, -2, "")).
  { unfold Num.number_body.
    assert (D : Str.digitpart (String c (I +++ "." +++ FF))
                = Some (N / 100, String.length (String c I), "." +++ FF)).
    { pose proof (HIr 0 0%nat ("." +++ FF)) as E.
      change (String c I +++ "." +++ FF) with (String c (I +++ "." +++ FF)) in E.
      cbn [Str.digitpart_loop] in E. rewrite Hc in E.
      cbn [Str.digitpart]. rewrite Hc.
      change (10 * 0 + Str.digit_val c) with (Str.digit_val c) in E.
      rewrite E. reflexivity. }
    rewrite D. cbn [String.append]. rewrite HF.
    f_equal. f_equal. f_equal.
    change (10 ^ Z.of_nat 2) with 100.
    pose proof (Z.div_mod N 100 ltac:(lia)). lia. }
  rewrite B. reflexivity.
Qed.

Lemma round_cents_nonneg (m : positive) (e : Z) : 0 <= Num.round_cents m e.
Proof.
  unfold Num.round_cents. destruct (Z.leb_spec 0 e).
  - pose proof (Z.pow_nonneg 2 e ltac:(lia)). nia.
  - assert (0 < 2 ^ (- e)) by (apply Z.pow_pos_nonneg; lia).
    assert (0 <= 100 * Z.pos m / 2 ^ (- e)) by (apply Z.div_pos; lia).
    destruct (2 * ((100 * Z.pos m) mod 2 ^ (- e)) ?= 2 ^ (- e)); try lia.
    destruct (Z.even _); lia.
Qed.

(** The rounding of the formatter is the rounding to the nearest integer
    of the specification. *)
Lemma round_cents_nearest (m : positive) (e : Z) :
  Spec.nearest_even (fst (Spec.hundredfold m e)) (snd (Spec.hundredfold m e))
                    (Num.round_cents m e).
Proof.
  unfold Spec.nearest_even, Spec.hundredfold, Num.round_cents. cbn [fst snd].
  destruct (Z.leb_spec 0 e) as [He|He].
  - rewrite (Z.max_l e 0), (Z.max_r (- e) 0) by lia.
    change (2 ^ 0) with 1. split; [lia|]. intros H. exfalso. lia.
  - rewrite (Z.max_r e 0), (Z.max_l (- e) 0) by lia.
    change (2 ^ 0) with 1. rewrite Z.mul_1_r.
    set (num := 100 * Z.pos m). set (den := 2 ^ (- e)).
    assert (Hden : 0 < den) by (apply Z.pow_pos_nonneg; lia).
    pose proof (Z.div_mod num den ltac:(lia)) as Hdm.
    pose proof (Z.mod_pos_bound num den Hden) as Hr.
    set (q := num / den) in *. set (r := num mod den) in *.
    destruct (Z.compare_spec (2 * r) den) as [Heq|Hlt|Hgt].
    + destruct (Z.even q) eqn:Hq.
      * split; [nia | intros _; exact Hq].
      * split; [nia|]. intros _.
        rewrite Z.add_1_r, Z.even_succ, <- Z.negb_even, Hq. reflexivity.
    + split; [nia | intros H; exfalso; nia].
    + split; [nia | intros H; exfalso; nia].
Qed.

(** There is one nearest integer. *)
Lemma nearest_even_unique (num den n1 n2 : Z) :
  0 < den ->
  Spec.nearest_even num den n1 -> Spec.nearest_even num den n2 -> n1 = n2.
Proof.
  unfold Spec.nearest_even. intros Hden [H1 E1] [H2 E2].
  assert (C : n1 = n2 \/ n1 = n2 + 1 \/ n2 = n1 + 1) by nia.
  destruct C as [C|[C|C]]; [exact C| |]; exfalso.
  - assert (T1 : 2 * Z.abs (n1 * den - num) = den) by nia.
    assert (T2 : 2 * Z.abs (n2 * den - num) = den) by nia.
    specialize (E1 T1). specialize (E2 T2). subst n1.
    rewrite Z.add_1_r, Z.even_succ, <- Z.negb_even, E2 in E1. discriminate.
  - assert (T1 : 2 * Z.abs (n1 * den - num) = den) by nia.
    assert (T2 : 2 * Z.abs (n2 * den - num) = den) by nia.
    specialize (E1 T1). specialize (E2 T2). subst n2.
    rewrite Z.add_1_r, Z.even_succ, <- Z.negb_even, E1 in E2. discriminate.
Qed.

Lemma hundredfold_den_pos (m : positive) (e : Z) : 0 < snd (Spec.hundredfold m e).
Proof. apply Z.pow_pos_nonneg; lia. Qed.

Lemma round2_unique (v r1 r2 : Num.float) :
  Spec.round2 v r1 -> Spec.round2 v r2 -> r1 = r2.
Proof.
  destruct v as [s|s| |s m e]; simpl; try congruence.
  intros (n1 & H1 & ->) (n2 & H2 & ->).
  now rewrite (nearest_even_unique _ _ _ _ (hundredfold_den_pos m e) H1 H2).
Qed.

(** C6: writing a value with the formatter of Task E (two decimals, comma)
    and reading the text back after putting the period in place of the
    comma gives the value rounded to two decimals, which is the float
    nearest to the decimal number of two fractional digits nearest to
    the value, ties to the even last digit; the same holds for the
    formatter of Task D, which first divides the watt-hours by 1000. *)
Theorem format_then_parse_rounds (v value_wh : Num.float) :
  (exists r, Spec.parse_back (TaskE.format_kwh_finnish v) = Ok r
             /\ forall r', Spec.round2 v r' <-> r' = r)
  /\ (exists r, Spec.parse_back (TaskD.format_kwh value_wh) = Ok r
                /\ forall r', Spec.round2 (TaskE.wh_to_kwh value_wh) r' <-> r' = r).
Proof.
  assert (G : forall x, exists r,
               Spec.parse_back (TaskE.format_kwh_finnish x) = Ok r
               /\ Spec.round2 x r).
  { intros x. unfold TaskE.format_kwh_finnish.
    destruct x as [s|s| |s m e]; cbn [Num.format_2f Spec.round2].
    - exists (S754_zero s). split; [|reflexivity]. destruct s; vm_compute; reflexivity.
    - exists (S754_infinity s). split; [|reflexivity].
      destruct s; vm_compute; reflexivity.
    - exists S754_nan. split; [|reflexivity]. vm_compute. reflexivity.
    - exists (Num.float_of_decimal s (Num.round_cents m e) (-2)). split.
      + apply show_cents_parse, round_cents_nonneg.
      + exists (Num.round_cents m e). split; [apply round_cents_nearest | reflexivity]. }
  assert (U : forall x, exists r,
               Spec.parse_back (TaskE.format_kwh_finnish x) = Ok r
               /\ forall r', Spec.round2 x r' <-> r' = r).
  { intros x. destruct (G x) as (r & Hp & Hr). exists r. split; [exact Hp|].
    intros r'. split.
    - intros Hr'. apply (round2_unique x r' r Hr' Hr).
    - intros ->. exact Hr. }
  split; [apply U | apply (U (TaskE.wh_to_kwh value_wh))].
Qed.

Example round2_examples :
  Spec.nearest_even 25 2 12
  /\ ~ Spec.nearest_even 25 2 13
  /\ Spec.nearest_even 27 2 14
  /\ Spec.round2 (Num.fdiv (Num.float_of_Z 1) (Num.float_of_Z 8))
                 (Num.fdiv (Num.float_of_Z 12) (Num.float_of_Z 100))
  /\ Spec.round2 (Num.float_of_Z 3) (Num.float_of_Z 3)
  /\ ~ Spec.round2 (Num.float_of_Z 3) Num.fzero.
Proof.
  split; [|split; [|split; [|split; [|split]]]].
  - split; [vm_compute; discriminate | reflexivity].
  - intros [_ H]. specialize (H eq_refl). discriminate.
  - split; [vm_compute; discriminate | reflexivity].
  - exists 12. split; [|vm_compute; reflexivity].
    split; [vm_compute; discriminate | reflexivity].
  - exists 300. split; [|vm_compute; reflexivity].
    split; [vm_compute; discriminate | intros H; vm_compute in H; discriminate].
  - intros H.
    assert (R : Spec.round2 (Num.float_of_Z 3) (Num.float_of_Z 3)).
    { exists 300. split; [|vm_compute; reflexivity].
      split; [vm_compute; discriminate | intros H'; vm_compute in H'; discriminate]. }
    pose proof (round2_unique _ _ _ H R) as E. vm_compute in E. discriminate.
Qed.

Example format_then_parse_examples :
  Spec.parse_back (TaskE.format_kwh_finnish (Num.fdiv (Num.float_of_Z 1) (Num.float_of_Z 8)))
  = Ok (Num.fdiv (Num.float_of_Z 12) (Num.float_of_Z 100))
  /\ Spec.parse_back (TaskD.format_kwh (Num.float_of_Z 12345))
     = Ok (Num.fdiv (Num.float_of_Z 1235) (Num.float_of_Z 100))
  /\ TaskD.format_kwh (Num.float_of_Z 12345) = "12,35"
  /\ TaskE.format_kwh_finnish (Num.fdiv (Num.float_of_Z (-1)) (Num.float_of_Z 1000))
     = "-0,00".
Proof. vm_compute. repeat split. Qed.

(** ** Binary64 addition of non-negative numbers *)

Lemma digits2_pos_log2 (p : positive) :
  Z.pos (digits2_pos p) = Z.log2 (Z.pos p) + 1.
Proof.
  assert (E : forall q, digits2_pos q = Pos.size q).
  { induction q; simpl; congruence. }
  destruct p; simpl; rewrite ?E; lia.
Qed.

Lemma fexp_eq (e : Z) : fexp Num.prec Num.emax e = Z.max (e - 53) (-1074).
Proof. reflexivity. Qed.

Lemma shr_1_m (mrs : shr_record) :
  0 <= shr_m mrs -> shr_m (shr_1 mrs) = shr_m mrs / 2.
Proof.
  destruct mrs as [m r s]. simpl. intros H.
  destruct m as [|p|p]; [reflexivity| |lia].
  rewrite <- Z.div2_div. destruct p; reflexivity.
Qed.

Lemma shr_m_iter (p : positive) :
  forall mrs, 0 <= shr_m mrs ->
              shr_m (iter_pos shr_1 p mrs) = shr_m mrs / 2 ^ Z.pos p.
Proof.
  induction p as [p IH|p IH|]; intros mrs H; simpl iter_pos;
    try (assert (Hp : 0 < 2 ^ Z.pos p) by (apply Z.pow_pos_nonneg; lia)).
  - assert (H1 : 0 <= shr_m (shr_1 mrs)) by (rewrite shr_1_m; auto; apply Z.div_pos; lia).
    assert (H2 : 0 <= shr_m (iter_pos shr_1 p (shr_1 mrs)))
      by (rewrite IH; auto; apply Z.div_pos; auto; apply Z.pow_pos_nonneg; lia).
    rewrite IH, IH, shr_1_m by auto.
    rewrite !Z.div_div by lia.
    f_equal.
    replace (Z.pos p~1) with (1 + Z.pos p + Z.pos p) by lia.
    rewrite !Z.pow_add_r by lia. change (2 ^ 1) with 2. ring.
  - assert (H2 : 0 <= shr_m (iter_pos shr_1 p mrs))
      by (rewrite IH; auto; apply Z.div_pos; auto; apply Z.pow_pos_nonneg; lia).
    rewrite IH, IH by auto.
    rewrite Z.div_div by lia.
    f_equal.
    replace (Z.pos p~0) with (Z.pos p + Z.pos p) by lia.
    rewrite !Z.pow_add_r by lia. ring.
  - rewrite shr_1_m by auto. reflexivity.
Qed.

Lemma rne_bounds (m : Z) (l : location) :
  round_nearest_even m l = m \/ round_nearest_even m l = m + 1.
Proof.
  destruct l as [|[]]; simpl; auto. destruct (Z.even m); auto.
Qed.

Lemma iter_xO (m d : positive) : Z.pos (Pos.iter xO m d) = Z.pos m * 2 ^ Z.pos d.
Proof.
  rewrite <- Z.shiftl_mul_pow2 by lia. simpl.
  apply (Pos.iter_swap_gen _ _ Z.pos xO (Z.mul 2)). reflexivity.
Qed.

Lemma Zdigits2_log2 (m : Z) : 0 < m -> Zdigits2 m = Z.log2 m + 1.
Proof.
  destruct m as [|p|p]; try lia. intros _. simpl. apply digits2_pos_log2.
Qed.

Lemma pos_bounds_log2 (m k : Z) : 0 <= k -> 2 ^ k <= m < 2 ^ (k + 1) -> Z.log2 m = k.
Proof. intros Hk H. apply Z.log2_unique; auto. Qed.

Lemma log2_bounds (m : Z) : 0 < m -> 2 ^ Z.log2 m <= m < 2 ^ (Z.log2 m + 1).
Proof. intros H. exact (Z.log2_spec m H). Qed.

(** A mantissa that already has the exponent its size asks for is kept. *)
Lemma binary_round_aux_exact (mz : positive) (e1 : Z) :
  fexp Num.prec Num.emax (Z.log2 (Z.pos mz) + 1 + e1) = e1 ->
  binary_round_aux Num.prec Num.emax false (Z.pos mz) e1 loc_Exact
  = if e1 <=? 971 then S754_finite false mz e1 else S754_infinity false.
Proof.
  intros H. unfold binary_round_aux.
  assert (E : shr_fexp Num.prec Num.emax (Z.pos mz) e1 loc_Exact
              = ({| shr_m := Z.pos mz; shr_r := false; shr_s := false |}, e1)).
  { unfold shr_fexp. rewrite Zdigits2_log2, H, Z.sub_diag by lia. reflexivity. }
  rewrite E. cbn [shr_m loc_of_shr_record shr_r shr_s round_nearest_even].
  rewrite E. reflexivity.
Qed.

(** A mantissa of more than 53 bits is cut to 53 bits and rounded; the
    carry of the rounding may add one to the exponent. *)
Lemma binary_round_aux_shift (M : positive) (e : Z) :
  -1074 <= e ->
  53 < Z.log2 (Z.pos M) + 1 ->
  let e1 := Z.log2 (Z.pos M) + 1 + e - 53 in
  let m1 := Z.pos M / 2 ^ (e1 - e) in
  2 ^ 52 <= m1 < 2 ^ 53
  /\ exists m2,
      (m2 = m1 \/ m2 = m1 + 1)
      /\ binary_round_aux Num.prec Num.emax false (Z.pos M) e loc_Exact
         = if m2 <? 2 ^ 53
           then if e1 <=? 971 then S754_finite false (Z.to_pos m2) e1
                else S754_infinity false
           else if e1 + 1 <=? 971 then S754_finite false (Z.to_pos (2 ^ 52)) (e1 + 1)
                else S754_infinity false.
Proof.
  intros He Hd e1 m1.
  set (dM := Z.log2 (Z.pos M) + 1) in *.
  assert (Hn : 0 < e1 - e) by (unfold e1; lia).
  assert (Hm1 : 2 ^ 52 <= m1 < 2 ^ 53).
  { pose proof (log2_bounds (Z.pos M) ltac:(lia)) as [Hlo Hhi]. fold dM in Hhi.
    assert (Hp : 0 < 2 ^ (e1 - e)) by (apply Z.pow_pos_nonneg; lia).
    replace (Z.log2 (Z.pos M)) with (52 + (e1 - e)) in Hlo by (unfold e1, dM; lia).
    replace dM with (53 + (e1 - e)) in Hhi by (unfold e1; lia).
    rewrite Z.pow_add_r in Hlo, Hhi by lia.
    unfold m1. split.
    - apply Z.div_le_lower_bound; lia.
    - apply Z.div_lt_upper_bound; lia. }
  split; [exact Hm1|].
  unfold binary_round_aux.
  destruct (shr_fexp Num.prec Num.emax (Z.pos M) e loc_Exact) as [mrs' e'] eqn:E1.
  assert (F1 : shr_m mrs' = m1 /\ e' = e1).
  { unfold shr_fexp in E1. rewrite Zdigits2_log2 in E1 by lia. fold dM in E1.
    rewrite fexp_eq in E1.
    replace (Z.max (dM + e - 53) (-1074) - e) with (e1 - e) in E1 by (unfold e1; lia).
    destruct (e1 - e) as [|n|n] eqn:En; try lia.
    unfold shr in E1. injection E1 as <- <-.
    rewrite shr_m_iter by (simpl; lia). simpl shr_m. split; [reflexivity | lia]. }
  destruct F1 as [F1 ->].
  set (m2 := round_nearest_even (shr_m mrs') (loc_of_shr_record mrs')).
  assert (Hm2 : m2 = m1 \/ m2 = m1 + 1).
  { unfold m2. rewrite <- F1. apply rne_bounds. }
  exists m2. split; [exact Hm2|].
  assert (Hm2pos : 0 < m2) by lia.
  destruct (Z.ltb_spec m2 (2 ^ 53)) as [Hlt|Hge].
  - assert (E2 : shr_fexp Num.prec Num.emax m2 e1 loc_Exact
                 = ({| shr_m := m2; shr_r := false; shr_s := false |}, e1)).
    { unfold shr_fexp. rewrite Zdigits2_log2 by lia.
      rewrite (pos_bounds_log2 m2 52) by lia.
      rewrite fexp_eq.
      replace (Z.max (52 + 1 + e1 - 53) (-1074) - e1) with 0 by (unfold e1; lia).
      reflexivity. }
    rewrite E2. cbn [shr_m].
    destruct m2 as [|q|q]; try lia. reflexivity.
  - assert (Hm2eq : m2 = 2 ^ 53) by lia.
    assert (E2 : shr_fexp Num.prec Num.emax m2 e1 loc_Exact
                 = (shr_1 {| shr_m := m2; shr_r := false; shr_s := false |}, e1 + 1)).
    { unfold shr_fexp. rewrite Zdigits2_log2 by lia.
      rewrite (pos_bounds_log2 m2 53) by lia.
      rewrite fexp_eq.
      replace (Z.max (53 + 1 + e1 - 53) (-1074) - e1) with 1 by (unfold e1; lia).
      reflexivity. }
    rewrite E2. rewrite Hm2eq. reflexivity.
Qed.

Lemma shl_align_fst (m : positive) (e ez : Z) :
  ez <= e -> Z.pos (fst (shl_align m e ez)) = Z.pos m * 2 ^ (e - ez).
Proof.
  intros H. unfold shl_align.
  destruct (ez - e) as [|d|d] eqn:E; try lia; simpl fst.
  - replace (e - ez) with 0 by lia. lia.
  - rewrite iter_xO. f_equal. f_equal. lia.
Qed.

Lemma binary_round_cases (M : positive) (e : Z) :
  -1074 <= e ->
  let e1 := fexp Num.prec Num.emax (Z.log2 (Z.pos M) + 1 + e) in
  (e1 <= e
   /\ binary_round Num.prec Num.emax false M e
      = if e1 <=? 971 then S754_finite false (Z.to_pos (Z.pos M * 2 ^ (e - e1))) e1
        else S754_infinity false)
  \/ (e < e1
      /\ e1 = Z.log2 (Z.pos M) + 1 + e - 53
      /\ 2 ^ 52 <= Z.pos M / 2 ^ (e1 - e) < 2 ^ 53
      /\ exists m2,
          (m2 = Z.pos M / 2 ^ (e1 - e) \/ m2 = Z.pos M / 2 ^ (e1 - e) + 1)
          /\ binary_round Num.prec Num.emax false M e
             = if m2 <? 2 ^ 53
               then if e1 <=? 971 then S754_finite false (Z.to_pos m2) e1
                    else S754_infinity false
               else if e1 + 1 <=? 971
                    then S754_finite false (Z.to_pos (2 ^ 52)) (e1 + 1)
                    else S754_infinity false).
Proof.
  intros He e1. unfold binary_round.
  rewrite digits2_pos_log2. fold e1.
  destruct (Z.le_gt_cases e1 e) as [Hle|Hgt].
  - left. split; [exact Hle|].
    unfold shl_align. destruct (e1 - e) as [|d|d] eqn:E; try lia.
    + assert (P : fexp Num.prec Num.emax (Z.log2 (Z.pos M) + 1 + e) = e) by (fold e1; lia).
      assert (Hee : e1 = e) by lia. clearbody e1. subst e1.
      rewrite (binary_round_aux_exact M e P).
      rewrite Z.sub_diag, Z.mul_1_r. reflexivity.
    + rewrite binary_round_aux_exact.
      * replace (e - e1) with (Z.pos d) by lia.
        rewrite <- iter_xO. reflexivity.
      * rewrite iter_xO, Z.log2_mul_pow2 by lia.
        unfold e1. f_equal. lia.
  - right. split; [exact Hgt|].
    assert (He1 : e1 = Z.log2 (Z.pos M) + 1 + e - 53).
    { unfold e1 in *. rewrite fexp_eq in *. lia. }
    assert (Hd : 53 < Z.log2 (Z.pos M) + 1) by lia.
    split; [exact He1|].
    destruct (binary_round_aux_shift M e He Hd) as (Hb & m2 & Hm2 & Hr).
    rewrite <- He1 in Hb, Hm2, Hr.
    split; [exact Hb|]. exists m2. split; [exact Hm2|].
    unfold shl_align. destruct (e1 - e) as [|d|d] eqn:E; try lia.
    exact Hr.
Qed.

Lemma bounded_spec (m : positive) (e : Z) :
  bounded Num.prec Num.emax m e = true <->
  Z.max (Z.log2 (Z.pos m) + 1 + e - 53) (-1074) = e /\ e <= 971.
Proof.
  unfold bounded, canonical_mantissa.
  rewrite andb_true_iff, Z.eqb_eq, Z.leb_le, digits2_pos_log2, fexp_eq.
  reflexivity.
Qed.

(** The sum of two positive binary64 numbers is infinite, or a binary64
    number that is not below the first of them in the order of
    [SFcompare]. *)
Lemma add_pos_finite (mx my : positive) (ex ey : Z) :
  bounded Num.prec Num.emax mx ex = true ->
  bounded Num.prec Num.emax my ey = true ->
  let r := SFadd Num.prec Num.emax (S754_finite false mx ex) (S754_finite false my ey) in
  r = S754_infinity false
  \/ exists mr er,
      r = S754_finite false mr er
      /\ bounded Num.prec Num.emax mr er = true
      /\ (ex < er \/ (ex = er /\ Z.pos mx <= Z.pos mr)).
Proof.
  intros Hx Hy r.
  apply bounded_spec in Hx, Hy. destruct Hx as [Hcx Hbx], Hy as [Hcy Hby].
  set (ez := Z.min ex ey).
  assert (Hez : -1074 <= ez) by (unfold ez; lia).
  pose proof (shl_align_fst mx ex ez ltac:(unfold ez; lia)) as Ha.
  pose proof (shl_align_fst my ey ez ltac:(unfold ez; lia)) as Hb.
  set (a := fst (shl_align mx ex ez)) in *.
  set (b := fst (shl_align my ey ez)) in *.
  assert (Hr : r = binary_round Num.prec Num.emax false (a + b) ez) by reflexivity.
  assert (Hpx : 0 < 2 ^ (ex - ez)) by (apply Z.pow_pos_nonneg; unfold ez; lia).
  assert (Hpy : 0 < 2 ^ (ey - ez)) by (apply Z.pow_pos_nonneg; unfold ez; lia).
  assert (HM : Z.pos (a + b) = Z.pos mx * 2 ^ (ex - ez) + Z.pos my * 2 ^ (ey - ez))
    by (rewrite Pos2Z.inj_add; lia).
  assert (Hlog : Z.log2 (Z.pos mx) + (ex - ez) <= Z.log2 (Z.pos (a + b))).
  { rewrite Z.add_comm, <- Z.log2_mul_pow2 by (unfold ez; lia).
    apply Z.log2_le_mono. nia. }
  destruct (binary_round_cases (a + b) ez Hez)
    as [[Hle Hres]|(Hgt & He1 & Hm1 & m2 & Hm2 & Hres)];
    rewrite fexp_eq in *;
    set (e1 := Z.max (Z.log2 (Z.pos (a + b)) + 1 + ez - 53) (-1074)) in *;
    assert (Hex : ex <= e1) by (unfold e1; lia).
  - assert (e1 = ex /\ ez = ex) as [He1x Hezx] by (unfold ez in *; lia).
    rewrite Hres in Hr.
    destruct (Z.leb_spec e1 971) as [Hb1|Hb1]; [right | left; exact Hr].
    exists (Z.to_pos (Z.pos (a + b) * 2 ^ (ez - e1))), e1.
    replace (ez - e1) with 0 in * by lia.
    rewrite Z.mul_1_r in *. simpl Z.to_pos in *.
    split; [exact Hr|]. split.
    + apply bounded_spec. split; [|exact Hb1].
      fold e1. unfold e1 at 1. lia.
    + right. split; [lia|].
      replace (ex - ez) with 0 in HM by lia. lia.
  - rewrite Hres in Hr.
    assert (Hp : 0 < 2 ^ (e1 - ez)) by (apply Z.pow_pos_nonneg; lia).
    destruct (Z.ltb_spec m2 (2 ^ 53)) as [Hlt|Hge].
    + destruct (Z.leb_spec e1 971) as [Hb1|Hb1]; [right | left; exact Hr].
      exists (Z.to_pos m2), e1. split; [exact Hr|].
      assert (Hm2pos : 0 < m2) by lia.
      rewrite Z2Pos.id by lia. split.
      * apply bounded_spec. split; [|exact Hb1].
        rewrite Z2Pos.id by lia.
        rewrite (pos_bounds_log2 m2 52) by lia. lia.
      * destruct (Z.eq_dec ex e1) as [Heq|Hne]; [right | left; lia].
        split; [exact Heq|].
        assert (Z.pos mx <= Z.pos (a + b) / 2 ^ (e1 - ez)); [|lia].
        apply Z.div_le_lower_bound; [lia|].
        rewrite HM. rewrite <- Heq. nia.
    + destruct (Z.leb_spec (e1 + 1) 971) as [Hb1|Hb1]; [right | left; exact Hr].
      exists (Z.to_pos (2 ^ 52)), (e1 + 1). split; [exact Hr|]. split.
      * apply bounded_spec. split; [|exact Hb1].
        change (Z.log2 (Z.pos (Z.to_pos (2 ^ 52)))) with 52. lia.
      * left. lia.
Qed.

Lemma nonneg_cases (x : spec_float) :
  Spec.nonneg x = true ->
  (exists s, x = S754_zero s) \/ x = S754_infinity false
  \/ exists m e, x = S754_finite false m e /\ bounded Num.prec Num.emax m e = true.
Proof.
  unfold Spec.nonneg, Num.fle, Num.fzero. rewrite andb_true_iff. intros [Hv Hle].
  destruct x as [s|s| |s m e]; simpl in *.
  - left. eauto.
  - destruct s; [discriminate|]. right. left. reflexivity.
  - discriminate.
  - destruct s; [discriminate|]. right. right. eauto.
Qed.

Lemma SFleb_finite (mx mr : positive) (ex er : Z) :
  ex < er \/ (ex = er /\ Z.pos mx <= Z.pos mr) ->
  SFleb (S754_finite false mx ex) (S754_finite false mr er) = true.
Proof.
  intros H. unfold SFleb, SFcompare.
  destruct H as [H|[-> H]].
  - apply Z.compare_lt_iff in H. now rewrite H.
  - rewrite Z.compare_refl.
    change (Pos.compare_cont Eq mx mr) with (Pos.compare mx mr).
    unfold Z.le in H. simpl in H.
    destruct (Pos.compare mx mr); auto.
Qed.

(** Adding a non-negative number to a non-negative number gives a
    non-negative number that is not smaller. *)
Lemma fadd_nonneg (x y : Num.float) :
  Spec.nonneg x = true -> Spec.nonneg y = true ->
  Spec.nonneg (Num.fadd x y) = true /\ Num.fle x (Num.fadd x y) = true.
Proof.
  intros Hx Hy.
  destruct (nonneg_cases x Hx) as [[sx ->]|[->|(mx & ex & -> & Hbx)]];
    destruct (nonneg_cases y Hy) as [[sy ->]|[->|(my & ey & -> & Hby)]].
  - destruct sx, sy; split; reflexivity.
  - destruct sx; split; reflexivity.
  - split; [exact Hy | reflexivity].
  - destruct sy; split; reflexivity.
  - split; reflexivity.
  - split; reflexivity.
  - split; [exact Hx|]. apply SFleb_finite. right. split; lia.
  - split; reflexivity.
  - destruct (add_pos_finite mx my ex ey Hbx Hby) as [Hr|(mr & er & Hr & Hb & Hcmp)];
      cbv zeta in Hr; unfold Num.fadd; rewrite Hr.
    + split; reflexivity.
    + split.
      * unfold Spec.nonneg. simpl. now rewrite Hb.
      * now apply SFleb_finite.
Qed.

(** ** The invariant of the daily summaries *)

Lemma nonneg_fle_refl (x : Num.float) : Spec.nonneg x = true -> Num.fle x x = true.
Proof.
  intros H.
  destruct (nonneg_cases x H) as [[s ->]|[->|(m & e & -> & _)]]; try reflexivity.
  apply SFleb_finite. right. split; lia.
Qed.

Lemma getitem_summary_inv (f : string -> Num.float) (k : string) (v : Num.float) :
  Dict.getitem String.eqb (Spec.summary f) k = Ok v ->
  In k TaskE.summary_keys /\ v = f k.
Proof.
  unfold Spec.summary. simpl. intros H.
  repeat match type of H with
         | (if String.eqb k ?c then _ else _) = _ =>
             destruct (String.eqb_spec k c) as [->|_];
             [injection H as <-; split; [tauto | reflexivity]|]
         end.
  discriminate.
Qed.

Lemma nonneg_measurement_field (m : TaskE.Measurement) (k : string) :
  Spec.nonneg_measurement m = true -> In k TaskE.summary_keys ->
  Spec.nonneg (Spec.measurement_field m k) = true.
Proof.
  unfold Spec.nonneg_measurement. rewrite !andb_true_iff.
  intros (((((H1 & H2) & H3) & H4) & H5) & H6) Hk. simpl in Hk.
  repeat (destruct Hk as [<-|Hk]; [assumption|]). contradiction.
Qed.

Lemma summaries_nonneg_ok (daily : TaskE.WeekDailySummaries) :
  summaries_nonneg daily -> summaries_ok daily.
Proof.
  unfold summaries_nonneg, summaries_ok. apply Forall_impl.
  intros kv (f & H & _). eauto.
Qed.

Lemma summaries_nonneg_getitem (daily : TaskE.WeekDailySummaries) d s :
  summaries_nonneg daily -> Dict.getitem Cal.date_eqb daily d = Ok s ->
  exists f, s = Spec.summary f
            /\ forall k, In k TaskE.summary_keys -> Spec.nonneg (f k) = true.
Proof.
  intros H Hg. apply (getitem_In Cal.date_eqb date_eqb_eq) in Hg.
  unfold summaries_nonneg in H. rewrite Forall_forall in H. exact (H _ Hg).
Qed.

Lemma summaries_ok_full_keys (daily : TaskE.WeekDailySummaries) :
  summaries_ok daily -> Spec.full_keys daily.
Proof.
  intros H d s Hs. destruct (summaries_ok_getitem daily d s H Hs) as [f ->].
  reflexivity.
Qed.

Lemma summary_before_present (daily : TaskE.WeekDailySummaries) d f k :
  Dict.getitem Cal.date_eqb daily d = Ok (Spec.summary f) ->
  In k TaskE.summary_keys ->
  summary_before daily d k = f k.
Proof.
  intros H Hk. unfold summary_before. rewrite H.
  unfold Spec.field_of. now rewrite getitem_summary.
Qed.

Lemma summary_before_nonneg (daily : TaskE.WeekDailySummaries) d k :
  summaries_nonneg daily -> In k TaskE.summary_keys ->
  Spec.nonneg (summary_before daily d k) = true.
Proof.
  intros H Hk. unfold summary_before.
  destruct (Dict.getitem Cal.date_eqb daily d) as [s|e] eqn:Hg; [|reflexivity].
  destruct (summaries_nonneg_getitem daily d s H Hg) as (f & -> & Hf).
  unfold Spec.field_of. rewrite getitem_summary by assumption. auto.
Qed.

Lemma taske_step_nonneg (daily : TaskE.WeekDailySummaries) (m : TaskE.Measurement) :
  summaries_nonneg daily -> Spec.nonneg_measurement m = true ->
  exists daily',
    TaskE.daily_step daily m = Ok daily'
    /\ summaries_nonneg daily' /\ Spec.not_decreased daily daily'.
Proof.
  intros Hnn Hm.
  rewrite (taske_daily_step_ok daily m (summaries_nonneg_ok daily Hnn)).
  set (dm := Cal.dt_date (TaskE.timestamp m)).
  set (f' := fun k => Num.fadd (summary_before daily dm k) (Spec.measurement_field m k)).
  assert (Hf' : forall k, In k TaskE.summary_keys ->
                          Spec.nonneg (f' k) = true
                          /\ Num.fle (summary_before daily dm k) (f' k) = true).
  { intros k Hk. apply fadd_nonneg.
    - now apply summary_before_nonneg.
    - now apply nonneg_measurement_field. }
  eexists. split; [reflexivity|]. split.
  - apply (Forall_setitem Cal.date_eqb
             (fun s => exists f, s = Spec.summary f
                                 /\ forall k, In k TaskE.summary_keys ->
                                              Spec.nonneg (f k) = true));
      [exact Hnn|].
    exists f'. split; [reflexivity|]. intros k Hk. now apply Hf'.
  - intros d s k v Hs Hv.
    destruct (summaries_nonneg_getitem daily d s Hnn Hs) as (f & -> & Hf).
    destruct (getitem_summary_inv f k v Hv) as [Hk ->].
    destruct (Spec.date_eq_dec d dm) as [->|Hne].
    + exists (Spec.summary f'), (f' k).
      rewrite (getitem_setitem_same Cal.date_eqb date_eqb_eq).
      rewrite getitem_summary by assumption.
      repeat split.
      rewrite <- (summary_before_present daily dm f k Hs Hk). now apply Hf'.
    + exists (Spec.summary f), (f k).
      rewrite (getitem_setitem_other Cal.date_eqb date_eqb_eq) by assumption.
      rewrite Hs, getitem_summary by assumption.
      repeat split. apply nonneg_fle_refl. auto.
Qed.

Lemma taske_for_each_nonneg (ms : list TaskE.Measurement)
      (daily0 : TaskE.WeekDailySummaries) :
  summaries_nonneg daily0 -> forallb Spec.nonneg_measurement ms = true ->
  exists daily,
    for_each ms TaskE.daily_step daily0 = Ok daily /\ summaries_nonneg daily.
Proof.
  revert daily0. induction ms as [|m ms IH]; intros daily0 H0 Hms; simpl in *.
  - eauto.
  - apply andb_true_iff in Hms. destruct Hms as [Hm Hms].
    destruct (taske_step_nonneg daily0 m H0 Hm) as (daily1 & -> & H1 & _).
    simpl. now apply IH.
Qed.

(** The part of C8 that concerns Task E. *)
Lemma taske_summary_invariant (ms : list TaskE.Measurement) (m : TaskE.Measurement) :
  exists daily daily',
    TaskE.calculate_daily_summaries ms = Ok daily
    /\ TaskE.calculate_daily_summaries (ms ++ [m]) = Ok daily'
    /\ Spec.full_keys daily /\ Spec.full_keys daily'
    /\ (Dict.contains Cal.date_eqb daily (Cal.dt_date (TaskE.timestamp m)) = false ->
        Dict.getitem Cal.date_eqb daily' (Cal.dt_date (TaskE.timestamp m))
        = Ok (Spec.summary
                (fun k => Num.fadd Num.fzero (Spec.measurement_field m k))))
    /\ (forallb Spec.nonneg_measurement (ms ++ [m]) = true ->
        Spec.not_decreased daily daily').
Proof.
  unfold TaskE.calculate_daily_summaries.
  destruct (taske_for_each_inv ms [] (Forall_nil _) (NoDup_nil _))
    as (daily & Hrun & Hok & _ & _).
  exists daily.
  rewrite for_each_app, Hrun. simpl.
  rewrite (taske_daily_step_ok daily m Hok).
  eexists. split; [reflexivity|]. split; [reflexivity|].
  split; [now apply summaries_ok_full_keys|]. split; [|split].
  - apply summaries_ok_full_keys.
    apply (Forall_setitem Cal.date_eqb (fun s => exists f, s = Spec.summary f));
      eauto.
  - intros Hc. rewrite (getitem_setitem_same Cal.date_eqb date_eqb_eq).
    unfold summary_before. now rewrite (contains_false_getitem _ _ _ Hc).
  - intros Hall. rewrite forallb_app in Hall. simpl in Hall.
    rewrite !andb_true_iff in Hall. destruct Hall as (Hms & Hm & _).
    destruct (taske_for_each_nonneg ms [] (Forall_nil _) Hms) as (daily2 & Hrun2 & Hnn).
    rewrite Hrun in Hrun2. injection Hrun2 as <-.
    destruct (taske_step_nonneg daily m Hnn Hm) as (daily' & Hstep & _ & Hmono).
    rewrite (taske_daily_step_ok daily m Hok) in Hstep. injection Hstep as <-.
    exact Hmono.
Qed.

Lemma totals_nonneg_ok (daily : TaskD.daily_totals) :
  totals_nonneg daily -> totals_ok daily.
Proof.
  unfold totals_nonneg, totals_ok. apply Forall_impl.
  intros kv (c0 & c1 & c2 & p0 & p1 & p2 & H & _). repeat eexists. exact H.
Qed.

Lemma totals_nonneg_getitem (daily : TaskD.daily_totals) d c0 c1 c2 p0 p1 p2 :
  totals_nonneg daily ->
  Dict.getitem Cal.date_eqb daily d = Ok (Spec.totals c0 c1 c2 p0 p1 p2) ->
  Spec.nonneg c0 = true /\ Spec.nonneg c1 = true /\ Spec.nonneg c2 = true
  /\ Spec.nonneg p0 = true /\ Spec.nonneg p1 = true /\ Spec.nonneg p2 = true.
Proof.
  intros H Hg. apply (getitem_In Cal.date_eqb date_eqb_eq) in Hg.
  unfold totals_nonneg in H. rewrite Forall_forall in H.
  destruct (H _ Hg) as (a0 & a1 & a2 & b0 & b1 & b2 & E & Hn).
  simpl in E. injection E as -> -> -> -> -> ->. exact Hn.
Qed.

Lemma totals_ok_full_lists (daily : TaskD.daily_totals) :
  totals_ok daily -> Spec.full_lists daily.
Proof. intros H d data Hd. exact (totals_ok_getitem daily d data H Hd). Qed.

Lemma nonneg_row_fields (parts : TaskD.row) v1 v2 v3 v4 v5 v6 :
  Spec.nonneg_row parts = true ->
  TaskD.float_field parts 1 = Ok v1 -> TaskD.float_field parts 2 = Ok v2 ->
  TaskD.float_field parts 3 = Ok v3 -> TaskD.float_field parts 4 = Ok v4 ->
  TaskD.float_field parts 5 = Ok v5 -> TaskD.float_field parts 6 = Ok v6 ->
  Spec.nonneg v1 = true /\ Spec.nonneg v2 = true /\ Spec.nonneg v3 = true
  /\ Spec.nonneg v4 = true /\ Spec.nonneg v5 = true /\ Spec.nonneg v6 = true.
Proof.
  unfold Spec.nonneg_row. cbn [forallb].
  intros H H1 H2 H3 H4 H5 H6.
  rewrite H1, H2, H3, H4, H5, H6 in H.
  rewrite !andb_true_iff in H. tauto.
Qed.

Lemma taskd_step_nonneg (daily daily' : TaskD.daily_totals) (parts : TaskD.row) :
  totals_nonneg daily -> Spec.nonneg_row parts = true ->
  TaskD.daily_step daily parts = Ok daily' ->
  totals_nonneg daily' /\ Spec.not_decreased_lists daily daily'.
Proof.
  intros Hnn Hrow Hstep.
  destruct (taskd_daily_step_ok daily daily' parts (totals_nonneg_ok daily Hnn) Hstep)
    as (d & c0 & c1 & c2 & p0 & p1 & p2 & v1 & v2 & v3 & v4 & v5 & v6
        & Hd & H1 & H2 & H3 & H4 & H5 & H6 & Hcur & ->).
  destruct (nonneg_row_fields parts v1 v2 v3 v4 v5 v6 Hrow H1 H2 H3 H4 H5 H6)
    as (N1 & N2 & N3 & N4 & N5 & N6).
  assert (Hc : Spec.nonneg c0 = true /\ Spec.nonneg c1 = true /\ Spec.nonneg c2 = true
               /\ Spec.nonneg p0 = true /\ Spec.nonneg p1 = true
               /\ Spec.nonneg p2 = true).
  { destruct (Dict.getitem Cal.date_eqb daily d) as [data|e] eqn:Hg.
    - subst data. exact (totals_nonneg_getitem daily d _ _ _ _ _ _ Hnn Hg).
    - injection Hcur as <- <- <- <- <- <-. repeat split. }
  destruct Hc as (C0 & C1 & C2 & P0 & P1 & P2).
  destruct (fadd_nonneg c0 v1 C0 N1) as [A0 L0].
  destruct (fadd_nonneg c1 v2 C1 N2) as [A1 L1].
  destruct (fadd_nonneg c2 v3 C2 N3) as [A2 L2].
  destruct (fadd_nonneg p0 v4 P0 N4) as [B0 M0].
  destruct (fadd_nonneg p1 v5 P1 N5) as [B1 M1].
  destruct (fadd_nonneg p2 v6 P2 N6) as [B2 M2].
  split.
  - apply (Forall_setitem Cal.date_eqb
             (fun data => exists c0 c1 c2 p0 p1 p2,
                  data = Spec.totals c0 c1 c2 p0 p1 p2
                  /\ Spec.nonneg c0 = true /\ Spec.nonneg c1 = true
                  /\ Spec.nonneg c2 = true /\ Spec.nonneg p0 = true
                  /\ Spec.nonneg p1 = true /\ Spec.nonneg p2 = true));
      [exact Hnn|].
    do 6 eexists. split; [reflexivity|]. tauto.
  - intros d0 a0 a1 a2 b0 b1 b2 Hg0.
    destruct (Spec.date_eq_dec d0 d) as [->|Hne].
    + rewrite Hg0 in Hcur. injection Hcur as -> -> -> -> -> ->.
      do 6 eexists.
      rewrite (getitem_setitem_same Cal.date_eqb date_eqb_eq).
      split; [reflexivity|]. tauto.
    + destruct (totals_nonneg_getitem daily d0 _ _ _ _ _ _ Hnn Hg0)
        as (Q0 & Q1 & Q2 & Q3 & Q4 & Q5).
      exists a0, a1, a2, b0, b1, b2.
      rewrite (getitem_setitem_other Cal.date_eqb date_eqb_eq) by assumption.
      split; [exact Hg0|].
      repeat split; now apply nonneg_fle_refl.
Qed.

Lemma taskd_for_each_nonneg (rows : list TaskD.row) (daily0 daily : TaskD.daily_totals) :
  totals_nonneg daily0 -> forallb Spec.nonneg_row rows = true ->
  for_each rows TaskD.daily_step daily0 = Ok daily ->
  totals_nonneg daily.
Proof.
  revert daily0. induction rows as [|parts rows IH]; intros daily0 H0 Hrows H;
    simpl in *.
  - now injection H as <-.
  - apply andb_true_iff in Hrows. destruct Hrows as [Hrow Hrows].
    apply bind_ok in H. destruct H as (daily1 & Hstep & H).
    destruct (taskd_step_nonneg daily0 daily1 parts H0 Hrow Hstep) as [H1 _].
    exact (IH daily1 H1 Hrows H).
Qed.

(** The part of C8 that concerns Task D. *)
Lemma taskd_totals_invariant (rows : list TaskD.row) (parts : TaskD.row)
      (daily daily' : TaskD.daily_totals) :
  TaskD.calculate_daily_totals rows = Ok daily ->
  TaskD.calculate_daily_totals (rows ++ [parts]) = Ok daily' ->
  Spec.full_lists daily /\ Spec.full_lists daily'
  /\ (exists d v1 v2 v3 v4 v5 v6,
         Spec.row_date parts = [d]
         /\ TaskD.float_field parts 1 = Ok v1 /\ TaskD.float_field parts 2 = Ok v2
         /\ TaskD.float_field parts 3 = Ok v3 /\ TaskD.float_field parts 4 = Ok v4
         /\ TaskD.float_field parts 5 = Ok v5 /\ TaskD.float_field parts 6 = Ok v6
         /\ (Dict.contains Cal.date_eqb daily d = false ->
             Dict.getitem Cal.date_eqb daily' d
             = Ok (Spec.totals (Num.fadd Num.fzero v1) (Num.fadd Num.fzero v2)
                               (Num.fadd Num.fzero v3) (Num.fadd Num.fzero v4)
                               (Num.fadd Num.fzero v5) (Num.fadd Num.fzero v6))))
  /\ (forallb Spec.nonneg_row (rows ++ [parts]) = true ->
      Spec.not_decreased_lists daily daily').
Proof.
  unfold TaskD.calculate_daily_totals. intros Hrun Hrun'.
  rewrite for_each_app, Hrun in Hrun'. simpl in Hrun'.
  apply bind_ok in Hrun'. destruct Hrun' as (daily1 & Hstep & E).
  injection E as ->.
  destruct (taskd_for_each_inv rows [] daily (Forall_nil _) (NoDup_nil _) Hrun)
    as (Hok & Hnd & _).
  destruct (taskd_daily_step_inv daily daily' parts Hok Hnd Hstep) as (Hok' & _ & _).
  split; [now apply totals_ok_full_lists|].
  split; [now apply totals_ok_full_lists|]. split.
  - destruct (taskd_daily_step_ok daily daily' parts Hok Hstep)
      as (d & c0 & c1 & c2 & p0 & p1 & p2 & v1 & v2 & v3 & v4 & v5 & v6
          & Hd & H1 & H2 & H3 & H4 & H5 & H6 & Hcur & ->).
    exists d, v1, v2, v3, v4, v5, v6. repeat (split; [assumption|]).
    intros Hc. rewrite (contains_false_getitem _ _ _ Hc) in Hcur.
    injection Hcur as <- <- <- <- <- <-.
    apply (getitem_setitem_same Cal.date_eqb date_eqb_eq).
  - intros Hall. rewrite forallb_app in Hall. simpl in Hall.
    rewrite !andb_true_iff in Hall. destruct Hall as (Hrows & Hrow & _).
    pose proof (taskd_for_each_nonneg rows [] daily (Forall_nil _) Hrows Hrun) as Hnn.
    exact (proj2 (taskd_step_nonneg daily daily' parts Hnn Hrow Hstep)).
Qed.

(** C8: in both aggregations every value of the date-keyed mapping has
    the full fixed set of fields at every stage (Task E: exactly the six
    keys; Task D: the keys cons and prod with three values each); a date
    met for the first time starts from 0.0, to which the record is added;
    and when all values read so far are non-negative binary64 numbers, no
    value of the mapping gets smaller when the next record is processed. *)
Theorem daily_summary_invariant
        (ms : list TaskE.Measurement) (m : TaskE.Measurement)
        (rows : list TaskD.row) (parts : TaskD.row)
        (totals totals' : TaskD.daily_totals) :
  TaskD.calculate_daily_totals rows = Ok totals ->
  TaskD.calculate_daily_totals (rows ++ [parts]) = Ok totals' ->
  (exists daily daily',
      TaskE.calculate_daily_summaries ms = Ok daily
      /\ TaskE.calculate_daily_summaries (ms ++ [m]) = Ok daily'
      /\ Spec.full_keys daily /\ Spec.full_keys daily'
      /\ (Dict.contains Cal.date_eqb daily (Cal.dt_date (TaskE.timestamp m)) = false ->
          Dict.getitem Cal.date_eqb daily' (Cal.dt_date (TaskE.timestamp m))
          = Ok (Spec.summary
                  (fun k => Num.fadd Num.fzero (Spec.measurement_field m k))))
      /\ (forallb Spec.nonneg_measurement (ms ++ [m]) = true ->
          Spec.not_decreased daily daily'))
  /\ Spec.full_lists totals /\ Spec.full_lists totals'
  /\ (exists d v1 v2 v3 v4 v5 v6,
         Spec.row_date parts = [d]
         /\ TaskD.float_field parts 1 = Ok v1 /\ TaskD.float_field parts 2 = Ok v2
         /\ TaskD.float_field parts 3 = Ok v3 /\ TaskD.float_field parts 4 = Ok v4
         /\ TaskD.float_field parts 5 = Ok v5 /\ TaskD.float_field parts 6 = Ok v6
         /\ (Dict.contains Cal.date_eqb totals d = false ->
             Dict.getitem Cal.date_eqb totals' d
             = Ok (Spec.totals (Num.fadd Num.fzero v1) (Num.fadd Num.fzero v2)
                               (Num.fadd Num.fzero v3) (Num.fadd Num.fzero v4)
                               (Num.fadd Num.fzero v5) (Num.fadd Num.fzero v6))))
  /\ (forallb Spec.nonneg_row (rows ++ [parts]) = true ->
      Spec.not_decreased_lists totals totals').
Proof.
  intros H H'. split.
  - apply taske_summary_invariant.
  - exact (taskd_totals_invariant rows parts totals totals' H H').
Qed.

Lemma daily_summary_invariant_witness :
  let rows := [Str.split ";" "2025-10-13T00:00:00;100;200;300;10;20;30"] in
  let parts := Str.split ";" "2025-10-14T01:00:00;50;50;50;5;5;0.5" in
  let totals :=
    [(Cal.mkdate 2025 10 13,
       Spec.totals (Num.float_of_Z 100) (Num.float_of_Z 200) (Num.float_of_Z 300)
         (Num.float_of_Z 10) (Num.float_of_Z 20) (Num.float_of_Z 30))] in
  let totals' :=
    totals ++
    [(Cal.mkdate 2025 10 14,
       Spec.totals (Num.float_of_Z 50) (Num.float_of_Z 50) (Num.float_of_Z 50)
         (Num.float_of_Z 5) (Num.float_of_Z 5)
         (Num.fdiv (Num.float_of_Z 1) (Num.float_of_Z 2)))] in
  let ms :=
    [TaskE.mkMeasurement (Cal.mkdatetime (Cal.mkdate 2025 10 13) 0 0 0 0)
       (Num.float_of_Z 100) (Num.float_of_Z 200) (Num.float_of_Z 300)
       (Num.float_of_Z 10) (Num.float_of_Z 20) (Num.float_of_Z 30)] in
  let m :=
    TaskE.mkMeasurement (Cal.mkdatetime (Cal.mkdate 2025 10 13) 1 0 0 0)
      (Num.float_of_Z 50) (Num.float_of_Z 50) (Num.float_of_Z 50)
      (Num.float_of_Z 5) (Num.float_of_Z 5) (Num.float_of_Z 5) in
  (TaskD.calculate_daily_totals rows = Ok totals
   /\ TaskD.calculate_daily_totals (rows ++ [parts]) = Ok totals'
   /\ Spec.full_lists totals'
   /\ Spec.not_decreased_lists totals totals')
  /\ (exists daily daily',
         TaskE.calculate_daily_summaries ms = Ok daily
         /\ TaskE.calculate_daily_summaries (ms ++ [m]) = Ok daily'
         /\ Spec.full_keys daily'
         /\ Spec.not_decreased daily daily').
Proof.
  cbv zeta.
  match goal with
  | |- (?a = Ok ?t /\ ?b = Ok ?t' /\ _) /\ _ =>
      assert (H : a = Ok t) by (vm_compute; reflexivity);
      assert (H' : b = Ok t') by (vm_compute; reflexivity)
  end.
  destruct (daily_summary_invariant
              [TaskE.mkMeasurement (Cal.mkdatetime (Cal.mkdate 2025 10 13) 0 0 0 0)
                 (Num.float_of_Z 100) (Num.float_of_Z 200) (Num.float_of_Z 300)
                 (Num.float_of_Z 10) (Num.float_of_Z 20) (Num.float_of_Z 30)]
              (TaskE.mkMeasurement (Cal.mkdatetime (Cal.mkdate 2025 10 13) 1 0 0 0)
                 (Num.float_of_Z 50) (Num.float_of_Z 50) (Num.float_of_Z 50)
                 (Num.float_of_Z 5) (Num.float_of_Z 5) (Num.float_of_Z 5))
              _ _ _ _ H H')
    as ((daily & daily' & Ha & Hb & _ & Hk & _ & Hmono) & _ & Hf & _ & HmonoD).
  split.
  - split; [exact H|]. split; [exact H'|]. split; [exact Hf|].
    apply HmonoD. vm_compute. reflexivity.
  - exists daily, daily'.
    split; [exact Ha|]. split; [exact Hb|]. split; [exact Hk|].
    apply Hmono. vm_compute. reflexivity.
Defined.

(** * Further properties of the code *)

(** ** Grouping by date *)

Lemma date_eqb_refl (d : Cal.date) : Cal.date_eqb d d = true.
Proof. now apply date_eqb_eq. Qed.

Lemma date_eqb_sym (a b : Cal.date) : Cal.date_eqb a b = Cal.date_eqb b a.
Proof.
  destruct (Cal.date_eqb a b) eqn:E, (Cal.date_eqb b a) eqn:E'; auto.
  - apply date_eqb_eq in E. subst. now rewrite date_eqb_refl in E'.
  - apply date_eqb_eq in E'. subst. now rewrite date_eqb_refl in E.
Qed.

Lemma existsb_date_In (d : Cal.date) (l : list Cal.date) :
  existsb (fun x => Cal.date_eqb x d) l = true <-> In d l.
Proof.
  rewrite existsb_exists. split.
  - intros (x & Hx & E). apply date_eqb_eq in E. now subst.
  - intros H. exists d. split; auto. apply date_eqb_refl.
Qed.

Lemma first_occurrences_snoc (l : list Cal.date) (d : Cal.date) :
  Spec.first_occurrences (l ++ [d])
  = if existsb (fun x => Cal.date_eqb x d) l
    then Spec.first_occurrences l
    else Spec.first_occurrences l ++ [d].
Proof.
  induction l as [|a l IH]; simpl; auto.
  rewrite IH. destruct (Cal.date_eqb a d) eqn:E; simpl.
  - apply date_eqb_eq in E. subst a.
    destruct (existsb _ l); auto.
    rewrite filter_app. simpl. rewrite date_eqb_refl. simpl.
    now rewrite app_nil_r.
  - destruct (existsb _ l); auto.
    rewrite filter_app. simpl. rewrite date_eqb_sym, E. reflexivity.
Qed.

Lemma first_occurrences_In (l : list Cal.date) (d : Cal.date) :
  In d (Spec.first_occurrences l) <-> In d l.
Proof.
  induction l as [|a l IH]; simpl; [tauto|].
  rewrite filter_In, IH, negb_true_iff.
  destruct (Cal.date_eqb d a) eqn:E.
  - apply date_eqb_eq in E. subst. intuition.
  - split.
    + intros [->|[H _]]; auto.
    + intros [->|H]; [now rewrite date_eqb_refl in E | auto].
Qed.

Lemma first_occurrences_NoDup (l : list Cal.date) : NoDup (Spec.first_occurrences l).
Proof.
  induction l as [|a l IH]; simpl; [constructor|]. constructor.
  - rewrite filter_In, date_eqb_refl. intros [_ H]. discriminate.
  - now apply NoDup_filter.
Qed.

Lemma first_occurrences_exists (l : list Cal.date) (d : Cal.date) :
  existsb (fun x => Cal.date_eqb x d) (Spec.first_occurrences l)
  = existsb (fun x => Cal.date_eqb x d) l.
Proof.
  destruct (existsb _ l) eqn:E.
  - rewrite existsb_date_In, first_occurrences_In, <- existsb_date_In. exact E.
  - destruct (existsb _ (Spec.first_occurrences l)) eqn:E'; auto.
    rewrite existsb_date_In, first_occurrences_In, <- existsb_date_In in E'.
    rewrite E' in E. discriminate.
Qed.

Section Grouped.
Variables K V : Type.
Variable eqb : K -> K -> bool.
Hypothesis eqb_eq : forall a b, eqb a b = true <-> a = b.

Lemma setitem_map_keys (g : K -> V) (ks : list K) (k : K) (v : V) :
  NoDup ks ->
  Dict.setitem eqb (map (fun d => (d, g d)) ks) k v
  = map (fun d => (d, if eqb d k then v else g d))
        (if existsb (fun x => eqb x k) ks then ks else ks ++ [k]).
Proof.
  assert (R : eqb k k = true) by now apply eqb_eq.
  induction ks as [|a ks IH]; intros Hnd; simpl.
  - now rewrite R.
  - inversion Hnd as [|? ? Hnot Hnd']; subst.
    destruct (eqb k a) eqn:E.
    + apply eqb_eq in E. subst a. rewrite R. simpl. rewrite R. f_equal.
      apply map_ext_in. intros x Hx.
      destruct (eqb x k) eqn:E; auto.
      apply eqb_eq in E. subst. contradiction.
    + assert (E' : eqb a k = false).
      { destruct (eqb a k) eqn:E'; auto. apply eqb_eq in E'. subst.
        congruence. }
      rewrite E'. simpl. rewrite IH by assumption.
      destruct (existsb _ ks); simpl; now rewrite E'.
Qed.

Lemma getitem_map_keys (g : K -> V) (ks : list K) (k : K) :
  Dict.getitem eqb (map (fun d => (d, g d)) ks) k
  = if existsb (fun x => eqb x k) ks then Ok (g k) else Raise KeyError.
Proof.
  induction ks as [|a ks IH]; simpl; auto.
  destruct (eqb k a) eqn:E.
  - apply eqb_eq in E. subst a.
    replace (eqb k k) with true by (symmetry; now apply eqb_eq). reflexivity.
  - assert (E' : eqb a k = false).
    { destruct (eqb a k) eqn:E'; auto. apply eqb_eq in E'. subst.
      assert (eqb k k = true) by now apply eqb_eq. congruence. }
    now rewrite E'.
Qed.
End Grouped.

Arguments setitem_map_keys {K V} eqb eqb_eq g ks k v _.
Arguments getitem_map_keys {K V} eqb eqb_eq g ks k.

Lemma float_sum_snoc (vs : list Num.float) (v : Num.float) :
  Spec.float_sum (vs ++ [v]) = Num.fadd (Spec.float_sum vs) v.
Proof. unfold Spec.float_sum. now rewrite fold_left_app. Qed.

Lemma summary_ext (f g : string -> Num.float) :
  (forall k, In k TaskE.summary_keys -> f k = g k) -> Spec.summary f = Spec.summary g.
Proof.
  intros H. unfold Spec.summary. apply map_ext_in. intros k Hk. now rewrite H.
Qed.

Lemma field_of_summary (f : string -> Num.float) (k : string) :
  In k TaskE.summary_keys -> Spec.field_of (Spec.summary f) k = f k.
Proof.
  intros H. unfold Spec.field_of. now rewrite getitem_summary.
Qed.

Lemma on_date_absent (d : Cal.date) (ms : list TaskE.Measurement) :
  existsb (fun x => Cal.date_eqb x d) (Spec.measurement_dates ms) = false ->
  Spec.on_date d ms = [].
Proof.
  induction ms as [|m ms IH]; simpl; auto.
  intros H. apply orb_false_iff in H. destruct H as [-> H]. auto.
Qed.

Lemma grouped_summaries_ok (ms : list TaskE.Measurement) :
  summaries_ok (Spec.grouped_summaries ms).
Proof.
  unfold summaries_ok, Spec.grouped_summaries. apply Forall_forall.
  intros kv H. apply in_map_iff in H. destruct H as (d & <- & _).
  simpl. eauto.
Qed.

Lemma grouped_summaries_snoc (ms : list TaskE.Measurement) (m : TaskE.Measurement) :
  TaskE.daily_step (Spec.grouped_summaries ms) m
  = Ok (Spec.grouped_summaries (ms ++ [m])).
Proof.
  rewrite taske_daily_step_ok by apply grouped_summaries_ok.
  f_equal. set (d := Cal.dt_date (TaskE.timestamp m)).
  unfold Spec.grouped_summaries at 1.
  rewrite (setitem_map_keys Cal.date_eqb date_eqb_eq)
    by apply first_occurrences_NoDup.
  unfold Spec.grouped_summaries, Spec.measurement_dates.
  rewrite map_app. simpl map. fold d. fold (Spec.measurement_dates ms).
  rewrite first_occurrences_snoc, first_occurrences_exists.
  apply map_ext_in. intros d' _. f_equal.
  destruct (Cal.date_eqb d' d) eqn:E.
  - apply date_eqb_eq in E. subst d'.
    apply summary_ext. intros k Hk.
    unfold Spec.day_sum, Spec.on_date. rewrite filter_app. simpl filter.
    fold d. rewrite date_eqb_refl, map_app. simpl map.
    rewrite float_sum_snoc. f_equal.
    unfold summary_before, Spec.grouped_summaries.
    rewrite (getitem_map_keys Cal.date_eqb date_eqb_eq), first_occurrences_exists.
    destruct (existsb _ (Spec.measurement_dates ms)) eqn:Hin.
    + now rewrite field_of_summary.
    + fold (Spec.on_date d ms). now rewrite on_date_absent.
  - apply summary_ext. intros k Hk.
    unfold Spec.day_sum, Spec.on_date. rewrite filter_app. simpl filter.
    fold d. rewrite date_eqb_sym, E. now rewrite app_nil_r.
Qed.

Lemma taske_grouped (ms : list TaskE.Measurement) :
  TaskE.calculate_daily_summaries ms = Ok (Spec.grouped_summaries ms).
Proof.
  unfold TaskE.calculate_daily_summaries.
  induction ms as [|m ms IH] using rev_ind; [reflexivity|].
  rewrite for_each_app, IH. simpl.
  now rewrite grouped_summaries_snoc.
Qed.

(** ** Grouping the rows of Task D *)

Lemma row_parses_fields (parts : TaskD.row) :
  Spec.row_parses parts = true ->
  exists ts dt,
    list_getitem parts 0 = Ok ts /\ Cal.fromisoformat ts = Ok dt
    /\ Spec.row_date parts = [Cal.dt_date dt]
    /\ forall i, In i [1; 2; 3; 4; 5; 6]%nat ->
                 TaskD.float_field parts i = Ok (Spec.row_value i parts).
Proof.
  unfold Spec.row_parses, Spec.row_date. rewrite andb_true_iff, forallb_forall.
  intros [H0 H].
  destruct (list_getitem parts 0) as [ts|] eqn:Hts; [|discriminate].
  simpl in *. destruct (Cal.fromisoformat ts) as [dt|] eqn:Hdt; [|discriminate].
  exists ts, dt. repeat split; auto.
  intros i Hi. specialize (H i Hi). unfold Spec.row_value.
  destruct (TaskD.float_field parts i); [reflexivity | discriminate].
Qed.

Lemma grouped_totals_ok (rows : list TaskD.row) :
  totals_ok (Spec.grouped_totals rows).
Proof.
  unfold totals_ok, Spec.grouped_totals. apply Forall_forall.
  intros kv H. apply in_map_iff in H. destruct H as (d & <- & _).
  simpl. repeat eexists.
Qed.

Lemma row_on_date_absent (d : Cal.date) (rows : list TaskD.row) :
  existsb (fun x => Cal.date_eqb x d) (Spec.row_dates rows) = false ->
  Spec.row_on_date d rows = [].
Proof.
  induction rows as [|parts rows IH]; simpl; auto.
  rewrite existsb_app, orb_false_iff. intros [-> H]. auto.
Qed.

Lemma row_sum_snoc (rows : list TaskD.row) (parts : TaskD.row) (d d' : Cal.date)
      (i : nat) :
  Spec.row_date parts = [d] ->
  Spec.row_sum (rows ++ [parts]) d' i
  = if Cal.date_eqb d' d
    then Num.fadd (Spec.row_sum rows d' i) (Spec.row_value i parts)
    else Spec.row_sum rows d' i.
Proof.
  intros Hd. unfold Spec.row_sum, Spec.row_on_date.
  rewrite filter_app. simpl filter. rewrite Hd. simpl existsb.
  rewrite (date_eqb_sym d d'), orb_false_r.
  destruct (Cal.date_eqb d' d).
  - rewrite map_app. simpl map. apply float_sum_snoc.
  - now rewrite app_nil_r.
Qed.

Lemma grouped_totals_snoc (rows : list TaskD.row) (parts : TaskD.row) :
  Spec.row_parses parts = true ->
  TaskD.daily_step (Spec.grouped_totals rows) parts
  = Ok (Spec.grouped_totals (rows ++ [parts])).
Proof.
  intros Hp.
  destruct (row_parses_fields parts Hp) as (ts & dt & Hts & Hdt & Hd & Hv).
  set (d := Cal.dt_date dt) in *.
  unfold TaskD.daily_step. rewrite Hts, bind_Ok, Hdt, bind_Ok.
  rewrite !Hv by (simpl; tauto). rewrite !bind_Ok. fold d.
  assert (G : Dict.getitem Cal.date_eqb (Spec.grouped_totals rows) d
              = if existsb (fun x => Cal.date_eqb x d) (Spec.row_dates rows)
                then Ok (Spec.totals (Spec.row_sum rows d 1) (Spec.row_sum rows d 2)
                           (Spec.row_sum rows d 3) (Spec.row_sum rows d 4)
                           (Spec.row_sum rows d 5) (Spec.row_sum rows d 6))
                else Raise KeyError).
  { unfold Spec.grouped_totals.
    now rewrite (getitem_map_keys Cal.date_eqb date_eqb_eq), first_occurrences_exists. }
  assert (F : Spec.grouped_totals (rows ++ [parts])
              = map (fun d' =>
                       (d', if Cal.date_eqb d' d
                            then Spec.totals
                                   (Num.fadd (Spec.row_sum rows d 1) (Spec.row_value 1 parts))
                                   (Num.fadd (Spec.row_sum rows d 2) (Spec.row_value 2 parts))
                                   (Num.fadd (Spec.row_sum rows d 3) (Spec.row_value 3 parts))
                                   (Num.fadd (Spec.row_sum rows d 4) (Spec.row_value 4 parts))
                                   (Num.fadd (Spec.row_sum rows d 5) (Spec.row_value 5 parts))
                                   (Num.fadd (Spec.row_sum rows d 6) (Spec.row_value 6 parts))
                            else Spec.totals
                                   (Spec.row_sum rows d' 1) (Spec.row_sum rows d' 2)
                                   (Spec.row_sum rows d' 3) (Spec.row_sum rows d' 4)
                                   (Spec.row_sum rows d' 5) (Spec.row_sum rows d' 6)))
                    (if existsb (fun x => Cal.date_eqb x d)
                          (Spec.first_occurrences (Spec.row_dates rows))
                     then Spec.first_occurrences (Spec.row_dates rows)
                     else Spec.first_occurrences (Spec.row_dates rows) ++ [d])).
  { unfold Spec.grouped_totals, Spec.row_dates.
    rewrite flat_map_app. simpl flat_map. rewrite Hd, app_nil_r.
    fold (Spec.row_dates rows).
    rewrite first_occurrences_snoc, first_occurrences_exists.
    apply map_ext_in. intros d' _. f_equal.
    rewrite !(row_sum_snoc rows parts d d') by assumption.
    destruct (Cal.date_eqb d' d) eqn:E; auto.
    apply date_eqb_eq in E. now subst d'. }
  rewrite F. clear F.
  destruct (Dict.contains Cal.date_eqb (Spec.grouped_totals rows) d) eqn:Hc.
  - destruct (contains_getitem Cal.date_eqb _ d Hc) as [data Hdata].
    rewrite G in Hdata.
    destruct (existsb _ (Spec.row_dates rows)) eqn:Hin; [|discriminate].
    rewrite (taskd_six_additions _ d _ _ _ _ _ _ _ _ _ _ _ _ G).
    f_equal. unfold Spec.grouped_totals at 1.
    now rewrite (setitem_map_keys Cal.date_eqb date_eqb_eq)
      by apply first_occurrences_NoDup.
  - pose proof (contains_false_getitem _ _ _ Hc) as Hk. rewrite G in Hk.
    destruct (existsb _ (Spec.row_dates rows)) eqn:Hin; [discriminate|].
    change TaskD.new_day
      with (Spec.totals Num.fzero Num.fzero Num.fzero Num.fzero Num.fzero Num.fzero).
    rewrite (taskd_six_additions _ d _ _ _ _ _ _ _ _ _ _ _ _
               (getitem_setitem_same Cal.date_eqb date_eqb_eq _ d _)).
    rewrite (setitem_setitem Cal.date_eqb date_eqb_eq).
    f_equal. unfold Spec.grouped_totals at 1.
    rewrite (setitem_map_keys Cal.date_eqb date_eqb_eq)
      by apply first_occurrences_NoDup.
    unfold Spec.row_sum. rewrite (row_on_date_absent d rows Hin). reflexivity.
Qed.

Lemma taskd_grouped (rows : list TaskD.row) :
  forallb Spec.row_parses rows = true ->
  TaskD.calculate_daily_totals rows = Ok (Spec.grouped_totals rows).
Proof.
  unfold TaskD.calculate_daily_totals.
  induction rows as [|parts rows IH] using rev_ind; intros H; [reflexivity|].
  rewrite forallb_app in H. simpl in H.
  rewrite !andb_true_iff in H. destruct H as (Hrows & Hparts & _).
  rewrite for_each_app, IH by assumption. simpl.
  now rewrite grouped_totals_snoc.
Qed.

(** ** The exceptions of the conversions *)

Lemma make_datetime_raises (y m d h mi s us : Z) (e : exn) :
  Cal.make_datetime y m d h mi s us = Raise e -> e = ValueError.
Proof.
  unfold Cal.make_datetime. destruct (_ && _); congruence.
Qed.

Lemma fromisoformat_raises (s : string) (e : exn) :
  Cal.fromisoformat s = Raise e -> e = ValueError.
Proof.
  unfold Cal.fromisoformat.
  repeat match goal with
         | |- context [match ?x with _ => _ end] =>
             lazymatch x with
             | Cal.make_datetime _ _ _ _ _ _ _ => fail
             | _ => destruct x
             end
         end;
    intros H; try congruence; eapply make_datetime_raises; eauto.
Qed.

Lemma float_of_string_raises (s : string) (e : exn) :
  Num.float_of_string s = Raise e -> e = ValueError.
Proof.
  unfold Num.float_of_string.
  repeat match goal with
         | |- context [match ?x with _ => _ end] => destruct x
         | |- context [if ?x then _ else _] => destruct x
         end;
    congruence.
Qed.

Lemma int_of_string_raises (s : string) (e : exn) :
  Num.int_of_string s = Raise e -> e = ValueError.
Proof.
  unfold Num.int_of_string.
  repeat match goal with
         | |- context [match ?x with _ => _ end] => destruct x
         end;
    congruence.
Qed.

(** ** A row that does not parse *)

Lemma long_row_fields {A : Type} (row : list A) :
  (7 <= List.length row)%nat ->
  exists r0 r1 r2 r3 r4 r5 r6 rest, row = r0 :: r1 :: r2 :: r3 :: r4 :: r5 :: r6 :: rest.
Proof.
  destruct row as [|r0 [|r1 [|r2 [|r3 [|r4 [|r5 [|r6 rest]]]]]]]; simpl; try lia.
  intros _. repeat eexists.
Qed.

Lemma taskd_daily_step_value_error (daily : TaskD.daily_totals) (parts : TaskD.row) :
  (7 <= List.length parts)%nat ->
  Spec.row_parses parts = false ->
  TaskD.daily_step daily parts = Raise ValueError.
Proof.
  intros Hlen Hp.
  destruct (long_row_fields parts Hlen)
    as (r0 & r1 & r2 & r3 & r4 & r5 & r6 & rest & ->).
  unfold Spec.row_parses, TaskD.daily_step, TaskD.float_field in *.
  cbn [list_getitem nth_error bind forallb Nat.pred] in *.
  destruct (Cal.fromisoformat r0) as [dt|e] eqn:E0;
    [|apply fromisoformat_raises in E0; now subst].
  cbn [bind Spec.is_ok andb] in *.
  repeat match goal with
         | |- context [Num.float_of_string ?r] =>
             let E := fresh "E" in
             destruct (Num.float_of_string r) as [?|?e] eqn:E;
             [|apply float_of_string_raises in E; now subst];
             cbn [bind Spec.is_ok andb] in *
         end.
  discriminate.
Qed.

Lemma taskd_for_each_value_error (rows : list TaskD.row) (daily : TaskD.daily_totals) :
  Forall (fun parts => (7 <= List.length parts)%nat) rows ->
  totals_ok daily -> NoDup (Dict.keys daily) ->
  forallb Spec.row_parses rows = false ->
  for_each rows TaskD.daily_step daily = Raise ValueError.
Proof.
  intros Hlen. revert daily.
  induction Hlen as [|parts rows Hparts Hrows IH]; intros daily Hok Hnd H;
    [discriminate|].
  simpl in *. destruct (Spec.row_parses parts) eqn:Hp.
  - destruct (TaskD.daily_step daily parts) as [daily'|e] eqn:Hstep.
    + simpl. destruct (taskd_daily_step_inv daily daily' parts Hok Hnd Hstep)
        as (Hok' & Hnd' & _).
      now apply IH.
    + exfalso. clear -Hp Hstep Hok.
      destruct (row_parses_fields parts Hp) as (ts & dt & Hts & Hdt & Hd & Hv).
      unfold TaskD.daily_step in Hstep.
      rewrite Hts, bind_Ok, Hdt, bind_Ok in Hstep.
      rewrite !Hv in Hstep by (simpl; tauto). rewrite !bind_Ok in Hstep.
      destruct (Dict.contains Cal.date_eqb daily (Cal.dt_date dt)) eqn:Hc.
      * destruct (contains_getitem Cal.date_eqb daily _ Hc) as [data Hdata].
        destruct (totals_ok_getitem daily _ data Hok Hdata)
          as (c0 & c1 & c2 & p0 & p1 & p2 & ->).
        rewrite (taskd_six_additions _ _ _ _ _ _ _ _ _ _ _ _ _ _ Hdata) in Hstep.
        discriminate.
      * change TaskD.new_day
          with (Spec.totals Num.fzero Num.fzero Num.fzero Num.fzero Num.fzero Num.fzero)
          in Hstep.
        rewrite (taskd_six_additions _ _ _ _ _ _ _ _ _ _ _ _ _ _
                   (getitem_setitem_same Cal.date_eqb date_eqb_eq daily _ _)) in Hstep.
        discriminate.
  - now rewrite taskd_daily_step_value_error.
Qed.

(** ** The lines that [read_data] of Task D keeps *)

Lemma taskd_read_line_filter (rows : list TaskD.row) (line : string) :
  TaskD.read_line rows line
  = rows ++ map (Str.split ";")
              (filter (fun l => negb (Z.of_nat (List.length (Str.split ";" l)) <? 7))
                      [line]).
Proof.
  unfold TaskD.read_line. simpl.
  destruct (String.eqb_spec line "") as [->|_].
  - simpl. now rewrite app_nil_r.
  - destruct (Z.of_nat (List.length (Str.split ";" line)) <? 7); simpl; auto.
    now rewrite app_nil_r.
Qed.

Lemma taskd_fold_read_line (lines : list string) (rows : list TaskD.row) :
  fold_left TaskD.read_line lines rows
  = rows ++ map (Str.split ";")
              (filter (fun l => negb (Z.of_nat (List.length (Str.split ";" l)) <? 7))
                      lines).
Proof.
  revert rows. induction lines as [|line lines IH]; intros rows; simpl fold_left.
  - simpl. now rewrite app_nil_r.
  - rewrite IH, taskd_read_line_filter, <- app_assoc, <- map_app, <- filter_app.
    reflexivity.
Qed.

Lemma taskd_read_lines_long (raw : list string) :
  Forall (fun parts => (7 <= List.length parts)%nat) (TaskD.read_lines raw).
Proof.
  unfold TaskD.read_lines. rewrite taskd_fold_read_line. simpl.
  apply Forall_forall. intros parts H.
  apply in_map_iff in H. destruct H as (l & <- & H).
  apply filter_In in H. destruct H as [_ H].
  apply negb_true_iff, Z.ltb_ge in H. lia.
Qed.

(** ** Sorting *)

Section SortFacts.
Variable A : Type.
Variable ltb : A -> A -> bool.
Hypothesis ltb_asym : forall x y, ltb x y = true -> ltb y x = false.
Hypothesis ltb_trans :
  forall x y z, ltb x y = true -> ltb z y = false -> ltb z x = false.
Hypothesis ltb_total : forall x y, ltb x y = false -> ltb y x = false -> x = y.

Lemma insort_nondecreasing (x : A) (l : list A) :
  nondecreasing ltb l -> nondecreasing ltb (insort ltb x l).
Proof.
  induction l as [|y l IH]; simpl.
  - intros _. split; auto.
  - intros [Hy Hl]. destruct (ltb x y) eqn:E; simpl.
    + split; [|split; auto]. constructor; [now apply ltb_asym|].
      rewrite Forall_forall in *. intros z Hz.
      apply (ltb_trans x y z E). now apply Hy.
    + split; [|now apply IH].
      rewrite Forall_forall in *. intros z Hz.
      apply (Permutation_in _ (insort_perm ltb x l)) in Hz.
      destruct Hz as [<-|Hz]; auto.
Qed.

Lemma sorted_nondecreasing (l : list A) : nondecreasing ltb (sorted ltb l).
Proof.
  unfold sorted.
  assert (G : forall acc, nondecreasing ltb acc ->
                          nondecreasing ltb (fold_left (fun acc x => insort ltb x acc) l acc)).
  { induction l as [|x l IH]; intros acc Hacc; simpl; auto.
    apply IH. now apply insort_nondecreasing. }
  apply G. exact I.
Qed.

Lemma nondecreasing_ascending (l : list A) :
  NoDup l -> nondecreasing ltb l -> Spec.ascending ltb l.
Proof.
  intros Hnd Hs. unfold Spec.ascending.
  induction l as [|x l IH]; intros i j a b Hij Ha Hb.
  - destruct i; discriminate.
  - destruct Hs as [Hx Hs]. inversion Hnd as [|? ? Hnot Hnd']; subst.
    destruct j as [|j]; [lia|]. simpl in Hb.
    destruct i as [|i]; simpl in Ha.
    + injection Ha as ->. apply nth_error_In in Hb.
      rewrite Forall_forall in Hx. specialize (Hx b Hb).
      destruct (ltb a b) eqn:E; auto.
      exfalso. apply Hnot. now rewrite (ltb_total a b E Hx).
    + apply (IH Hnd' Hs i j); auto. lia.
Qed.

Lemma sorted_ascending (l : list A) :
  NoDup l -> Spec.ascending ltb (sorted ltb l).
Proof.
  intros H. apply nondecreasing_ascending.
  - apply (Permutation_NoDup (Permutation_sym (sorted_perm ltb l)) H).
  - apply sorted_nondecreasing.
Qed.
End SortFacts.

Lemma date_ltb_spec (a b : Cal.date) :
  Cal.date_ltb a b = true
  <-> Cal.year a < Cal.year b
      \/ (Cal.year a = Cal.year b
          /\ (Cal.month a < Cal.month b
              \/ (Cal.month a = Cal.month b /\ Cal.day a < Cal.day b))).
Proof.
  unfold Cal.date_ltb.
  rewrite !orb_true_iff, !andb_true_iff, !orb_true_iff, !andb_true_iff,
    !Z.ltb_lt, !Z.eqb_eq.
  reflexivity.
Qed.

Lemma date_ltb_false (a b : Cal.date) :
  Cal.date_ltb a b = false
  <-> ~ (Cal.year a < Cal.year b
         \/ (Cal.year a = Cal.year b
             /\ (Cal.month a < Cal.month b
                 \/ (Cal.month a = Cal.month b /\ Cal.day a < Cal.day b)))).
Proof.
  rewrite <- date_ltb_spec. destruct (Cal.date_ltb a b); split; congruence.
Qed.

Lemma dates_sorted_ascending (l : list Cal.date) :
  NoDup l -> Spec.ascending Cal.date_ltb (sorted Cal.date_ltb l).
Proof.
  apply sorted_ascending.
  - intros x y. rewrite date_ltb_spec, date_ltb_false. lia.
  - intros x y z. rewrite date_ltb_spec, !date_ltb_false. lia.
  - intros [y m d] [y' m' d']. rewrite !date_ltb_false. simpl.
    intros H H'. f_equal; lia.
Qed.

Lemma weeks_sorted_ascending (l : list Z) :
  NoDup l -> Spec.ascending Z.ltb (sorted Z.ltb l).
Proof.
  apply sorted_ascending; intros *; rewrite ?Z.ltb_lt, ?Z.ltb_ge; lia.
Qed.

(** ** The rows that [read_data] of Task E keeps *)

Lemma taske_read_row_long (ms : list TaskE.Measurement) (row : list string) :
  Spec.long_row row = true ->
  TaskE.read_row ms row = (m <- Spec.row_measurement row ;; Ok (ms ++ [m])).
Proof.
  unfold Spec.long_row, Spec.row_measurement, TaskE.read_row.
  intros H. apply negb_true_iff in H. rewrite H.
  repeat match goal with
         | |- context [bind ?r _] =>
             lazymatch r with
             | bind _ _ => fail
             | Ok _ => fail
             | _ => destruct r; cbn [bind]; auto
             end
         end.
Qed.

Lemma taske_row_measurement_raises (row : list string) (e : exn) :
  Spec.long_row row = true -> Spec.row_measurement row = Raise e -> e = ValueError.
Proof.
  unfold Spec.long_row. rewrite negb_true_iff, Z.ltb_ge. intros Hlen.
  destruct (long_row_fields row ltac:(lia))
    as (r0 & r1 & r2 & r3 & r4 & r5 & r6 & rest & ->).
  unfold Spec.row_measurement, TaskE.read_row.
  destruct (Z.ltb_spec (Z.of_nat (List.length (r0 :: r1 :: r2 :: r3 :: r4 :: r5 :: r6 :: rest))) 7);
    [lia|].
  cbn [list_getitem nth_error bind].
  destruct (Cal.fromisoformat (Str.strip r0)) as [dt|e0] eqn:E0;
    [|apply fromisoformat_raises in E0; cbn [bind]; congruence].
  cbn [bind].
  repeat match goal with
         | |- context [Num.float_of_string ?r] =>
             let E := fresh "E" in
             destruct (Num.float_of_string r) as [?|?e] eqn:E;
             [|apply float_of_string_raises in E; cbn [bind]; congruence];
             cbn [bind]
         end.
  cbn. discriminate.
Qed.

Lemma taske_for_each_read_row (rows : list (list string)) (acc : list TaskE.Measurement) :
  for_each rows TaskE.read_row acc
  = (ms <- map_result Spec.row_measurement (filter Spec.long_row rows) ;; Ok (acc ++ ms)).
Proof.
  revert acc. induction rows as [|row rows IH]; intros acc; simpl.
  - now rewrite app_nil_r.
  - destruct (Spec.long_row row) eqn:Hl.
    + rewrite taske_read_row_long by assumption. simpl.
      destruct (Spec.row_measurement row) as [m|e]; simpl; auto.
      rewrite IH. destruct (map_result Spec.row_measurement _); simpl; auto.
      now rewrite <- app_assoc.
    + rewrite taske_read_row_short; [simpl; apply IH|].
      unfold Spec.long_row in Hl. apply negb_false_iff, Z.ltb_lt in Hl. lia.
Qed.

Lemma bind_ret {A : Type} (r : result A) : (x <- r ;; Ok x) = r.
Proof. now destruct r. Qed.

Lemma map_result_length {A B : Type} (f : A -> result B) (l : list A) (ys : list B) :
  map_result f l = Ok ys -> List.length ys = List.length l.
Proof.
  revert ys. induction l as [|x l IH]; intros ys; simpl.
  - intros [= <-]. reflexivity.
  - intros H. apply bind_ok in H. destruct H as (y & _ & H).
    apply bind_ok in H. destruct H as (ys' & Hys & H).
    injection H as <-. simpl. f_equal. now apply IH.
Qed.

Lemma map_result_raises {A B : Type} (f : A -> result B) (l : list A) (e : exn) :
  map_result f l = Raise e -> exists x, In x l /\ f x = Raise e.
Proof.
  induction l as [|x l IH]; simpl; [discriminate|].
  destruct (f x) as [y|e'] eqn:E; simpl.
  - destruct (map_result f l); simpl; [discriminate|].
    intros [= <-]. destruct IH as (x' & Hx' & He); auto.
    exists x'. auto.
  - intros [= <-]. exists x. auto.
Qed.

Lemma taske_read_rows_raises (reader : list (list string)) (e : exn) :
  TaskE.read_rows reader = Raise e -> e = ValueError.
Proof.
  unfold TaskE.read_rows. rewrite taske_for_each_read_row.
  destruct (map_result Spec.row_measurement _) as [ms|e'] eqn:E; simpl; [discriminate|].
  intros [= <-]. apply map_result_raises in E. destruct E as (row & Hin & He).
  apply filter_In in Hin. eapply taske_row_measurement_raises; eauto. tauto.
Qed.

(** ** The roll-up of a week *)

Lemma add_day_key_error (f : string -> Num.float) (s : TaskE.DailySummary) :
  Spec.has_summary_keys s = false ->
  TaskE.add_day (Spec.summary f) s = Raise KeyError.
Proof.
  unfold Spec.has_summary_keys, TaskE.add_day, Spec.summary, TaskE.add_key.
  simpl.
  repeat match goal with
         | |- context [Dict.contains String.eqb s ?k] =>
             let C := fresh "C" in
             destruct (Dict.contains String.eqb s k) eqn:C;
             [ let v := fresh "v" in
               let Hv := fresh "Hv" in
               destruct (contains_getitem String.eqb s k C) as [v Hv];
               rewrite Hv; simpl
             | rewrite (contains_false_getitem String.eqb s k C); reflexivity ]
         end.
  discriminate.
Qed.

Lemma sum_days_key_error (vals : list TaskE.DailySummary) (f : string -> Num.float) :
  forallb Spec.has_summary_keys vals = false ->
  for_each vals TaskE.add_day (Spec.summary f) = Raise KeyError.
Proof.
  revert f. induction vals as [|s vals IH]; intros f H; simpl in *; [discriminate|].
  destruct (Spec.has_summary_keys s) eqn:Hs; simpl in H.
  - rewrite add_day_summary by assumption. simpl. now apply IH.
  - now rewrite add_day_key_error.
Qed.

Lemma grouped_summaries_values (ms : list TaskE.Measurement) :
  Dict.values (Spec.grouped_summaries ms)
  = map (fun d => Spec.summary (Spec.day_sum ms d))
        (Spec.first_occurrences (Spec.measurement_dates ms)).
Proof.
  unfold Dict.values, Spec.grouped_summaries. rewrite map_map. reflexivity.
Qed.

Lemma summary_has_keys (f : string -> Num.float) :
  Spec.has_summary_keys (Spec.summary f) = true.
Proof. reflexivity. Qed.

Lemma taske_rollup_grouped (ms : list TaskE.Measurement) :
  TaskE.sum_week_totals (Spec.grouped_summaries ms)
  = Ok (Spec.summary
          (fun k => Spec.float_sum
                      (map (fun d => Spec.day_sum ms d k)
                           (Spec.first_occurrences (Spec.measurement_dates ms))))).
Proof.
  unfold TaskE.sum_week_totals.
  change TaskE.new_summary with (Spec.summary (fun _ => Num.fzero)).
  rewrite sum_days_summary.
  - f_equal. apply summary_ext. intros k Hk.
    rewrite grouped_summaries_values, map_map. unfold Spec.float_sum. f_equal.
    apply map_ext. intros d. now apply field_of_summary.
  - rewrite grouped_summaries_values. apply forallb_forall.
    intros s Hs. apply in_map_iff in Hs. destruct Hs as (d & <- & _).
    apply summary_has_keys.
Qed.

(** ** The shape of a formatted number *)

Lemma zfill2_length (F : Z) :
  0 <= F < 100 -> String.length (Str.zfill 2 (Str.of_Z_nonneg F)) = 2%nat.
Proof.
  intros H. rewrite <- (Z2Nat.id F) by lia.
  assert (Hn : (Z.to_nat F < 100)%nat) by lia.
  generalize dependent (Z.to_nat F). clear. intros n Hn.
  do 100 (destruct n as [|n]; [vm_compute; reflexivity|]).
  lia.
Qed.

Lemma show_cents_shape (neg : bool) (N : Z) :
  0 <= N ->
  exists int_part frac,
    Str.replace "." "," (Num.show_cents neg N)
    = (if neg then "-" else "") +++ int_part +++ "," +++ frac
    /\ int_part <> ""
    /\ all_chars Str.is_digit int_part = true
    /\ String.length frac = 2%nat
    /\ all_chars Str.is_digit frac = true.
Proof.
  intros HN. unfold Num.show_cents.
  destruct (of_Z_nonneg_spec (N / 100) ltac:(apply Z.div_pos; lia))
    as (I & -> & HI & HIne & _).
  destruct (cents_fraction (N mod 100) ltac:(apply Z.mod_pos_bound; lia))
    as [_ HFd].
  pose proof (zfill2_length (N mod 100) ltac:(apply Z.mod_pos_bound; lia)) as HFl.
  set (FF := Str.zfill 2 (Str.of_Z_nonneg (N mod 100))) in *.
  destruct (digits_plain I HI) as (_ & HIp & _).
  destruct (digits_plain FF HFd) as (_ & HFp & _).
  exists I, FF. repeat split; auto.
  rewrite !replace_append.
  rewrite (replace_not_in "." "," I HIp), (replace_not_in "." "," FF HFp).
  now destruct neg.
Qed.

Lemma replace_removes (old new : ascii) (s : string) :
  Ascii.eqb new old = false ->
  all_chars (fun c => negb (Ascii.eqb c old)) (Str.replace old new s) = true.
Proof.
  intros H. induction s as [|c s IH]; simpl; auto.
  rewrite IH, andb_true_r.
  destruct (Ascii.eqb c old) eqn:E; [now rewrite H | now rewrite E].
Qed.

Lemma grouped_totals_keys (rows : list TaskD.row) :
  Dict.keys (Spec.grouped_totals rows) = Spec.first_occurrences (Spec.row_dates rows).
Proof.
  unfold Dict.keys, Spec.grouped_totals. rewrite map_map. simpl. apply map_id.
Qed.

Lemma grouped_summaries_keys (ms : list TaskE.Measurement) :
  Dict.keys (Spec.grouped_summaries ms)
  = Spec.first_occurrences (Spec.measurement_dates ms).
Proof.
  unfold Dict.keys, Spec.grouped_summaries. rewrite map_map. simpl. apply map_id.
Qed.

Lemma first_occurrences_count (l : list Cal.date) :
  List.length (Spec.first_occurrences l) = Spec.distinct_dates l.
Proof.
  apply distinct_count.
  - apply first_occurrences_NoDup.
  - intros x. apply first_occurrences_In.
Qed.

(** ** Statements about the readers and the aggregations *)

(** X1: [read_data] of Task D raises [FileNotFoundError] when the file
    does not exist; otherwise it returns, in file order, the fields of
    exactly those stripped lines after the first line that split into at
    least seven fields, so that blank lines and short lines are left out
    and every returned row has at least seven fields. *)
Theorem taskd_read_data_keeps_long_lines (fs : filesystem) (filename : string) :
  TaskD.read_data fs filename
  = match fs filename with
    | None => Raise FileNotFoundError
    | Some raw =>
        Ok (map (Str.split ";")
                (filter (fun line =>
                           negb (Z.of_nat (List.length (Str.split ";" line)) <? 7))
                        (skipn 1 (map Str.strip raw))))
    end
  /\ forall rows, TaskD.read_data fs filename = Ok rows ->
                  Forall (fun parts => (7 <= List.length parts)%nat) rows.
Proof.
  unfold TaskD.read_data, open_read. destruct (fs filename) as [raw|]; simpl.
  - split.
    + unfold TaskD.read_lines. now rewrite taskd_fold_read_line.
    + intros rows [= <-]. apply taskd_read_lines_long.
  - split; [reflexivity | discriminate].
Qed.

Lemma taskd_for_each_parses (rows : list TaskD.row) (daily0 daily : TaskD.daily_totals) :
  totals_ok daily0 -> NoDup (Dict.keys daily0) ->
  for_each rows TaskD.daily_step daily0 = Ok daily ->
  forallb Spec.row_parses rows = true.
Proof.
  revert daily0. induction rows as [|parts rows IH]; intros daily0 Hok Hnd H; simpl in *;
    [reflexivity|].
  apply bind_ok in H. destruct H as (daily1 & Hstep & H).
  destruct (taskd_daily_step_inv daily0 daily1 parts Hok Hnd Hstep) as (Hok1 & Hnd1 & _).
  rewrite (IH daily1 Hok1 Hnd1 H), andb_true_r.
  destruct (taskd_daily_step_ok daily0 daily1 parts Hok Hstep)
    as (d & c0 & c1 & c2 & p0 & p1 & p2 & v1 & v2 & v3 & v4 & v5 & v6
        & Hd & H1 & H2 & H3 & H4 & H5 & H6 & _).
  unfold Spec.row_parses. simpl forallb.
  rewrite H1, H2, H3, H4, H5, H6. simpl.
  unfold Spec.row_date in Hd.
  destruct (ts <- list_getitem parts 0 ;; Cal.fromisoformat ts); [reflexivity | discriminate].
Qed.

(** X2: on the rows that [read_data] of Task D returns,
    [calculate_daily_totals] raises no other exception than
    [ValueError], so never [IndexError] or [KeyError]; it returns totals
    only when the time stamp and the six values of every row were
    converted; and one row with a value that [float] refuses makes the
    whole call raise [ValueError], whatever the other rows are. *)
Theorem taskd_bad_row_aborts (raw : list string) :
  (forall e, TaskD.calculate_daily_totals (TaskD.read_lines raw) = Raise e ->
             e = ValueError)
  /\ (forall daily, TaskD.calculate_daily_totals (TaskD.read_lines raw) = Ok daily ->
                    forallb Spec.row_parses (TaskD.read_lines raw) = true)
  /\ (forall parts i,
         In parts (TaskD.read_lines raw) -> In i [1; 2; 3; 4; 5; 6]%nat ->
         Spec.is_ok (TaskD.float_field parts i) = false ->
         TaskD.calculate_daily_totals (TaskD.read_lines raw) = Raise ValueError).
Proof.
  assert (V : forallb Spec.row_parses (TaskD.read_lines raw) = false ->
              TaskD.calculate_daily_totals (TaskD.read_lines raw) = Raise ValueError).
  { intros Hp. apply taskd_for_each_value_error; auto.
    - apply taskd_read_lines_long.
    - constructor.
    - constructor. }
  split; [|split].
  - intros e H.
    destruct (forallb Spec.row_parses (TaskD.read_lines raw)) eqn:Hp.
    + rewrite (taskd_grouped _ Hp) in H. discriminate.
    + rewrite (V eq_refl) in H. congruence.
  - intros daily H.
    apply (taskd_for_each_parses _ [] daily (Forall_nil _) (NoDup_nil _) H).
  - intros parts i Hin Hi Hbad. apply V.
    destruct (forallb Spec.row_parses (TaskD.read_lines raw)) eqn:Hp; [|reflexivity].
    rewrite forallb_forall in Hp. specialize (Hp _ Hin).
    unfold Spec.row_parses in Hp. apply andb_true_iff in Hp. destruct Hp as [_ Hp].
    rewrite forallb_forall in Hp. specialize (Hp _ Hi). congruence.
Qed.

Example taskd_bad_row_example :
  TaskD.calculate_daily_totals
    (TaskD.read_lines ["Time;c1;c2;c3;p1;p2;p3";
                       "2025-10-13T00:00:00;1;2;3;4;5;6";
                       "2025-10-13T01:00:00;1;2;x;4;5;6"])
  = Raise ValueError.
Proof. vm_compute. reflexivity. Qed.

(** X3: whatever [calculate_daily_totals] returns is the grouping of its
    rows by date: one entry per date, in the order in which the dates
    first occur in the rows, and for each date and each of the six fields
    the sum, taken from left to right from 0.0, of that field over the
    rows of that date. *)
Theorem taskd_totals_are_grouped_sums (rows : list TaskD.row) (daily : TaskD.daily_totals) :
  TaskD.calculate_daily_totals rows = Ok daily ->
  daily = Spec.grouped_totals rows
  /\ Dict.keys daily = Spec.first_occurrences (Spec.row_dates rows)
  /\ forall d, In d (Spec.row_dates rows) ->
               Dict.getitem Cal.date_eqb daily d
               = Ok (Spec.totals (Spec.row_sum rows d 1) (Spec.row_sum rows d 2)
                                 (Spec.row_sum rows d 3) (Spec.row_sum rows d 4)
                                 (Spec.row_sum rows d 5) (Spec.row_sum rows d 6)).
Proof.
  intros H.
  pose proof (taskd_for_each_parses rows [] daily (Forall_nil _) (NoDup_nil _) H) as Hp.
  rewrite (taskd_grouped rows Hp) in H. injection H as <-.
  split; [reflexivity|]. split; [apply grouped_totals_keys|].
  intros d Hd. unfold Spec.grouped_totals.
  rewrite (getitem_map_keys Cal.date_eqb date_eqb_eq), first_occurrences_exists.
  apply existsb_date_In in Hd. now rewrite Hd.
Qed.

Lemma taskd_totals_are_grouped_sums_witness :
  let rows := [Str.split ";" "2025-10-14T00:00:00;1;2;3;4;5;6";
               Str.split ";" "2025-10-13T00:00:00;10;20;30;40;50;60";
               Str.split ";" "2025-10-14T01:00:00;1;1;1;1;1;1"] in
  let daily :=
    [(Cal.mkdate 2025 10 14,
       Spec.totals (Num.float_of_Z 2) (Num.float_of_Z 3) (Num.float_of_Z 4)
                   (Num.float_of_Z 5) (Num.float_of_Z 6) (Num.float_of_Z 7));
     (Cal.mkdate 2025 10 13,
       Spec.totals (Num.float_of_Z 10) (Num.float_of_Z 20) (Num.float_of_Z 30)
                   (Num.float_of_Z 40) (Num.float_of_Z 50) (Num.float_of_Z 60))] in
  daily = Spec.grouped_totals rows
  /\ Dict.keys daily = Spec.first_occurrences (Spec.row_dates rows)
  /\ forall d, In d (Spec.row_dates rows) ->
               Dict.getitem Cal.date_eqb daily d
               = Ok (Spec.totals (Spec.row_sum rows d 1) (Spec.row_sum rows d 2)
                                 (Spec.row_sum rows d 3) (Spec.row_sum rows d 4)
                                 (Spec.row_sum rows d 5) (Spec.row_sum rows d 6)).
Proof.
  intros rows daily. apply (taskd_totals_are_grouped_sums rows daily).
  vm_compute. reflexivity.
Defined.

(** X4: [calculate_daily_summaries] never raises, and its result is the
    grouping of the measurements by date: one summary per date, in the
    order in which the dates first occur, in which every field is the
    sum, taken from left to right from 0.0, of that field over the
    measurements of that date. *)
Theorem taske_summaries_are_grouped_sums (ms : list TaskE.Measurement) :
  TaskE.calculate_daily_summaries ms = Ok (Spec.grouped_summaries ms)
  /\ Dict.keys (Spec.grouped_summaries ms)
     = Spec.first_occurrences (Spec.measurement_dates ms)
  /\ forall d k, In d (Spec.measurement_dates ms) -> In k TaskE.summary_keys ->
                 (s <- Dict.getitem Cal.date_eqb (Spec.grouped_summaries ms) d ;;
                  Dict.getitem String.eqb s k)
                 = Ok (Spec.day_sum ms d k).
Proof.
  split; [apply taske_grouped|]. split; [apply grouped_summaries_keys|].
  intros d k Hd Hk. unfold Spec.grouped_summaries.
  rewrite (getitem_map_keys Cal.date_eqb date_eqb_eq), first_occurrences_exists.
  apply existsb_date_In in Hd. rewrite Hd, bind_Ok.
  now apply getitem_summary.
Qed.

(** X5: [sum_week_totals] returns the field-wise sums over the days when
    the summary of every day has the six field keys, and raises
    [KeyError] when the summary of some day lacks one of them. *)
Theorem sum_week_totals_needs_all_keys (daily : TaskE.WeekDailySummaries) :
  TaskE.sum_week_totals daily
  = if forallb Spec.has_summary_keys (Dict.values daily)
    then Ok (Spec.summary
               (fun k => Spec.float_sum
                           (map (fun s => Spec.field_of s k) (Dict.values daily))))
    else Raise KeyError.
Proof.
  unfold TaskE.sum_week_totals.
  change TaskE.new_summary with (Spec.summary (fun _ => Num.fzero)).
  destruct (forallb Spec.has_summary_keys (Dict.values daily)) eqn:H.
  - now rewrite sum_days_summary.
  - now apply sum_days_key_error.
Qed.

(** X6: summing a week that [calculate_daily_summaries] produced never
    raises: the result has the six keys, and every field is the sum, over
    the dates in the order of their first occurrence, of the sums of the
    dates. *)
Theorem taske_week_totals_of_measurements (ms : list TaskE.Measurement) :
  (daily <- TaskE.calculate_daily_summaries ms ;; TaskE.sum_week_totals daily)
  = Ok (Spec.week_totals ms)
  /\ Dict.keys (Spec.week_totals ms) = TaskE.summary_keys
  /\ forall k, In k TaskE.summary_keys ->
               Dict.getitem String.eqb (Spec.week_totals ms) k
               = Ok (Spec.float_sum
                       (map (fun d => Spec.day_sum ms d k)
                            (Spec.first_occurrences (Spec.measurement_dates ms)))).
Proof.
  split; [|split].
  - rewrite taske_grouped, bind_Ok. apply taske_rollup_grouped.
  - reflexivity.
  - intros k Hk. unfold Spec.week_totals. now rewrite getitem_summary.
Qed.

(** X7: a value formatted by [format_kwh_finnish] or by [format_kwh]
    never contains a period; for a number (not an infinity, not NaN) the
    text is an optional minus sign, at least one digit, a comma and
    exactly two digits. *)
Theorem format_kwh_shape (v value_wh : Num.float) :
  all_chars (fun c => negb (Ascii.eqb c ".")) (TaskE.format_kwh_finnish v) = true
  /\ all_chars (fun c => negb (Ascii.eqb c ".")) (TaskD.format_kwh value_wh) = true
  /\ (Spec.is_number v = true ->
      exists (neg : bool) (int_part frac : string),
        TaskE.format_kwh_finnish v
        = (if neg then "-" else "") +++ int_part +++ "," +++ frac
        /\ int_part <> ""
        /\ all_chars Str.is_digit int_part = true
        /\ String.length frac = 2%nat
        /\ all_chars Str.is_digit frac = true).
Proof.
  split; [|split].
  - apply replace_removes. reflexivity.
  - apply replace_removes. reflexivity.
  - unfold TaskE.format_kwh_finnish. destruct v as [s|s| |s m e]; try discriminate;
      intros _; cbn [Num.format_2f].
    + destruct (show_cents_shape s 0 ltac:(lia)) as (I & F & H).
      exists s, I, F. exact H.
    + destruct (show_cents_shape s _ (round_cents_nonneg m e)) as (I & F & H).
      exists s, I, F. exact H.
Qed.

(** X8: the reader of Task E drops the first row and every row of fewer
    than seven fields, and makes one measurement of every other row, in
    order; it stops at the first row whose fields do not parse, and the
    only exception it raises for a row is [ValueError]. *)
Theorem taske_read_rows_keeps_long_rows (reader : list (list string)) :
  TaskE.read_rows reader
  = map_result Spec.row_measurement (filter Spec.long_row (skipn 1 reader))
  /\ (forall ms, TaskE.read_rows reader = Ok ms ->
                 List.length ms
                 = List.length (filter Spec.long_row (skipn 1 reader)))
  /\ (forall e, TaskE.read_rows reader = Raise e -> e = ValueError).
Proof.
  assert (E : TaskE.read_rows reader
              = map_result Spec.row_measurement (filter Spec.long_row (skipn 1 reader))).
  { unfold TaskE.read_rows. rewrite taske_for_each_read_row. simpl.
    apply bind_ret. }
  split; [exact E|]. split.
  - intros ms H. rewrite E in H. eapply map_result_length; eauto.
  - apply taske_read_rows_raises.
Qed.

(** ** The order of the report rows *)

Lemma taskd_print_rows_map (daily : TaskD.daily_totals) (ds : list Cal.date)
      (lines : list string) :
  map_result (TaskD.report_row daily) ds = Ok lines ->
  TaskD.print_rows daily ds = (lines, Ok tt).
Proof.
  revert lines. induction ds as [|d ds IH]; intros lines; simpl.
  - intros [= <-]. reflexivity.
  - intros H. apply bind_ok in H. destruct H as (line & -> & H).
    apply bind_ok in H. destruct H as (rest & Hrest & H).
    injection H as <-. now rewrite (IH rest Hrest).
Qed.

Lemma taskd_report_rows_ok (daily : TaskD.daily_totals) (ds : list Cal.date) :
  totals_ok daily ->
  (forall d, In d ds -> In d (Dict.keys daily)) ->
  exists lines, map_result (TaskD.report_row daily) ds = Ok lines
                /\ List.length lines = List.length ds.
Proof.
  intros Hok Hin. apply map_result_ok. intros d Hd.
  apply Hin in Hd. apply (contains_In Cal.date_eqb date_eqb_eq) in Hd.
  destruct (contains_getitem Cal.date_eqb daily d Hd) as [data Hdata].
  destruct (totals_ok_getitem daily d data Hok Hdata)
    as (c0 & c1 & c2 & p0 & p1 & p2 & ->).
  eapply taskd_report_row_ok; eauto.
Qed.

Lemma taske_section_rows_ok (daily : TaskE.WeekDailySummaries) (ds : list Cal.date) :
  summaries_ok daily ->
  (forall d, In d ds -> In d (Dict.keys daily)) ->
  exists lines, map_result (TaskE.section_row daily) ds = Ok lines
                /\ List.length lines = List.length ds.
Proof.
  intros Hok Hin. apply map_result_ok. intros d Hd.
  apply Hin in Hd. apply (contains_In Cal.date_eqb date_eqb_eq) in Hd.
  destruct (contains_getitem Cal.date_eqb daily d Hd) as [s Hs].
  destruct (summaries_ok_getitem daily d s Hok Hs) as [f ->].
  eapply taske_section_row_ok; eauto.
Qed.

(** X9: the report of Task D prints, after its head lines, the rows of
    the dates of the mapping in strictly ascending date order, each date
    once, whatever the order of the dates in the input was. *)
Theorem taskd_report_in_date_order (rows : list TaskD.row) (daily : TaskD.daily_totals) :
  TaskD.calculate_daily_totals rows = Ok daily ->
  exists ds lines,
    Permutation ds (Dict.keys daily)
    /\ Spec.ascending Cal.date_ltb ds
    /\ map_result (TaskD.report_row daily) ds = Ok lines
    /\ TaskD.print_report daily = (TaskD.report_head ++ lines, Ok tt).
Proof.
  intros Hcalc.
  destruct (taskd_for_each_inv rows [] daily (Forall_nil _) (NoDup_nil _) Hcalc)
    as (Hok & Hnd & _).
  destruct (taskd_report_rows_ok daily (sorted Cal.date_ltb (Dict.keys daily)) Hok)
    as (lines & Hlines & _).
  { intros d. apply Permutation_in, sorted_perm. }
  exists (sorted Cal.date_ltb (Dict.keys daily)), lines.
  split; [apply sorted_perm|]. split; [now apply dates_sorted_ascending|].
  split; [exact Hlines|].
  unfold TaskD.print_report. now rewrite (taskd_print_rows_map _ _ _ Hlines).
Qed.

Lemma taskd_report_in_date_order_witness :
  let rows := [Str.split ";" "2025-10-14T00:00:00;1;2;3;4;5;6";
               Str.split ";" "2025-10-13T00:00:00;10;20;30;40;50;60"] in
  let daily :=
    [(Cal.mkdate 2025 10 14,
       Spec.totals (Num.float_of_Z 1) (Num.float_of_Z 2) (Num.float_of_Z 3)
                   (Num.float_of_Z 4) (Num.float_of_Z 5) (Num.float_of_Z 6));
     (Cal.mkdate 2025 10 13,
       Spec.totals (Num.float_of_Z 10) (Num.float_of_Z 20) (Num.float_of_Z 30)
                   (Num.float_of_Z 40) (Num.float_of_Z 50) (Num.float_of_Z 60))] in
  exists ds lines,
    Permutation ds (Dict.keys daily)
    /\ Spec.ascending Cal.date_ltb ds
    /\ map_result (TaskD.report_row daily) ds = Ok lines
    /\ TaskD.print_report daily = (TaskD.report_head ++ lines, Ok tt).
Proof.
  intros rows daily. apply (taskd_report_in_date_order rows daily).
  vm_compute. reflexivity.
Defined.

(** X10: the week section of Task E lists, between its head lines and
    the closing empty line, the lines of the dates of the measurements in
    strictly ascending date order, each date once. *)
Theorem taske_section_in_date_order (week_number : Z) (ms : list TaskE.Measurement) :
  exists daily ds lines,
    TaskE.calculate_daily_summaries ms = Ok daily
    /\ Permutation ds (Dict.keys daily)
    /\ Spec.ascending Cal.date_ltb ds
    /\ map_result (TaskE.section_row daily) ds = Ok lines
    /\ TaskE.format_week_section week_number daily
       = Ok (TaskE.section_head week_number ++ lines ++ [""]).
Proof.
  set (daily := Spec.grouped_summaries ms).
  assert (Hnd : NoDup (Dict.keys daily)).
  { unfold daily. rewrite grouped_summaries_keys. apply first_occurrences_NoDup. }
  destruct (taske_section_rows_ok daily (sorted Cal.date_ltb (Dict.keys daily))
              (grouped_summaries_ok ms))
    as (lines & Hlines & _).
  { intros d. apply Permutation_in, sorted_perm. }
  exists daily, (sorted Cal.date_ltb (Dict.keys daily)), lines.
  split; [apply taske_grouped|]. split; [apply sorted_perm|].
  split; [now apply dates_sorted_ascending|]. split; [exact Hlines|].
  unfold TaskE.format_week_section. now rewrite Hlines.
Qed.

(** ** The run of Task D *)

(** X11: a run of Task D prints either the whole report or nothing.
    When it ends with an exception nothing was printed, and the exception
    is [FileNotFoundError] or [ValueError]; without the file [week42.csv]
    it is [FileNotFoundError].  When it ends normally, the file exists
    and the run printed the head lines and then one row for each
    distinct date of the kept lines. *)
Theorem taskd_main_all_or_nothing (fs : filesystem) :
  (fs "week42.csv" = None -> TaskD.main fs = ([], Raise FileNotFoundError))
  /\ (forall out e, TaskD.main fs = (out, Raise e) ->
                    out = [] /\ (e = FileNotFoundError \/ e = ValueError))
  /\ (forall out, TaskD.main fs = (out, Ok tt) ->
        exists raw lines,
          fs "week42.csv" = Some raw
          /\ out = TaskD.report_head ++ lines
          /\ List.length lines
             = Spec.distinct_dates (Spec.row_dates (TaskD.read_lines raw))).
Proof.
  unfold TaskD.main, TaskD.read_data, open_read.
  destruct (fs "week42.csv") as [raw|].
  - rewrite bind_Ok, bind_Ok.
    destruct (forallb Spec.row_parses (TaskD.read_lines raw)) eqn:Hp.
    + rewrite (taskd_grouped _ Hp).
      set (daily := Spec.grouped_totals (TaskD.read_lines raw)).
      destruct (taskd_report_rows_ok daily (sorted Cal.date_ltb (Dict.keys daily))
                  (grouped_totals_ok _))
        as (lines & Hlines & Hlen).
      { intros d. apply Permutation_in, sorted_perm. }
      unfold TaskD.print_report. rewrite (taskd_print_rows_map _ _ _ Hlines).
      split; [discriminate|]. split; [discriminate|].
      intros out [= <-]. exists raw, lines. split; [reflexivity|].
      split; [reflexivity|].
      rewrite Hlen, (Permutation_length (sorted_perm _ _)).
      unfold daily. rewrite grouped_totals_keys. apply first_occurrences_count.
    + unfold TaskD.calculate_daily_totals.
      rewrite (taskd_for_each_value_error _ [] (taskd_read_lines_long raw)
                 (Forall_nil _) (NoDup_nil _) Hp).
      split; [discriminate|]. split; [|discriminate].
      intros out e [= <- <-]. auto.
  - split; [reflexivity|]. split; [|discriminate].
    intros out e [= <- <-]. auto.
Qed.

(** ** The report file of Task E *)

Lemma taske_phase_cells (t : TaskE.DailySummary) :
  Spec.has_summary_keys t = true ->
  exists c0 c1 c2 p0 p1 p2,
    TaskE.phase_cells t "cons_v" = Ok [c0; c1; c2]
    /\ TaskE.phase_cells t "prod_v" = Ok [p0; p1; p2].
Proof.
  intros H. unfold TaskE.phase_cells. cbn [map_result].
  change ("cons_v" +++ str_of_Z 1) with "cons_v1".
  change ("cons_v" +++ str_of_Z 2) with "cons_v2".
  change ("cons_v" +++ str_of_Z 3) with "cons_v3".
  change ("prod_v" +++ str_of_Z 1) with "prod_v1".
  change ("prod_v" +++ str_of_Z 2) with "prod_v2".
  change ("prod_v" +++ str_of_Z 3) with "prod_v3".
  rewrite !(has_summary_keys_getitem t) by (auto; simpl; tauto).
  cbn [bind]. repeat eexists.
Qed.

Lemma taske_summary_row_ok (weekly_totals : TaskE.WeeklyTotals) (week : Z)
      (t : TaskE.DailySummary) :
  Dict.getitem Z.eqb weekly_totals week = Ok t ->
  Spec.has_summary_keys t = true ->
  exists line, TaskE.summary_row weekly_totals week = Ok line.
Proof.
  intros Hg Ht. unfold TaskE.summary_row. rewrite Hg, bind_Ok.
  destruct (taske_phase_cells t Ht) as (c0 & c1 & c2 & p0 & p1 & p2 & -> & ->).
  cbn. eexists. reflexivity.
Qed.

Lemma taske_write_rows_map (weekly_totals : TaskE.WeeklyTotals) (weeks : list Z)
      (lines : list string) :
  map_result (TaskE.summary_row weekly_totals) weeks = Ok lines ->
  TaskE.write_rows weekly_totals weeks
  = (map (fun line => line +++ newline) lines, Ok tt).
Proof.
  revert lines. induction weeks as [|w weeks IH]; intros lines; simpl.
  - intros [= <-]. reflexivity.
  - intros H. apply bind_ok in H. destruct H as (line & -> & H).
    apply bind_ok in H. destruct H as (rest & Hrest & H).
    injection H as <-. now rewrite (IH rest Hrest).
Qed.

Lemma taske_summary_rows_ok (weekly_totals : TaskE.WeeklyTotals) (weeks : list Z) :
  forallb Spec.has_summary_keys (Dict.values weekly_totals) = true ->
  (forall w, In w weeks -> In w (Dict.keys weekly_totals)) ->
  exists lines, map_result (TaskE.summary_row weekly_totals) weeks = Ok lines
                /\ List.length lines = List.length weeks.
Proof.
  intros Hk Hin. apply map_result_ok. intros w Hw.
  apply Hin in Hw. apply (contains_In Z.eqb Z.eqb_eq) in Hw.
  destruct (contains_getitem Z.eqb weekly_totals w Hw) as [t Ht].
  apply (taske_summary_row_ok weekly_totals w t Ht).
  rewrite forallb_forall in Hk. apply Hk.
  apply (getitem_In Z.eqb Z.eqb_eq) in Ht.
  change t with (snd (w, t)). now apply in_map.
Qed.

(** X12: for weekly totals that have the six field keys, [write_report]
    writes to the named file every line of every section, in order and
    each followed by a line end, then the three head lines of the
    combined summary, then one line per week in strictly ascending order
    of the week numbers, and returns normally. *)
Theorem write_report_layout
        (filename : string) (week_sections : list (list string))
        (weekly_totals : TaskE.WeeklyTotals) :
  NoDup (Dict.keys weekly_totals) ->
  forallb Spec.has_summary_keys (Dict.values weekly_totals) = true ->
  exists weeks lines,
    Permutation weeks (Dict.keys weekly_totals)
    /\ Spec.ascending Z.ltb weeks
    /\ map_result (TaskE.summary_row weekly_totals) weeks = Ok lines
    /\ TaskE.write_report filename week_sections weekly_totals
       = ((filename,
           map (fun line => line +++ newline) (List.concat week_sections)
             ++ TaskE.combined_head
             ++ map (fun line => line +++ newline) lines),
          Ok tt).
Proof.
  intros Hnd Hk.
  destruct (taske_summary_rows_ok weekly_totals
              (sorted Z.ltb (Dict.keys weekly_totals)) Hk)
    as (lines & Hlines & _).
  { intros w. apply Permutation_in, sorted_perm. }
  exists (sorted Z.ltb (Dict.keys weekly_totals)), lines.
  split; [apply sorted_perm|]. split; [now apply weeks_sorted_ascending|].
  split; [exact Hlines|].
  unfold TaskE.write_report. now rewrite (taske_write_rows_map _ _ _ Hlines).
Qed.

Lemma write_report_layout_witness :
  let weekly_totals : TaskE.WeeklyTotals :=
    [(42, Spec.summary (fun _ => Num.float_of_Z 1500));
     (41, Spec.summary (fun _ => Num.fzero))] in
  exists weeks lines,
    Permutation weeks (Dict.keys weekly_totals)
    /\ Spec.ascending Z.ltb weeks
    /\ map_result (TaskE.summary_row weekly_totals) weeks = Ok lines
    /\ TaskE.write_report "summary.txt" [["a"; "b"]; ["c"]] weekly_totals
       = (("summary.txt",
           map (fun line => line +++ newline) (List.concat [["a"; "b"]; ["c"]])
             ++ TaskE.combined_head
             ++ map (fun line => line +++ newline) lines),
          Ok tt).
Proof.
  intros weekly_totals.
  apply (write_report_layout "summary.txt" [["a"; "b"]; ["c"]] weekly_totals).
  - vm_compute. constructor; [|constructor; [|constructor]]; simpl.
    + intros [H|[]]. discriminate H.
    + tauto.
  - vm_compute. reflexivity.
Defined.

(** ** The run of Task E *)

Lemma taske_read_data_raises (csv_reader : list string -> list (list string))
      (fs : filesystem) (filename : string) (e : exn) :
  TaskE.read_data csv_reader fs filename = Raise e ->
  e = FileNotFoundError \/ e = ValueError.
Proof.
  unfold TaskE.read_data, open_read. destruct (fs filename); simpl.
  - intros H. right. eapply taske_read_rows_raises; eauto.
  - intros [= <-]. auto.
Qed.

Lemma taske_section_exists (week : Z) (ms : list TaskE.Measurement) :
  exists section, TaskE.format_week_section week (Spec.grouped_summaries ms) = Ok section.
Proof.
  destruct (taske_section_rows_ok (Spec.grouped_summaries ms)
              (sorted Cal.date_ltb (Dict.keys (Spec.grouped_summaries ms)))
              (grouped_summaries_ok ms))
    as (lines & Hlines & _).
  { intros d. apply Permutation_in, sorted_perm. }
  unfold TaskE.format_week_section. rewrite Hlines. simpl. eauto.
Qed.

Lemma taske_main_step (csv_reader : list string -> list (list string))
      (fs : filesystem) (week_sections : list (list string))
      (weekly_totals : TaskE.WeeklyTotals) (week : Z) (filename : string) :
  TaskE.main_step csv_reader fs (week_sections, weekly_totals) (week, filename)
  = (ms <- TaskE.read_data csv_reader fs filename ;;
     section <- TaskE.format_week_section week (Spec.grouped_summaries ms) ;;
     Ok (week_sections ++ [section],
         Dict.setitem Z.eqb weekly_totals week (Spec.week_totals ms))).
Proof.
  unfold TaskE.main_step.
  destruct (TaskE.read_data csv_reader fs filename) as [ms|e]; [|reflexivity].
  rewrite !bind_Ok, taske_grouped, bind_Ok.
  destruct (taske_section_exists week ms) as [section ->].
  now rewrite !bind_Ok, taske_rollup_grouped.
Qed.

(** X13: when the three weekly files are read without an exception, a
    run of Task E writes [summary.txt] in full: the sections of the weeks
    41, 42 and 43 in that order, the head of the combined summary and the
    three lines of the weeks 41, 42 and 43 with the totals of their
    measurements; no later step of the run can raise. *)
Theorem taske_main_writes_report
        (csv_reader : list string -> list (list string)) (fs : filesystem)
        (ms41 ms42 ms43 : list TaskE.Measurement) :
  TaskE.read_data csv_reader fs "week41.csv" = Ok ms41 ->
  TaskE.read_data csv_reader fs "week42.csv" = Ok ms42 ->
  TaskE.read_data csv_reader fs "week43.csv" = Ok ms43 ->
  exists s41 s42 s43 lines,
    TaskE.format_week_section 41 (Spec.grouped_summaries ms41) = Ok s41
    /\ TaskE.format_week_section 42 (Spec.grouped_summaries ms42) = Ok s42
    /\ TaskE.format_week_section 43 (Spec.grouped_summaries ms43) = Ok s43
    /\ map_result
         (TaskE.summary_row [(41, Spec.week_totals ms41); (42, Spec.week_totals ms42);
                             (43, Spec.week_totals ms43)])
         [41; 42; 43] = Ok lines
    /\ TaskE.main csv_reader fs
       = (Some ("summary.txt",
                map (fun line => line +++ newline) (s41 ++ s42 ++ s43)
                  ++ TaskE.combined_head
                  ++ map (fun line => line +++ newline) lines),
          Ok tt).
Proof.
  intros H41 H42 H43.
  destruct (taske_section_exists 41 ms41) as [s41 E41].
  destruct (taske_section_exists 42 ms42) as [s42 E42].
  destruct (taske_section_exists 43 ms43) as [s43 E43].
  set (wt := [(41, Spec.week_totals ms41); (42, Spec.week_totals ms42);
              (43, Spec.week_totals ms43)]).
  destruct (taske_summary_rows_ok wt [41; 42; 43]) as (lines & Hlines & _).
  { reflexivity. }
  { simpl. tauto. }
  exists s41, s42, s43, lines. repeat (split; [assumption|]).
  unfold TaskE.main, TaskE.week_files. cbn [for_each].
  rewrite taske_main_step, H41, bind_Ok, E41, !bind_Ok.
  rewrite taske_main_step, H42, bind_Ok, E42, !bind_Ok.
  rewrite taske_main_step, H43, bind_Ok, E43, !bind_Ok.
  cbn [Dict.setitem Z.eqb Pos.eqb app].
  unfold TaskE.write_report.
  change (sorted Z.ltb (Dict.keys [(41, Spec.week_totals ms41);
                                   (42, Spec.week_totals ms42);
                                   (43, Spec.week_totals ms43)]))
    with [41; 42; 43].
  fold wt. rewrite (taske_write_rows_map wt _ _ Hlines).
  cbn [List.concat]. now rewrite app_nil_r.
Qed.

Lemma taske_main_writes_report_witness :
  let ms := Spec.scenario_measurements in
  exists s41 s42 s43 lines,
    TaskE.format_week_section 41 (Spec.grouped_summaries ms) = Ok s41
    /\ TaskE.format_week_section 42 (Spec.grouped_summaries ms) = Ok s42
    /\ TaskE.format_week_section 43 (Spec.grouped_summaries ms) = Ok s43
    /\ map_result
         (TaskE.summary_row [(41, Spec.week_totals ms); (42, Spec.week_totals ms);
                             (43, Spec.week_totals ms)])
         [41; 42; 43] = Ok lines
    /\ TaskE.main Spec.plain_reader Spec.three_weeks
       = (Some ("summary.txt",
                map (fun line => line +++ newline) (s41 ++ s42 ++ s43)
                  ++ TaskE.combined_head
                  ++ map (fun line => line +++ newline) lines),
          Ok tt).
Proof.
  intros ms.
  apply (taske_main_writes_report Spec.plain_reader Spec.three_weeks ms ms ms);
    vm_compute; reflexivity.
Defined.

(** X14: when reading one of the three weekly files raises, a run of
    Task E ends with that exception, which is [FileNotFoundError] or
    [ValueError], and [summary.txt] is not opened: the weeks read before
    leave no partial report. *)
Theorem taske_main_writes_nothing
        (csv_reader : list string -> list (list string)) (fs : filesystem) (e : exn) :
  map_result (fun item => TaskE.read_data csv_reader fs (snd item)) TaskE.week_files
  = Raise e ->
  TaskE.main csv_reader fs = (None, Raise e)
  /\ (e = FileNotFoundError \/ e = ValueError).
Proof.
  unfold TaskE.main, TaskE.week_files. cbn [map_result for_each snd].
  rewrite !taske_main_step.
  destruct (TaskE.read_data csv_reader fs "week41.csv") as [ms41|e1] eqn:H41;
    cbn [bind];
    [|intros [= <-]; split; [reflexivity | eapply taske_read_data_raises; eauto]].
  destruct (taske_section_exists 41 ms41) as [s41 ->]. cbn [bind].
  rewrite !taske_main_step.
  destruct (TaskE.read_data csv_reader fs "week42.csv") as [ms42|e2] eqn:H42;
    cbn [bind];
    [|intros [= <-]; split; [reflexivity | eapply taske_read_data_raises; eauto]].
  destruct (taske_section_exists 42 ms42) as [s42 ->]. cbn [bind].
  rewrite !taske_main_step.
  destruct (TaskE.read_data csv_reader fs "week43.csv") as [ms43|e3] eqn:H43;
    cbn [bind];
    [|intros [= <-]; split; [reflexivity | eapply taske_read_data_raises; eauto]].
  discriminate.
Qed.

Lemma taske_main_writes_nothing_witness :
  TaskE.main Spec.plain_reader (Spec.one_file "week41.csv" Spec.scenario_lines)
  = (None, Raise FileNotFoundError)
  /\ (FileNotFoundError = FileNotFoundError \/ FileNotFoundError = ValueError).
Proof.
  apply (taske_main_writes_nothing Spec.plain_reader
           (Spec.one_file "week41.csv" Spec.scenario_lines) FileNotFoundError).
  vm_compute. reflexivity.
Defined.

(** ** The reservations of Task A *)

Lemma list_getitem_raises {A : Type} (l : list A) (i : nat) (e : exn) :
  list_getitem l i = Raise e -> e = IndexError.
Proof. unfold list_getitem. destruct (nth_error l i); congruence. Qed.

Lemma strptime_raises (s : string) (e : exn) :
  TaskA.strptime s = Raise e -> e = ValueError.
Proof.
  unfold TaskA.strptime.
  match goal with
  | |- match ?l with _ => _ end = _ -> _ => generalize l
  end.
  intros l. destruct l as [|[[[[[y m] d] h] mi] r] l]; [congruence|].
  destruct r; [apply make_datetime_raises | congruence].
Qed.

Lemma taska_parse_raises (line : string) (e : exn) :
  TaskA.parse_reservation_line line = Raise e ->
  e = IndexError \/ e = ValueError.
Proof.
  unfold TaskA.parse_reservation_line.
  repeat match goal with
         | |- context [bind ?r _] =>
             lazymatch r with
             | bind _ _ => fail
             | Ok _ => fail
             | _ =>
                 let E := fresh "E" in
                 destruct r eqn:E; cbn [bind];
                 [|intros [= <-];
                   first [ apply list_getitem_raises in E
                         | apply strptime_raises in E
                         | apply int_of_string_raises in E ]; auto]
             end
         end.
  discriminate.
Qed.

Lemma taska_for_each_read_line (file : list string) (acc : list TaskA.reservation) :
  for_each file TaskA.read_line acc
  = (rs <- map_result TaskA.parse_reservation_line file ;; Ok (acc ++ rs)).
Proof.
  revert acc. induction file as [|line file IH]; intros acc; simpl.
  - now rewrite app_nil_r.
  - unfold TaskA.read_line at 1.
    destruct (TaskA.parse_reservation_line line) as [r|e]; simpl; auto.
    rewrite IH. destruct (map_result TaskA.parse_reservation_line file); simpl; auto.
    now rewrite <- app_assoc.
Qed.

(** X15: for a file that exists, [read_reservations] prints nothing and
    returns the reservations of the lines in file order, one per line, or
    ends with the exception of the first line that does not parse, which
    is [IndexError] or [ValueError]; the lines after it are not read. *)
Theorem taska_reads_every_line (fs : filesystem) (filename : string)
        (file : list string) :
  fs filename = Some file ->
  TaskA.read_reservations fs filename
  = ([], map_result TaskA.parse_reservation_line file)
  /\ (forall rs, map_result TaskA.parse_reservation_line file = Ok rs ->
                 List.length rs = List.length file)
  /\ (forall e, map_result TaskA.parse_reservation_line file = Raise e ->
                e = IndexError \/ e = ValueError).
Proof.
  intros H. unfold TaskA.read_reservations. rewrite H.
  rewrite taska_for_each_read_line. simpl. rewrite bind_ret.
  split; [reflexivity|]. split.
  - intros rs. apply map_result_length.
  - intros e He. apply map_result_raises in He. destruct He as (line & _ & He).
    eapply taska_parse_raises; eauto.
Qed.

Lemma taska_reads_every_line_witness :
  let file := ["bob;room 2;2025-01-01 10:00;2025-01-01 11:30;True;3" +++ Spec.nl;
               "eve;room 1;2025-01-02 9:00;2025-01-02 9:30;no;12" +++ Spec.nl] in
  TaskA.read_reservations (Spec.one_file "reservations.txt" file) "reservations.txt"
  = ([], map_result TaskA.parse_reservation_line file)
  /\ (forall rs, map_result TaskA.parse_reservation_line file = Ok rs ->
                 List.length rs = List.length file)
  /\ (forall e, map_result TaskA.parse_reservation_line file = Raise e ->
                e = IndexError \/ e = ValueError).
Proof.
  intros file.
  apply (taska_reads_every_line (Spec.one_file "reservations.txt" file)
           "reservations.txt" file).
  vm_compute. reflexivity.
Defined.

(** X16: a run of Task A prints only the notice and ends normally when
    [reservations.txt] does not exist; it prints one line per line of the
    file when every line parses; and it prints nothing at all when some
    line does not parse, ending with [IndexError] or [ValueError]. *)
Theorem taska_main_outcome (fs : filesystem) :
  match fs "reservations.txt" with
  | None => TaskA.main fs = (["File 'reservations.txt' not found."], Ok tt)
  | Some file =>
      match map_result TaskA.parse_reservation_line file with
      | Ok reservations =>
          TaskA.main fs = (map TaskA.display_line reservations, Ok tt)
          /\ List.length reservations = List.length file
      | Raise e =>
          TaskA.main fs = ([], Raise e) /\ (e = IndexError \/ e = ValueError)
      end
  end.
Proof.
  unfold TaskA.main, TaskA.read_reservations.
  destruct (fs "reservations.txt") as [file|]; [|reflexivity].
  rewrite taska_for_each_read_line. simpl. rewrite bind_ret.
  destruct (map_result TaskA.parse_reservation_line file) as [rs|e] eqn:E.
  - split; [reflexivity|]. eapply map_result_length; eauto.
  - split; [reflexivity|].
    apply map_result_raises in E. destruct E as (line & _ & He).
    eapply taska_parse_raises; eauto.
Qed.

(** X17: [parse_reservation_line] reads the first six fields of a line
    only: two lines with the same first six fields give the same
    reservation or the same exception. *)
Theorem taska_extra_fields_ignored (line line' : string) :
  firstn 6 (Str.split ";" (Str.strip line))
  = firstn 6 (Str.split ";" (Str.strip line')) ->
  TaskA.parse_reservation_line line = TaskA.parse_reservation_line line'.
Proof.
  intros H. unfold TaskA.parse_reservation_line.
  rewrite <- !(list_getitem_firstn (Str.split ";" (Str.strip line)) 6) by lia.
  rewrite <- !(list_getitem_firstn (Str.split ";" (Str.strip line')) 6) by lia.
  now rewrite H.
Qed.

Lemma taska_extra_fields_ignored_witness :
  TaskA.parse_reservation_line
    "bob;room 2;2025-01-01 10:00;2025-01-01 11:30;True;3;extra;more"
  = TaskA.parse_reservation_line
      "bob;room 2;2025-01-01 10:00;2025-01-01 11:30;True;3".
Proof.
  apply (taska_extra_fields_ignored
           "bob;room 2;2025-01-01 10:00;2025-01-01 11:30;True;3;extra;more"
           "bob;room 2;2025-01-01 10:00;2025-01-01 11:30;True;3").
  vm_compute. reflexivity.
Defined.

(** ** Printing a date and time and reading it back *)

Lemma append_nil_r (s : string) : s +++ "" = s.
Proof. induction s as [|c s IH]; simpl; congruence. Qed.

Lemma digits_fuel_length (fuel : nat) :
  forall (k : nat) (n : Z) (acc : string),
    0 <= n < 10 ^ (Z.of_nat k + 1) ->
    (String.length (Str.digits_fuel fuel n acc) <= k + 1 + String.length acc)%nat.
Proof.
  induction fuel as [|fuel IH]; intros k n acc Hn; cbn [Str.digits_fuel].
  - simpl. lia.
  - destruct (Z.ltb_spec n 10) as [Hlt|Hge]; [simpl; lia|].
    destruct k as [|k]; [change (10 ^ (Z.of_nat 0 + 1)) with 10 in Hn; lia|].
    assert (Hn' : 0 <= n / 10 < 10 ^ (Z.of_nat k + 1)).
    { split; [apply Z.div_pos; lia|].
      apply Z.div_lt_upper_bound; [lia|].
      rewrite Nat2Z.inj_succ in Hn.
      replace (Z.succ (Z.of_nat k) + 1) with (Z.succ (Z.of_nat k + 1)) in Hn by lia.
      rewrite Z.pow_succ_r in Hn by lia. lia. }
    specialize (IH k (n / 10) (String (Str.digit_char (n mod 10)) acc) Hn').
    simpl String.length in IH. lia.
Qed.

Lemma fixed_digits_reads (ds : string) :
  all_chars Str.is_digit ds = true ->
  forall a k rest,
    Str.fixed_digits (String.length ds) a (ds +++ rest)
    = Some (fst (fst (Str.digitpart_loop a k ds)), rest).
Proof.
  induction ds as [|c ds IH]; intros H a k rest.
  - reflexivity.
  - simpl in H. apply andb_true_iff in H. destruct H as [Hc H].
    cbn [String.length Str.fixed_digits String.append Str.digitpart_loop].
    rewrite Hc. apply IH. exact H.
Qed.

Lemma fixed_digits_zeros (j n : nat) (s : string) :
  Str.fixed_digits (j + n) 0 (Str.repeat "0" j +++ s) = Str.fixed_digits n 0 s.
Proof.
  induction j as [|j IH]; [reflexivity|].
  cbn [Nat.add Str.repeat String.append Str.fixed_digits].
  change (Str.is_digit "0") with true. cbv iota.
  change (10 * 0 + Str.digit_val "0") with 0. exact IH.
Qed.

Lemma fixed_digits_zfill (w : nat) (n : Z) (rest : string) :
  0 <= n < 10 ^ Z.of_nat w -> (1 <= w)%nat ->
  Str.fixed_digits w 0 (Str.zfill w (Str.of_Z_nonneg n) +++ rest) = Some (n, rest).
Proof.
  intros Hn Hw.
  destruct (of_Z_nonneg_spec n ltac:(lia)) as (ds & Hds & Hall & _ & Hreads).
  assert (Hlen : (String.length ds <= w)%nat).
  { rewrite <- Hds. unfold Str.of_Z_nonneg.
    pose proof (digits_fuel_length (Z.to_nat (Z.log2 n)) (w - 1) n "") as L.
    simpl String.length in L.
    replace (Z.of_nat (w - 1) + 1) with (Z.of_nat w) in L by lia.
    specialize (L Hn). lia. }
  rewrite Hds. unfold Str.zfill. rewrite append_assoc3.
  replace w with ((w - String.length ds) + String.length ds)%nat at 1 by lia.
  rewrite fixed_digits_zeros, (fixed_digits_reads ds Hall 0 0%nat rest).
  pose proof (Hreads 0 0%nat "") as R. rewrite append_nil_r in R.
  rewrite R. simpl. reflexivity.
Qed.

Lemma length_app (s t : string) :
  String.length (s +++ t) = (String.length s + String.length t)%nat.
Proof. induction s as [|c s IH]; simpl; auto. Qed.

Lemma length_repeat (c : ascii) (n : nat) : String.length (Str.repeat c n) = n.
Proof. induction n as [|n IH]; simpl; auto. Qed.

Lemma length_ljust (w : nat) (s : string) :
  String.length (Str.ljust w s) = Nat.max w (String.length s).
Proof. unfold Str.ljust. rewrite length_app, length_repeat. lia. Qed.

Lemma length_rjust (w : nat) (s : string) :
  String.length (Str.rjust w s) = Nat.max w (String.length s).
Proof. unfold Str.rjust. rewrite length_app, length_repeat. lia. Qed.

Lemma length_zfill (w : nat) (s : string) :
  String.length (Str.zfill w s) = Nat.max w (String.length s).
Proof. unfold Str.zfill. rewrite length_app, length_repeat. lia. Qed.

Lemma digits_fuel_grows (fuel : nat) :
  forall (n : Z) (acc : string),
    (String.length acc < String.length (Str.digits_fuel fuel n acc))%nat.
Proof.
  induction fuel as [|fuel IH]; intros n acc; cbn [Str.digits_fuel].
  - simpl. lia.
  - destruct (n <? 10); [simpl; lia|].
    specialize (IH (n / 10) (String (Str.digit_char (n mod 10)) acc)).
    simpl String.length in IH. lia.
Qed.

Lemma digits_fuel_length_lower (fuel : nat) :
  forall (k : nat) (n : Z) (acc : string),
    10 ^ Z.of_nat k <= n < 10 ^ (Z.of_nat fuel + 1) ->
    (k + 1 + String.length acc <= String.length (Str.digits_fuel fuel n acc))%nat.
Proof.
  induction fuel as [|fuel IH]; intros k n acc Hn; cbn [Str.digits_fuel].
  - change (10 ^ (Z.of_nat 0 + 1)) with 10 in Hn.
    destruct k as [|k]; [simpl; lia|].
    exfalso. rewrite Nat2Z.inj_succ, Z.pow_succ_r in Hn by lia.
    pose proof (Z.pow_pos_nonneg 10 (Z.of_nat k) ltac:(lia) ltac:(lia)). lia.
  - destruct (Z.ltb_spec n 10) as [Hlt|Hge].
    + destruct k as [|k]; [simpl; lia|].
      exfalso. rewrite Nat2Z.inj_succ, Z.pow_succ_r in Hn by lia.
      pose proof (Z.pow_pos_nonneg 10 (Z.of_nat k) ltac:(lia) ltac:(lia)). lia.
    + destruct k as [|k].
      * pose proof (digits_fuel_grows fuel (n / 10)
                      (String (Str.digit_char (n mod 10)) acc)) as G.
        simpl String.length in G. lia.
      * assert (Hn' : 10 ^ Z.of_nat k <= n / 10 < 10 ^ (Z.of_nat fuel + 1)).
        { rewrite !Nat2Z.inj_succ in Hn.
          replace (Z.succ (Z.of_nat fuel) + 1) with (Z.succ (Z.of_nat fuel + 1))
            in Hn by lia.
          rewrite !Z.pow_succ_r in Hn by lia. split.
          - apply Z.div_le_lower_bound; lia.
          - apply Z.div_lt_upper_bound; lia. }
        specialize (IH k (n / 10) (String (Str.digit_char (n mod 10)) acc) Hn').
        simpl String.length in IH. lia.
Qed.

Lemma of_Z_nonneg_length (k : nat) (n : Z) :
  0 <= n < 10 ^ Z.of_nat (S k) ->
  (1 <= String.length (Str.of_Z_nonneg n) <= S k)%nat.
Proof.
  intros Hn. unfold Str.of_Z_nonneg. split.
  - pose proof (digits_fuel_grows (Z.to_nat (Z.log2 n)) n ""). simpl in *. lia.
  - pose proof (digits_fuel_length (Z.to_nat (Z.log2 n)) k n "") as L.
    simpl String.length in L.
    replace (Z.of_nat k + 1) with (Z.of_nat (S k)) in L by lia.
    specialize (L Hn). lia.
Qed.

Lemma of_Z_nonneg_length_lower (k : nat) (n : Z) :
  10 ^ Z.of_nat k <= n -> (k + 1 <= String.length (Str.of_Z_nonneg n))%nat.
Proof.
  intros Hn. unfold Str.of_Z_nonneg.
  pose proof (Z.pow_pos_nonneg 10 (Z.of_nat k) ltac:(lia) ltac:(lia)) as Hp.
  pose proof (digits_fuel_length_lower (Z.to_nat (Z.log2 n)) k n "") as L.
  simpl String.length in L. rewrite Nat.add_0_r in L. apply L.
  split; auto.
  pose proof (Z.log2_nonneg n) as Hl. rewrite Z2Nat.id by assumption.
  destruct (Z.log2_spec n ltac:(lia)) as [_ Hup].
  eapply Z.lt_le_trans; [exact Hup|].
  replace (Z.succ (Z.log2 n)) with (Z.log2 n + 1) by lia.
  apply Z.pow_le_mono_l. lia.
Qed.

Lemma str_of_Z_nonneg (n : Z) : 0 <= n -> str_of_Z n = Str.of_Z_nonneg n.
Proof. intros H. unfold str_of_Z. destruct (Z.ltb_spec n 0); [lia | reflexivity]. Qed.

Lemma zfill_full (w : nat) (s : string) :
  (w <= String.length s)%nat -> Str.zfill w s = s.
Proof.
  intros H. unfold Str.zfill.
  replace (w - String.length s)%nat with 0%nat by lia. reflexivity.
Qed.

(** A year from 1000 on is written with its four digits. *)
Lemma strftime_Y_zfill (y : Z) :
  1000 <= y -> Cal.strftime_Y y = Str.zfill 4 (Str.of_Z_nonneg y).
Proof.
  intros H. unfold Cal.strftime_Y. symmetry. apply zfill_full.
  apply (of_Z_nonneg_length_lower 3). change (10 ^ Z.of_nat 3) with 1000. lia.
Qed.

Lemma dir_m_zfill (m : Z) (rest : string) :
  1 <= m <= 12 ->
  exists tl, TaskA.dir_m (Str.zfill 2 (Str.of_Z_nonneg m) +++ rest) = (m, rest) :: tl.
Proof.
  intros H. rewrite <- (Z2Nat.id m) by lia.
  assert (Hn : (1 <= Z.to_nat m < 13)%nat) by lia.
  generalize dependent (Z.to_nat m). clear. intros n Hn.
  destruct n as [|n]; [lia|].
  do 12 (destruct n as [|n]; [vm_compute; eexists; reflexivity|]).
  lia.
Qed.

Lemma dir_d_zfill (d : Z) (rest : string) :
  1 <= d <= 31 ->
  exists tl, TaskA.dir_d (Str.zfill 2 (Str.of_Z_nonneg d) +++ rest) = (d, rest) :: tl.
Proof.
  intros H. rewrite <- (Z2Nat.id d) by lia.
  assert (Hn : (1 <= Z.to_nat d < 32)%nat) by lia.
  generalize dependent (Z.to_nat d). clear. intros n Hn.
  destruct n as [|n]; [lia|].
  do 31 (destruct n as [|n]; [vm_compute; eexists; reflexivity|]).
  lia.
Qed.

Lemma dir_H_zfill (h : Z) (rest : string) :
  0 <= h < 24 ->
  TaskA.spaces (Str.zfill 2 (Str.of_Z_nonneg h) +++ rest) = []
  /\ exists tl, TaskA.dir_H (Str.zfill 2 (Str.of_Z_nonneg h) +++ rest) = (h, rest) :: tl.
Proof.
  intros H. rewrite <- (Z2Nat.id h) by lia.
  assert (Hn : (Z.to_nat h < 24)%nat) by lia.
  generalize dependent (Z.to_nat h). clear. intros n Hn.
  do 24 (destruct n as [|n]; [vm_compute; split; [|eexists]; reflexivity|]).
  lia.
Qed.

Lemma dir_M_zfill (mi : Z) (rest : string) :
  0 <= mi < 60 ->
  exists tl, TaskA.dir_M (Str.zfill 2 (Str.of_Z_nonneg mi) +++ rest) = (mi, rest) :: tl.
Proof.
  intros H. rewrite <- (Z2Nat.id mi) by lia.
  assert (Hn : (Z.to_nat mi < 60)%nat) by lia.
  generalize dependent (Z.to_nat mi). clear. intros n Hn.
  do 60 (destruct n as [|n]; [vm_compute; eexists; reflexivity|]).
  lia.
Qed.

Lemma lit_cons (c : ascii) (s : string) : TaskA.lit c (String c s) = [s].
Proof. simpl. now rewrite Ascii.eqb_refl. Qed.

Lemma strptime_strftime (y m d h mi : Z) :
  1000 <= y <= 9999 -> 1 <= m <= 12 -> 1 <= d <= 31 -> 0 <= h < 24 -> 0 <= mi < 60 ->
  TaskA.strptime
    (Cal.strftime_Ymd_HM (Cal.mkdatetime (Cal.mkdate y m d) h mi 0 0))
  = Cal.make_datetime y m d h mi 0 0.
Proof.
  intros Hy Hm Hd Hh Hmi.
  unfold TaskA.strptime, Cal.strftime_Ymd_HM.
  cbn [Cal.year Cal.month Cal.day Cal.dt_date Cal.hour Cal.minute].
  set (M2 := Str.zfill 2 (Str.of_Z_nonneg m)).
  set (D2 := Str.zfill 2 (Str.of_Z_nonneg d)).
  set (H2 := Str.zfill 2 (Str.of_Z_nonneg h)).
  set (MI2 := Str.zfill 2 (Str.of_Z_nonneg mi)).
  unfold TaskA.dir_Y. rewrite (strftime_Y_zfill y) by lia.
  rewrite fixed_digits_zfill by (change (10 ^ Z.of_nat 4) with 10000; lia).
  cbn [flat_map String.append].
  rewrite lit_cons. cbn [flat_map].
  destruct (dir_m_zfill m (String "-" (D2 +++ String " " (H2 +++ String ":" MI2))) Hm)
    as [tl1 E1].
  fold M2 in E1. rewrite E1.
  cbn [flat_map]. rewrite lit_cons. cbn [flat_map].
  destruct (dir_d_zfill d (String " " (H2 +++ String ":" MI2)) Hd) as [tl2 E2].
  fold D2 in E2. rewrite E2.
  cbn [flat_map TaskA.spaces].
  change (Str.is_space " ") with true. cbv iota.
  destruct (dir_H_zfill h (String ":" MI2) Hh) as [E3 [tl3 E3']].
  fold H2 in E3, E3'. rewrite E3. cbn [app flat_map]. rewrite E3'.
  cbn [flat_map app]. rewrite lit_cons. cbn [flat_map].
  destruct (dir_M_zfill mi "" Hmi) as [tl4 E4].
  rewrite append_nil_r in E4. fold MI2 in E4. rewrite E4.
  cbn [map app]. reflexivity.
Qed.

Lemma two_digits_nonneg (ok : Z -> Z -> bool) (s : string) (v : Z) (r : string) :
  In (v, r) (TaskA.two_digits ok s) -> 0 <= v.
Proof.
  unfold TaskA.two_digits. destruct s as [|a [|b s]]; try contradiction.
  destruct (Str.is_digit a) eqn:Ha; [|contradiction].
  destruct (Str.is_digit b) eqn:Hb; [|contradiction].
  destruct (ok _ _); [|contradiction].
  intros [E|[]].
  assert (Hv : v = 10 * Str.digit_val a + Str.digit_val b) by congruence.
  pose proof (digit_props a Ha) as (_ & _ & _ & _ & Hva & _).
  pose proof (digit_props b Hb) as (_ & _ & _ & _ & Hvb & _).
  lia.
Qed.

Lemma one_digit_nonneg (ok : Z -> bool) (s : string) (v : Z) (r : string) :
  In (v, r) (TaskA.one_digit ok s) -> 0 <= v.
Proof.
  unfold TaskA.one_digit. destruct s as [|a s]; try contradiction.
  destruct (Str.is_digit a) eqn:Ha; [|contradiction].
  destruct (ok _); [|contradiction].
  intros [E|[]].
  assert (Hv : v = Str.digit_val a) by congruence.
  pose proof (digit_props a Ha) as (_ & _ & _ & _ & Hva & _).
  lia.
Qed.

Lemma dir_H_nonneg (s : string) (v : Z) (r : string) :
  In (v, r) (TaskA.dir_H s) -> 0 <= v.
Proof.
  unfold TaskA.dir_H. rewrite !in_app_iff.
  intros [H|[H|H]];
    eauto using two_digits_nonneg, one_digit_nonneg.
Qed.

Lemma dir_M_nonneg (s : string) (v : Z) (r : string) :
  In (v, r) (TaskA.dir_M s) -> 0 <= v.
Proof.
  unfold TaskA.dir_M. rewrite !in_app_iff.
  intros [H|H]; eauto using two_digits_nonneg, one_digit_nonneg.
Qed.

Lemma strptime_fields (s : string) (dt : Cal.datetime) :
  TaskA.strptime s = Ok dt ->
  exists y m d h mi,
    dt = Cal.mkdatetime (Cal.mkdate y m d) h mi 0 0
    /\ Cal.valid_date y m d = true
    /\ 0 <= h < 24 /\ 0 <= mi < 60.
Proof.
  unfold TaskA.strptime.
  match goal with
  | |- match ?l with _ => _ end = _ -> _ => remember l as matches eqn:Hm
  end.
  destruct matches as [|[[[[[y m] d] h] mi] r] matches]; [discriminate|].
  destruct r; [|discriminate].
  unfold Cal.make_datetime.
  destruct (Cal.valid_date y m d) eqn:Hd; [|discriminate].
  destruct (Cal.valid_time h mi 0) eqn:Ht; [|discriminate].
  cbn [andb]. intros [= <-].
  assert (Hin : In (y, m, d, h, mi, "") ((y, m, d, h, mi, "") :: matches))
    by (left; reflexivity).
  rewrite Hm in Hin. clear Hm.
  apply in_flat_map in Hin. destruct Hin as ([y' r1] & _ & Hin).
  apply in_flat_map in Hin. destruct Hin as (r2 & _ & Hin).
  apply in_flat_map in Hin. destruct Hin as ([m' r3] & _ & Hin).
  apply in_flat_map in Hin. destruct Hin as (r4 & _ & Hin).
  apply in_flat_map in Hin. destruct Hin as ([d' r5] & _ & Hin).
  apply in_flat_map in Hin. destruct Hin as (r6 & _ & Hin).
  apply in_flat_map in Hin. destruct Hin as ([h' r7] & Hh & Hin).
  apply in_flat_map in Hin. destruct Hin as (r8 & _ & Hin).
  apply in_map_iff in Hin. destruct Hin as ([mi' r9] & Heq & Hmi).
  injection Heq as -> -> -> -> -> ->.
  apply dir_H_nonneg in Hh. apply dir_M_nonneg in Hmi.
  unfold Cal.valid_time in Ht. rewrite !andb_true_iff, !Z.ltb_lt in Ht.
  exists y, m, d, h, mi. repeat split; auto; lia.
Qed.

(** X18: a date and time that the reservation reader parsed, with a year
    of four digits, is printed by [display_reservations] in a form that
    the reader parses back to the same date and time.  The year is
    bounded because what [%Y] prints for a shorter year depends on the
    platform. *)
Theorem taska_display_round_trip (s : string) (dt : Cal.datetime) :
  TaskA.strptime s = Ok dt ->
  1000 <= Cal.year (Cal.dt_date dt) ->
  TaskA.strptime (Cal.strftime_Ymd_HM dt) = Ok dt.
Proof.
  intros H Hy4.
  destruct (strptime_fields s dt H) as (y & m & d & h & mi & -> & Hd & Hh & Hmi).
  destruct (valid_date_bounds y m d Hd) as (Hy & Hm & Hdd).
  cbn [Cal.year Cal.dt_date] in Hy4.
  rewrite strptime_strftime by (try assumption; lia).
  unfold Cal.make_datetime. rewrite Hd.
  unfold Cal.valid_time.
  destruct (Z.ltb_spec h 24); [|lia].
  destruct (Z.ltb_spec mi 60); [|lia].
  reflexivity.
Qed.

Lemma taska_display_round_trip_witness :
  let dt := Cal.mkdatetime (Cal.mkdate 2025 1 2) 9 5 0 0 in
  TaskA.strptime (Cal.strftime_Ymd_HM dt) = Ok dt.
Proof.
  intros dt. apply (taska_display_round_trip "2025-1-2 9:5" dt).
  - vm_compute. reflexivity.
  - unfold dt. simpl. lia.
Defined.

(** ** A time stamp that parses has no white space around it *)

Lemma last_not_space_append (s t : string) :
  last_not_space t = true -> last_not_space (s +++ t) = true.
Proof.
  intros H. induction s as [|c s IH]; simpl; auto.
  destruct (s +++ t) eqn:E; [|exact IH].
  destruct s; simpl in E; [subst; discriminate | discriminate].
Qed.

Lemma last_not_space_digits (ds : string) :
  all_chars Str.is_digit ds = true -> ds <> "" -> last_not_space ds = true.
Proof.
  induction ds as [|c ds IH]; intros H Hne; [congruence|].
  simpl in H. apply andb_true_iff in H. destruct H as [Hc H].
  destruct ds as [|c' ds].
  - simpl. now destruct (digit_props c Hc) as (-> & _).
  - change (last_not_space (String c (String c' ds)))
      with (last_not_space (String c' ds)).
    apply IH; [exact H | discriminate].
Qed.

Lemma rstrip_last_not_space (s : string) :
  last_not_space s = true -> Str.rstrip s = s.
Proof.
  induction s as [|c s IH]; [discriminate|].
  destruct s as [|c' s].
  - simpl. intros H. apply negb_true_iff in H. now rewrite H.
  - intros H. change (last_not_space (String c (String c' s)))
      with (last_not_space (String c' s)) in H.
    specialize (IH H).
    change (Str.rstrip (String c (String c' s)))
      with (match Str.rstrip (String c' s) with
            | EmptyString => if Str.is_space c then EmptyString else String c EmptyString
            | r => String c r
            end).
    now rewrite IH.
Qed.

Lemma fixed_digits_split (n : nat) :
  forall a s v r,
    Str.fixed_digits n a s = Some (v, r) ->
    exists ds, s = ds +++ r /\ String.length ds = n
               /\ all_chars Str.is_digit ds = true.
Proof.
  induction n as [|n IH]; intros a s v r; simpl.
  - intros [= _ <-]. exists "". auto.
  - destruct s as [|c s]; [discriminate|].
    destruct (Str.is_digit c) eqn:Hc; [|discriminate].
    intros H. destruct (IH _ _ _ _ H) as (ds & -> & Hlen & Hall).
    exists (String c ds). simpl. rewrite Hc, Hlen, Hall. auto.
Qed.

Lemma fixed_digits_last (n : nat) (a : Z) (s : string) (v : Z) :
  Str.fixed_digits (S n) a s = Some (v, "") -> last_not_space s = true.
Proof.
  intros H. destruct (fixed_digits_split _ _ _ _ _ H) as (ds & -> & Hlen & Hall).
  rewrite append_nil_r. apply last_not_space_digits; auto.
  destruct ds; [discriminate | discriminate].
Qed.

Lemma fixed_digits_then (n : nat) (a : Z) (s : string) (v : Z) (r : string) :
  Str.fixed_digits n a s = Some (v, r) ->
  last_not_space r = true -> last_not_space s = true.
Proof.
  intros H Hr. destruct (fixed_digits_split _ _ _ _ _ H) as (ds & -> & _).
  now apply last_not_space_append.
Qed.

Lemma last_not_space_cons (c : ascii) (s : string) :
  last_not_space s = true -> last_not_space (String c s) = true.
Proof. apply (last_not_space_append (String c "")). Qed.

Ltac only_char c ch H :=
  destruct (Ascii.eqb_spec c ch) as [->|?];
  [|exfalso; destruct c as [[] [] [] [] [] [] [] []];
    try discriminate H; congruence].

Lemma parse_hh_mm_ss_ff_last (s : string) (x : Z * Z * Z * Z) :
  Cal.parse_hh_mm_ss_ff s = Some x -> last_not_space s = true.
Proof.
  unfold Cal.parse_hh_mm_ss_ff. intros H.
  destruct (Str.fixed_digits 2 0 s) as [[h r]|] eqn:E1; [|discriminate].
  destruct r as [|c r1]; [eapply fixed_digits_last; eauto|].
  eapply fixed_digits_then; eauto. apply last_not_space_cons.
  only_char c ":"%char H.
  destruct (Str.fixed_digits 2 0 r1) as [[mi r]|] eqn:E2; [|discriminate].
  destruct r as [|c r2]; [eapply fixed_digits_last; eauto|].
  eapply fixed_digits_then; eauto. apply last_not_space_cons.
  only_char c ":"%char H.
  destruct (Str.fixed_digits 2 0 r2) as [[sec r]|] eqn:E3; [|discriminate].
  destruct r as [|c r3]; [eapply fixed_digits_last; eauto|].
  eapply fixed_digits_then; eauto. apply last_not_space_cons.
  only_char c "."%char H.
  destruct (Str.fixed_digits 3 0 r3) as [[ms r]|] eqn:E4; [|discriminate].
  destruct r as [|c r4]; [eapply fixed_digits_last; eauto|].
  eapply fixed_digits_then; eauto.
  destruct (Str.fixed_digits 3 ms (String c r4)) as [[us r]|] eqn:E5; [|discriminate].
  destruct r; [|discriminate].
  eapply fixed_digits_last; eauto.
Qed.

Lemma cut_at_split (sep : ascii) (s a b : string) :
  Cal.cut_at sep s = Some (a, b) -> s = a +++ String sep b.
Proof.
  revert a. induction s as [|c s IH]; intros a; simpl; [discriminate|].
  destruct (Ascii.eqb_spec c sep) as [->|_].
  - intros [= <- <-]. reflexivity.
  - destruct (Cal.cut_at sep s) as [[a' b']|]; [|discriminate].
    intros [= <- <-]. simpl. f_equal. now apply IH.
Qed.

Lemma split_offset_last (tstr clock : string) (off : option string) :
  Cal.split_offset tstr = (clock, off) ->
  last_not_space clock = true ->
  match off with Some o => last_not_space o = true | None => True end ->
  last_not_space tstr = true.
Proof.
  unfold Cal.split_offset. intros H Hc Ho.
  destruct (Cal.cut_at "-" tstr) as [[a b]|] eqn:E1.
  - injection H as <- <-. rewrite (cut_at_split _ _ _ _ E1).
    apply last_not_space_append, last_not_space_cons, Ho.
  - destruct (Cal.cut_at "+" tstr) as [[a b]|] eqn:E2.
    + injection H as <- <-. rewrite (cut_at_split _ _ _ _ E2).
      apply last_not_space_append, last_not_space_cons, Ho.
    + injection H as <- <-. exact Hc.
Qed.

Lemma fromisoformat_stripped (ts : string) (dt : Cal.datetime) :
  Cal.fromisoformat ts = Ok dt -> Str.strip ts = ts.
Proof.
  intros H.
  assert (Hfirst : Str.lstrip ts = ts).
  { unfold Cal.fromisoformat in H.
    destruct ts as [|c ts]; [discriminate|]. simpl.
    destruct (Str.is_digit c) eqn:Hc.
    - now destruct (digit_props c Hc) as (-> & _).
    - simpl in H. rewrite Hc in H. discriminate. }
  unfold Str.strip. rewrite Hfirst. apply rstrip_last_not_space.
  clear Hfirst. unfold Cal.fromisoformat in H.
  destruct (Str.fixed_digits 4 0 ts) as [[y r]|] eqn:E1; [|discriminate].
  destruct r as [|c r1]; [discriminate|].
  eapply fixed_digits_then; eauto. apply last_not_space_cons.
  only_char c "-"%char H.
  destruct (Str.fixed_digits 2 0 r1) as [[m r]|] eqn:E2; [|discriminate].
  destruct r as [|c r2]; [discriminate|].
  eapply fixed_digits_then; eauto. apply last_not_space_cons.
  only_char c "-"%char H.
  destruct (Str.fixed_digits 2 0 r2) as [[d r]|] eqn:E3; [|discriminate].
  destruct r as [|c tstr]; [eapply fixed_digits_last; eauto|].
  eapply fixed_digits_then; eauto. apply last_not_space_cons.
  destruct (Cal.split_offset tstr) as [clock off] eqn:E4.
  destruct (Cal.parse_hh_mm_ss_ff clock) as [[[[h mi] sec] us]|] eqn:E5;
    [|discriminate].
  apply (split_offset_last tstr clock off E4).
  - eapply parse_hh_mm_ss_ff_last; eauto.
  - destruct off as [o|]; [|exact I].
    destruct (Cal.valid_offset o) eqn:E6; [|discriminate].
    unfold Cal.valid_offset in E6. apply andb_true_iff in E6. destruct E6 as [_ E6].
    destruct (Cal.parse_hh_mm_ss_ff o) eqn:E7; [|discriminate].
    eapply parse_hh_mm_ss_ff_last; eauto.
Qed.

(** ** Task D and Task E on the same rows *)

Lemma taske_row_measurement_parses (row : TaskD.row) :
  Spec.row_parses row = true ->
  Spec.long_row row = true
  /\ Spec.row_measurement row = Ok (Spec.measurement_of_row row)
  /\ Spec.row_date row = [Cal.dt_date (TaskE.timestamp (Spec.measurement_of_row row))].
Proof.
  intros Hp.
  destruct (row_parses_fields row Hp) as (ts & dt & Hts & Hdt & Hd & Hv).
  assert (Hlong : Spec.long_row row = true).
  { pose proof (Hv 6%nat ltac:(simpl; tauto)) as H6.
    unfold TaskD.float_field, list_getitem in H6.
    destruct (nth_error row 6) eqn:E; [|discriminate].
    assert (L : (6 < List.length row)%nat)
      by (apply nth_error_Some; congruence).
    unfold Spec.long_row. apply negb_true_iff, Z.ltb_ge. lia. }
  split; [exact Hlong|].
  assert (Hm : Spec.measurement_of_row row
               = TaskE.mkMeasurement dt
                   (Spec.row_value 1 row) (Spec.row_value 2 row) (Spec.row_value 3 row)
                   (Spec.row_value 4 row) (Spec.row_value 5 row) (Spec.row_value 6 row)).
  { unfold Spec.measurement_of_row. rewrite Hts, bind_Ok, Hdt. reflexivity. }
  split.
  - unfold Spec.row_measurement, TaskE.read_row.
    unfold Spec.long_row in Hlong. apply negb_true_iff in Hlong. rewrite Hlong.
    rewrite Hts, bind_Ok, (fromisoformat_stripped ts dt Hdt), Hdt, bind_Ok.
    fold (TaskD.float_field row 1). fold (TaskD.float_field row 2).
    fold (TaskD.float_field row 3). fold (TaskD.float_field row 4).
    fold (TaskD.float_field row 5). fold (TaskD.float_field row 6).
    rewrite !Hv by (simpl; tauto). rewrite !bind_Ok. rewrite Hm. reflexivity.
  - rewrite Hm. exact Hd.
Qed.

Lemma taske_rows_of_taskd (rows : list TaskD.row) :
  forallb Spec.row_parses rows = true ->
  filter Spec.long_row rows = rows
  /\ map_result Spec.row_measurement rows = Ok (map Spec.measurement_of_row rows)
  /\ Spec.measurement_dates (map Spec.measurement_of_row rows) = Spec.row_dates rows
  /\ forall d,
      Spec.on_date d (map Spec.measurement_of_row rows)
      = map Spec.measurement_of_row (Spec.row_on_date d rows).
Proof.
  induction rows as [|row rows IH]; intros H; simpl in *.
  - repeat split; auto.
  - apply andb_true_iff in H. destruct H as [Hrow Hrows].
    destruct (taske_row_measurement_parses row Hrow) as (Hl & Hm & Hd).
    destruct (IH Hrows) as (IH1 & IH2 & IH3 & IH4).
    rewrite Hl, IH1, Hm, bind_Ok, IH2, bind_Ok.
    repeat split; auto.
    + unfold Spec.measurement_dates in *. rewrite Hd. simpl. now rewrite IH3.
    + intros d. rewrite Hd. simpl. rewrite orb_false_r.
      destruct (Cal.date_eqb _ d); simpl; now rewrite IH4.
Qed.

Lemma day_sum_of_rows (rows : list TaskD.row) (d : Cal.date) :
  forallb Spec.row_parses rows = true ->
  Spec.summary (Spec.day_sum (map Spec.measurement_of_row rows) d)
  = [("cons_v1", Spec.row_sum rows d 1); ("cons_v2", Spec.row_sum rows d 2);
     ("cons_v3", Spec.row_sum rows d 3); ("prod_v1", Spec.row_sum rows d 4);
     ("prod_v2", Spec.row_sum rows d 5); ("prod_v3", Spec.row_sum rows d 6)].
Proof.
  intros H. destruct (taske_rows_of_taskd rows H) as (_ & _ & _ & Hon).
  unfold Spec.summary, Spec.day_sum, Spec.row_sum. simpl map at 1.
  rewrite !Hon, !map_map. reflexivity.
Qed.

(** X19: the two variants agree: when [calculate_daily_totals] of Task D
    returns for a list of rows, the reader of Task E, given the same rows
    after a header row, returns one measurement per row, and
    [calculate_daily_summaries] gives the same dates in the same order
    with the same six totals for every date. *)
Theorem variants_agree (hdr : list string) (rows : list TaskD.row)
        (daily : TaskD.daily_totals) :
  TaskD.calculate_daily_totals rows = Ok daily ->
  TaskE.read_rows (hdr :: rows) = Ok (map Spec.measurement_of_row rows)
  /\ exists summaries,
      TaskE.calculate_daily_summaries (map Spec.measurement_of_row rows) = Ok summaries
      /\ Dict.keys summaries = Dict.keys daily
      /\ forall d c0 c1 c2 p0 p1 p2,
          Dict.getitem Cal.date_eqb daily d = Ok (Spec.totals c0 c1 c2 p0 p1 p2) ->
          Dict.getitem Cal.date_eqb summaries d
          = Ok [("cons_v1", c0); ("cons_v2", c1); ("cons_v3", c2);
                ("prod_v1", p0); ("prod_v2", p1); ("prod_v3", p2)].
Proof.
  intros H.
  pose proof (taskd_for_each_parses rows [] daily (Forall_nil _) (NoDup_nil _) H) as Hp.
  rewrite (taskd_grouped rows Hp) in H. injection H as <-.
  destruct (taske_rows_of_taskd rows Hp) as (Hl & Hm & Hd & _).
  split.
  - unfold TaskE.read_rows. rewrite taske_for_each_read_row. simpl skipn.
    rewrite Hl, Hm. reflexivity.
  - exists (Spec.grouped_summaries (map Spec.measurement_of_row rows)).
    split; [apply taske_grouped|]. split.
    + now rewrite grouped_summaries_keys, grouped_totals_keys, Hd.
    + intros d c0 c1 c2 p0 p1 p2.
      unfold Spec.grouped_totals, Spec.grouped_summaries.
      rewrite !(getitem_map_keys Cal.date_eqb date_eqb_eq), Hd.
      destruct (existsb _ _); [|discriminate].
      intros [= <- <- <- <- <- <-]. f_equal. now apply day_sum_of_rows.
Qed.

Lemma variants_agree_witness :
  let rows := [Str.split ";" "2025-10-13T00:00:00;100;200;300;10;20;30";
               Str.split ";" "2025-10-13T01:00:00;50;50;50;5;5;5"] in
  TaskE.read_rows (["timestamp"] :: rows) = Ok (map Spec.measurement_of_row rows)
  /\ exists summaries,
      TaskE.calculate_daily_summaries (map Spec.measurement_of_row rows) = Ok summaries
      /\ Dict.keys summaries
         = Dict.keys
             [(Cal.mkdate 2025 10 13,
                Spec.totals (Num.float_of_Z 150) (Num.float_of_Z 250)
                  (Num.float_of_Z 350) (Num.float_of_Z 15) (Num.float_of_Z 25)
                  (Num.float_of_Z 35))]
      /\ forall d c0 c1 c2 p0 p1 p2,
          Dict.getitem Cal.date_eqb
            [(Cal.mkdate 2025 10 13,
               Spec.totals (Num.float_of_Z 150) (Num.float_of_Z 250)
                 (Num.float_of_Z 350) (Num.float_of_Z 15) (Num.float_of_Z 25)
                 (Num.float_of_Z 35))] d
          = Ok (Spec.totals c0 c1 c2 p0 p1 p2) ->
          Dict.getitem Cal.date_eqb summaries d
          = Ok [("cons_v1", c0); ("cons_v2", c1); ("cons_v3", c2);
                ("prod_v1", p0); ("prod_v2", p1); ("prod_v3", p2)].
Proof.
  intros rows.
  apply (variants_agree ["timestamp"] rows
           [(Cal.mkdate 2025 10 13,
              Spec.totals (Num.float_of_Z 150) (Num.float_of_Z 250)
                (Num.float_of_Z 350) (Num.float_of_Z 15) (Num.float_of_Z 25)
                (Num.float_of_Z 35))]).
  vm_compute. reflexivity.
Defined.

(** ** The width of a report row *)

Lemma name_at_weekday_length (d : Cal.date) :
  (String.length (name_at_weekday d) <= 9)%nat.
Proof.
  unfold name_at_weekday. pose proof (weekday_index d) as H.
  destruct (Z.to_nat (Cal.weekday d)) as [|[|[|[|[|[|[|n]]]]]]]; simpl; lia.
Qed.

Lemma strftime_dmY_length_le (d : Cal.date) :
  Cal.valid_date (Cal.year d) (Cal.month d) (Cal.day d) = true ->
  (String.length (Cal.strftime_dmY d) <= 10)%nat.
Proof.
  intros H. destruct (valid_date_bounds _ _ _ H) as (Hy & Hm & Hd).
  unfold Cal.strftime_dmY, Cal.strftime_Y. rewrite !length_app, !length_zfill.
  pose proof (of_Z_nonneg_length 1 (Cal.day d) ltac:(change (10 ^ Z.of_nat 2) with 100; lia)).
  pose proof (of_Z_nonneg_length 1 (Cal.month d) ltac:(change (10 ^ Z.of_nat 2) with 100; lia)).
  pose proof (of_Z_nonneg_length 3 (Cal.year d) ltac:(change (10 ^ Z.of_nat 4) with 10000; lia)).
  simpl String.length. lia.
Qed.

Lemma strftime_dmY_length (d : Cal.date) :
  Cal.valid_date (Cal.year d) (Cal.month d) (Cal.day d) = true ->
  1000 <= Cal.year d ->
  String.length (Cal.strftime_dmY d) = 10%nat.
Proof.
  intros H Hy4. destruct (valid_date_bounds _ _ _ H) as (Hy & Hm & Hd).
  unfold Cal.strftime_dmY. rewrite (strftime_Y_zfill (Cal.year d)) by assumption.
  rewrite !length_app, !length_zfill.
  pose proof (of_Z_nonneg_length 1 (Cal.day d) ltac:(change (10 ^ Z.of_nat 2) with 100; lia)).
  pose proof (of_Z_nonneg_length 1 (Cal.month d) ltac:(change (10 ^ Z.of_nat 2) with 100; lia)).
  pose proof (of_Z_nonneg_length 3 (Cal.year d) ltac:(change (10 ^ Z.of_nat 4) with 10000; lia)).
  simpl String.length. lia.
Qed.

Lemma format_date_finnish_length (d : Cal.date) :
  Cal.valid_date (Cal.year d) (Cal.month d) (Cal.day d) = true ->
  (String.length (TaskE.format_date_finnish d) <= 10)%nat.
Proof.
  intros H. destruct (valid_date_bounds _ _ _ H) as (Hy & Hm & Hd).
  unfold TaskE.format_date_finnish.
  rewrite !str_of_Z_nonneg by lia.
  rewrite !length_app, !length_zfill.
  pose proof (of_Z_nonneg_length 1 (Cal.day d) ltac:(change (10 ^ Z.of_nat 2) with 100; lia)).
  pose proof (of_Z_nonneg_length 1 (Cal.month d) ltac:(change (10 ^ Z.of_nat 2) with 100; lia)).
  pose proof (of_Z_nonneg_length 3 (Cal.year d) ltac:(change (10 ^ Z.of_nat 4) with 10000; lia)).
  simpl String.length. lia.
Qed.

(** X20: a row of the report of Task D is exactly 68 characters wide when
    each of its six formatted values has at most six characters; a row
    of the week section of Task E is exactly 71 characters wide when each
    of its six formatted values has at most seven characters. *)
Theorem report_rows_have_fixed_width
        (daily : TaskD.daily_totals) (summaries : TaskE.WeekDailySummaries)
        (d : Cal.date) (c0 c1 c2 p0 p1 p2 : Num.float) (f : string -> Num.float) :
  Cal.valid_date (Cal.year d) (Cal.month d) (Cal.day d) = true ->
  Dict.getitem Cal.date_eqb daily d = Ok (Spec.totals c0 c1 c2 p0 p1 p2) ->
  Forall (fun v => (String.length (TaskD.format_kwh v) <= 6)%nat)
         [c0; c1; c2; p0; p1; p2] ->
  Dict.getitem Cal.date_eqb summaries d = Ok (Spec.summary f) ->
  Forall (fun k => (String.length (TaskE.format_kwh_finnish (TaskE.wh_to_kwh (f k)))
                    <= 7)%nat)
         TaskE.summary_keys ->
  (exists line, TaskD.report_row daily d = Ok line /\ String.length line = 68%nat)
  /\ (exists line, TaskE.section_row summaries d = Ok line
                   /\ String.length line = 71%nat).
Proof.
  intros Hd HD HwD HE HwE.
  pose proof (name_at_weekday_length d) as Hl.
  split.
  - unfold TaskD.report_row. rewrite HD. cbn [bind Dict.getitem Spec.totals String.eqb Ascii.eqb Bool.eqb].
    fold (name <- TaskD.weekday_name_finnish d ;; Ok (Str.capitalize name)).
    simpl Dict.getitem.
    pose proof (taskd_weekday_name d) as Hn.
    destruct (TaskD.weekday_name_finnish d) as [name|]; [|discriminate].
    assert (Hn' : Str.capitalize name = name_at_weekday d).
    { cbn [bind] in Hn. unfold name_at_weekday. congruence. }
    clear Hn.
    cbn [bind list_getitem nth_error].
    eexists. split; [reflexivity|].
    rewrite Hn'. rewrite !length_app, !length_ljust, !length_rjust.
    pose proof (strftime_dmY_length_le d Hd).
    set (label := name_at_weekday d) in *.
    set (date_str := Cal.strftime_dmY d) in *.
    repeat match goal with
           | H : Forall _ (_ :: _) |- _ => inversion H; clear H; subst
           end.
    simpl String.length. lia.
  - unfold TaskE.section_row, TaskE.phase_cells. rewrite HE, bind_Ok.
    destruct (taske_cells (fun v => TaskE.format_kwh_finnish (TaskE.wh_to_kwh v)) f)
      as [-> ->].
    rewrite !bind_Ok, taske_weekday_name. fold (name_at_weekday d).
    cbn [bind list_getitem nth_error].
    eexists. split; [reflexivity|].
    rewrite !length_app, !length_ljust, !length_rjust.
    pose proof (format_date_finnish_length d Hd).
    set (label := name_at_weekday d) in *.
    set (date_str := TaskE.format_date_finnish d) in *.
    unfold TaskE.summary_keys in HwE.
    repeat match goal with
           | H : Forall _ (_ :: _) |- _ => inversion H; clear H; subst
           end.
    simpl String.length. lia.
Qed.

Lemma report_rows_have_fixed_width_witness :
  let d := Cal.mkdate 2025 10 13 in
  let daily :=
    [(d, Spec.totals (Num.float_of_Z 150) (Num.float_of_Z 250) (Num.float_of_Z 350)
                     (Num.float_of_Z 15) (Num.float_of_Z 25) (Num.float_of_Z 35))] in
  let summaries := [(d, Spec.summary (fun _ => Num.float_of_Z 999994))] in
  (exists line, TaskD.report_row daily d = Ok line /\ String.length line = 68%nat)
  /\ (exists line, TaskE.section_row summaries d = Ok line
                   /\ String.length line = 71%nat).
Proof.
  intros d daily summaries.
  apply (report_rows_have_fixed_width daily summaries d
           (Num.float_of_Z 150) (Num.float_of_Z 250) (Num.float_of_Z 350)
           (Num.float_of_Z 15) (Num.float_of_Z 25) (Num.float_of_Z 35)
           (fun _ => Num.float_of_Z 999994)).
  - vm_compute. reflexivity.
  - vm_compute. reflexivity.
  - repeat constructor; vm_compute; lia.
  - vm_compute. reflexivity.
  - repeat constructor; vm_compute; lia.
Defined.

(** ** The date column *)

Lemma parse_dmY_strftime (d : Cal.date) :
  Cal.valid_date (Cal.year d) (Cal.month d) (Cal.day d) = true ->
  1000 <= Cal.year d ->
  Spec.parse_dmY (Cal.strftime_dmY d) = Some d.
Proof.
  intros H Hy4. destruct (valid_date_bounds _ _ _ H) as (Hy & Hm & Hd).
  unfold Spec.parse_dmY, Cal.strftime_dmY.
  rewrite (strftime_Y_zfill (Cal.year d)) by assumption.
  rewrite fixed_digits_zfill by (change (10 ^ Z.of_nat 2) with 100; lia).
  cbn [String.append].
  rewrite fixed_digits_zfill by (change (10 ^ Z.of_nat 2) with 100; lia).
  cbn [String.append].
  rewrite <- (append_nil_r (Str.zfill 4 _)).
  rewrite fixed_digits_zfill by (change (10 ^ Z.of_nat 4) with 10000; lia).
  now destruct d.
Qed.

(** X21: the dates of the report rows are written as [dd.mm.yyyy]: for a
    valid date with a year of four digits the two formatters give the
    same text of ten characters, and reading two digits, a period, two
    digits, a period and four digits gives the date back.  For a shorter
    year Task E writes the year without leading zeros. *)
Theorem dates_are_written_dd_mm_yyyy (d : Cal.date) :
  Cal.valid_date (Cal.year d) (Cal.month d) (Cal.day d) = true ->
  1000 <= Cal.year d ->
  TaskE.format_date_finnish d = Cal.strftime_dmY d
  /\ String.length (TaskE.format_date_finnish d) = 10%nat
  /\ Spec.parse_dmY (TaskE.format_date_finnish d) = Some d
  /\ Spec.parse_dmY (Cal.strftime_dmY d) = Some d.
Proof.
  intros H Hy4. destruct (valid_date_bounds _ _ _ H) as (Hy & Hm & Hd).
  assert (E : TaskE.format_date_finnish d = Cal.strftime_dmY d).
  { unfold TaskE.format_date_finnish, Cal.strftime_dmY, Cal.strftime_Y.
    now rewrite !str_of_Z_nonneg by lia. }
  rewrite E. split; [reflexivity|]. split; [now apply strftime_dmY_length|].
  split; now apply parse_dmY_strftime.
Qed.

Lemma dates_are_written_dd_mm_yyyy_witness :
  let d := Cal.mkdate 2025 1 9 in
  TaskE.format_date_finnish d = Cal.strftime_dmY d
  /\ String.length (TaskE.format_date_finnish d) = 10%nat
  /\ Spec.parse_dmY (TaskE.format_date_finnish d) = Some d
  /\ Spec.parse_dmY (Cal.strftime_dmY d) = Some d.
Proof.
  intros d. apply (dates_are_written_dd_mm_yyyy d).
  - vm_compute. reflexivity.
  - unfold d. simpl. lia.
Defined.

(** ** White space around a time stamp *)

Lemma rstrip_empty_or_last (s : string) :
  Str.rstrip s = "" \/ last_not_space (Str.rstrip s) = true.
Proof.
  induction s as [|c s IH]; simpl; auto.
  destruct (Str.rstrip s) as [|c' r] eqn:E.
  - destruct (Str.is_space c) eqn:Hc; auto.
    right. simpl. now rewrite Hc.
  - right. destruct IH as [IH|IH]; [discriminate|].
    change (last_not_space (String c (String c' r)))
      with (last_not_space (String c' r)). exact IH.
Qed.

Lemma rstrip_idempotent (s : string) : Str.rstrip (Str.rstrip s) = Str.rstrip s.
Proof.
  destruct (rstrip_empty_or_last s) as [->|H]; [reflexivity|].
  now apply rstrip_last_not_space.
Qed.

Lemma lstrip_first (s : string) :
  match Str.lstrip s with
  | EmptyString => True
  | String c _ => Str.is_space c = false
  end.
Proof.
  induction s as [|c s IH]; simpl; auto.
  destruct (Str.is_space c) eqn:Hc; [exact IH | exact Hc].
Qed.

Lemma rstrip_first (c : ascii) (s : string) :
  Str.is_space c = false -> exists r, Str.rstrip (String c s) = String c r.
Proof.
  intros Hc. simpl. destruct (Str.rstrip s); [rewrite Hc|]; eauto.
Qed.

Lemma strip_idempotent (s : string) : Str.strip (Str.strip s) = Str.strip s.
Proof.
  unfold Str.strip.
  assert (L : Str.lstrip (Str.rstrip (Str.lstrip s)) = Str.rstrip (Str.lstrip s)).
  { pose proof (lstrip_first s) as H.
    destruct (Str.lstrip s) as [|c t]; [reflexivity|].
    destruct (rstrip_first c t H) as [r ->]. simpl. now rewrite H. }
  rewrite L. apply rstrip_idempotent.
Qed.

(** X22: the two variants differ on a time stamp with white space around
    it: in Task D such a row, among rows of at least seven fields, ends
    the aggregation with [ValueError], while the reader of Task E strips
    the time stamp and reads the row as if the white space were not
    there. *)
Theorem padded_time_stamp_differs
        (rows : list TaskD.row) (ts : string) (rest : list string)
        (ms : list TaskE.Measurement) :
  Forall (fun parts => (7 <= List.length parts)%nat) rows ->
  In (ts :: rest) rows ->
  Str.strip ts <> ts ->
  TaskD.calculate_daily_totals rows = Raise ValueError
  /\ TaskE.read_row ms (ts :: rest) = TaskE.read_row ms (Str.strip ts :: rest).
Proof.
  intros Hlen Hin Hts. split.
  - apply taskd_for_each_value_error; auto; try constructor.
    destruct (forallb Spec.row_parses rows) eqn:E; auto.
    rewrite forallb_forall in E. specialize (E _ Hin).
    destruct (row_parses_fields _ E) as (ts' & dt & Hg & Hdt & _).
    injection Hg as <-. apply fromisoformat_stripped in Hdt. contradiction.
  - unfold TaskE.read_row. cbn [List.length list_getitem nth_error bind].
    now rewrite strip_idempotent.
Qed.

Lemma padded_time_stamp_differs_witness :
  let rest := ["100"; "200"; "300"; "10"; "20"; "30"] in
  TaskD.calculate_daily_totals [" 2025-10-13T00:00:00" :: rest] = Raise ValueError
  /\ TaskE.read_row [] (" 2025-10-13T00:00:00" :: rest)
     = TaskE.read_row [] (Str.strip " 2025-10-13T00:00:00" :: rest).
Proof.
  intros rest.
  apply (padded_time_stamp_differs [" 2025-10-13T00:00:00" :: rest]
           " 2025-10-13T00:00:00" rest []).
  - constructor; [simpl; lia | constructor].
  - simpl. auto.
  - vm_compute. discriminate.
Defined.

(** ** A week without a key in the report file *)

Lemma getitem_raises {K V : Type} (eqb : K -> K -> bool) (d : Dict.t K V) (k : K)
      (e : exn) :
  Dict.getitem eqb d k = Raise e -> e = KeyError.
Proof.
  induction d as [|[k0 v0] d IH]; simpl; [congruence|].
  destruct (eqb k k0); [discriminate | exact IH].
Qed.

Lemma taske_phase_cells_outcome (t : TaskE.DailySummary) (prefix : string) :
  (exists c0 c1 c2, TaskE.phase_cells t prefix = Ok [c0; c1; c2])
  \/ TaskE.phase_cells t prefix = Raise KeyError.
Proof.
  unfold TaskE.phase_cells. cbn [map_result].
  repeat match goal with
         | |- context [Dict.getitem String.eqb t ?k] =>
             let E := fresh "E" in
             destruct (Dict.getitem String.eqb t k) eqn:E; cbn [bind];
             [|apply getitem_raises in E; subst; auto]
         end.
  left. repeat eexists.
Qed.

Lemma taske_summary_row_outcome (weekly_totals : TaskE.WeeklyTotals) (week : Z) :
  (exists line, TaskE.summary_row weekly_totals week = Ok line)
  \/ TaskE.summary_row weekly_totals week = Raise KeyError.
Proof.
  unfold TaskE.summary_row.
  destruct (Dict.getitem Z.eqb weekly_totals week) as [t|e] eqn:E; cbn [bind];
    [|apply getitem_raises in E; subst; auto].
  destruct (taske_phase_cells_outcome t "cons_v") as [(c0 & c1 & c2 & ->)| ->];
    cbn [bind]; auto.
  destruct (taske_phase_cells_outcome t "prod_v") as [(p0 & p1 & p2 & ->)| ->];
    cbn [bind]; auto.
  left. cbn. eexists. reflexivity.
Qed.

Lemma taske_summary_row_keys (weekly_totals : TaskE.WeeklyTotals) (week : Z)
      (t : TaskE.DailySummary) (line : string) :
  Dict.getitem Z.eqb weekly_totals week = Ok t ->
  TaskE.summary_row weekly_totals week = Ok line ->
  Spec.has_summary_keys t = true.
Proof.
  intros Hg. unfold TaskE.summary_row, TaskE.phase_cells. rewrite Hg, bind_Ok.
  cbn [map_result].
  change ("cons_v" +++ str_of_Z 1) with "cons_v1".
  change ("cons_v" +++ str_of_Z 2) with "cons_v2".
  change ("cons_v" +++ str_of_Z 3) with "cons_v3".
  change ("prod_v" +++ str_of_Z 1) with "prod_v1".
  change ("prod_v" +++ str_of_Z 2) with "prod_v2".
  change ("prod_v" +++ str_of_Z 3) with "prod_v3".
  unfold Spec.has_summary_keys. simpl forallb.
  repeat match goal with
         | |- context [Dict.getitem String.eqb t ?k] =>
             let E := fresh "E" in
             destruct (Dict.getitem String.eqb t k) eqn:E; cbn [bind];
             [apply getitem_contains in E; rewrite E | discriminate]
         end.
  reflexivity.
Qed.

Lemma taske_write_rows_outcome (weekly_totals : TaskE.WeeklyTotals) (weeks : list Z) :
  (forall w, In w weeks -> In w (Dict.keys weekly_totals)) ->
  forallb (fun w => match Dict.getitem Z.eqb weekly_totals w with
                    | Ok t => Spec.has_summary_keys t
                    | Raise _ => false
                    end) weeks = false ->
  exists rows,
    TaskE.write_rows weekly_totals weeks = (rows, Raise KeyError)
    /\ (List.length rows < List.length weeks)%nat.
Proof.
  induction weeks as [|w weeks IH]; intros Hin H; simpl in *; [discriminate|].
  destruct (taske_summary_row_outcome weekly_totals w) as [[line Hl]| ->].
  - rewrite Hl.
    assert (Hw : In w (Dict.keys weekly_totals)) by auto.
    apply (contains_In Z.eqb Z.eqb_eq) in Hw.
    destruct (contains_getitem Z.eqb weekly_totals w Hw) as [t Ht].
    rewrite Ht, (taske_summary_row_keys weekly_totals w t line Ht Hl) in H.
    simpl in H. destruct IH as (rows & -> & Hlen); auto.
    exists ((line +++ newline) :: rows). simpl. split; [reflexivity | lia].
  - exists []. simpl. split; [reflexivity | lia].
Qed.

(** X23: when the totals of some week lack one of the six field keys,
    [write_report] raises [KeyError] only after it has written all the
    sections and the head of the combined summary: the file is left with
    a combined summary that has fewer lines than there are weeks. *)
Theorem write_report_partial_on_missing_key
        (filename : string) (week_sections : list (list string))
        (weekly_totals : TaskE.WeeklyTotals) :
  NoDup (Dict.keys weekly_totals) ->
  forallb Spec.has_summary_keys (Dict.values weekly_totals) = false ->
  exists rows,
    TaskE.write_report filename week_sections weekly_totals
    = ((filename,
        map (fun line => line +++ newline) (List.concat week_sections)
          ++ TaskE.combined_head ++ rows),
       Raise KeyError)
    /\ (List.length rows < List.length (Dict.keys weekly_totals))%nat.
Proof.
  intros Hnd H.
  destruct (taske_write_rows_outcome weekly_totals
              (sorted Z.ltb (Dict.keys weekly_totals)))
    as (rows & Hrows & Hlen).
  { intros w. apply Permutation_in, sorted_perm. }
  { destruct (forallb _ (sorted Z.ltb (Dict.keys weekly_totals))) eqn:E; auto.
    rewrite forallb_forall in E.
    assert (F : forallb Spec.has_summary_keys (Dict.values weekly_totals) = true).
    { apply forallb_forall. intros t Ht.
      unfold Dict.values in Ht. apply in_map_iff in Ht.
      destruct Ht as ([w t'] & <- & Hin). simpl.
      assert (Hw : In w (sorted Z.ltb (Dict.keys weekly_totals))).
      { apply (Permutation_in _ (Permutation_sym (sorted_perm Z.ltb _))).
        change w with (fst (w, t')). now apply in_map. }
      specialize (E w Hw).
      now rewrite (In_getitem Z.eqb Z.eqb_eq weekly_totals w t' Hnd Hin) in E. }
    congruence. }
  exists rows. unfold TaskE.write_report. rewrite Hrows. split; [reflexivity|].
  now rewrite (Permutation_length (sorted_perm Z.ltb _)) in Hlen.
Qed.

Lemma write_report_partial_on_missing_key_witness :
  let weekly_totals : TaskE.WeeklyTotals :=
    [(41, Spec.summary (fun _ => Num.fzero)); (42, [("cons_v1", Num.fzero)])] in
  exists rows,
    TaskE.write_report "summary.txt" [["a"]] weekly_totals
    = (("summary.txt",
        map (fun line => line +++ newline) (List.concat [["a"]])
          ++ TaskE.combined_head ++ rows),
       Raise KeyError)
    /\ (List.length rows < List.length (Dict.keys weekly_totals))%nat.
Proof.
  intros weekly_totals.
  apply (write_report_partial_on_missing_key "summary.txt" [["a"]] weekly_totals).
  - vm_compute. constructor; [|constructor; [|constructor]]; simpl.
    + intros [H|[]]. discriminate H.
    + tauto.
  - vm_compute. reflexivity.
Defined.

(** ** The dates and times of Task C *)

Lemma split_no_sep (sep : ascii) (s : string) :
  all_chars (fun c => negb (Ascii.eqb c sep)) s = true -> Str.split sep s = [s].
Proof.
  induction s as [|c s IH]; simpl; auto.
  rewrite andb_true_iff, negb_true_iff. intros [-> H]. now rewrite IH.
Qed.

Lemma split_app_sep (sep : ascii) (s t : string) :
  all_chars (fun c => negb (Ascii.eqb c sep)) s = true ->
  Str.split sep (s +++ String sep t) = s :: Str.split sep t.
Proof.
  induction s as [|c s IH]; simpl.
  - intros _. now rewrite Ascii.eqb_refl.
  - rewrite andb_true_iff, negb_true_iff. intros [-> H]. now rewrite IH.
Qed.

Lemma digit_not_separator (c : ascii) :
  Str.is_digit c = true ->
  negb (Ascii.eqb c "-") = true /\ negb (Ascii.eqb c ":") = true.
Proof.
  destruct c as [[] [] [] [] [] [] [] []]; intros H;
    try discriminate H; split; reflexivity.
Qed.

Lemma all_chars_repeat (p : ascii -> bool) (c : ascii) (n : nat) :
  p c = true -> all_chars p (Str.repeat c n) = true.
Proof. intros H. induction n as [|n IH]; simpl; auto. now rewrite H. Qed.

Lemma zfill_digits (w : nat) (n : Z) :
  0 <= n -> all_chars Str.is_digit (Str.zfill w (Str.of_Z_nonneg n)) = true.
Proof.
  intros Hn. destruct (of_Z_nonneg_spec n Hn) as (ds & -> & Hall & _).
  unfold Str.zfill. rewrite all_chars_append, Hall, all_chars_repeat; reflexivity.
Qed.

Lemma digitpart_loop_rest (s : string) :
  all_chars Str.is_digit s = true ->
  forall a k, snd (Str.digitpart_loop a k s) = "".
Proof.
  induction s as [|c s IH]; intros H a k; [reflexivity|].
  simpl in H. apply andb_true_iff in H. destruct H as [Hc H].
  cbn [Str.digitpart_loop]. rewrite Hc. now apply IH.
Qed.

Lemma int_of_string_zfill (w : nat) (n : Z) :
  0 <= n < 10 ^ Z.of_nat w -> (1 <= w)%nat ->
  Num.int_of_string (Str.zfill w (Str.of_Z_nonneg n)) = Ok n.
Proof.
  intros Hn Hw.
  pose proof (zfill_digits w n ltac:(lia)) as Hall.
  pose proof (fixed_digits_zfill w n "" Hn Hw) as Hfix.
  pose proof (length_zfill w (Str.of_Z_nonneg n)) as Hlen.
  pose proof (of_Z_nonneg_length (w - 1) n) as Hl.
  replace (S (w - 1)) with w in Hl by lia. specialize (Hl Hn).
  set (s := Str.zfill w (Str.of_Z_nonneg n)) in *.
  assert (Hw' : String.length s = w) by lia.
  rewrite append_nil_r in Hfix.
  pose proof (fixed_digits_reads s Hall 0 0%nat "") as R.
  rewrite append_nil_r, Hw', Hfix in R. injection R as R.
  pose proof (digitpart_loop_rest s Hall 0 0%nat) as Hrest.
  destruct (digits_plain s Hall) as (Hsp & _ & _).
  unfold Num.int_of_string. rewrite (strip_no_space s Hsp).
  destruct s as [|c r]; [simpl in Hw'; lia|].
  simpl in Hall. apply andb_true_iff in Hall. destruct Hall as [Hc Hall].
  destruct (digit_props c Hc) as (_ & _ & _ & _ & _ & Hsign & _).
  rewrite Hsign. cbn [Str.digitpart]. rewrite Hc.
  cbn [Str.digitpart_loop] in R, Hrest. rewrite Hc in R, Hrest.
  change (10 * 0 + Str.digit_val c) with (Str.digit_val c) in R, Hrest.
  destruct (Str.digitpart_loop (Str.digit_val c) 1 r) as [[v k] rest].
  simpl in R, Hrest. subst. reflexivity.
Qed.

Lemma fits_c_int_small (v : Z) : -10000 <= v <= 10000 -> Cal.fits_c_int v = true.
Proof.
  intros H. unfold Cal.fits_c_int. change (2 ^ 31) with 2147483648.
  rewrite andb_true_iff, Z.leb_le, Z.ltb_lt. lia.
Qed.

Lemma new_date_outcome (y m d : Z) :
  match Cal.new_date y m d with
  | Ok date => Cal.valid_date y m d = true /\ date = Cal.mkdate y m d
  | Raise e => e = ValueError \/ e = OverflowError
  end.
Proof.
  unfold Cal.new_date.
  destruct (Cal.fits_c_int y && Cal.fits_c_int m && Cal.fits_c_int d); auto.
  destruct (Cal.valid_date y m d); auto.
Qed.

Lemma new_date_valid (y m d : Z) :
  Cal.valid_date y m d = true -> Cal.new_date y m d = Ok (Cal.mkdate y m d).
Proof.
  intros H. destruct (valid_date_bounds _ _ _ H) as (Hy & Hm & Hd).
  unfold Cal.new_date. rewrite !fits_c_int_small by lia. now rewrite H.
Qed.

Lemma new_time_outcome (h mi : Z) :
  match Cal.new_time h mi with
  | Ok t => 0 <= h < 24 /\ 0 <= mi < 60 /\ t = (h, mi)
  | Raise e => e = ValueError \/ e = OverflowError
  end.
Proof.
  unfold Cal.new_time. destruct (Cal.fits_c_int h && Cal.fits_c_int mi); auto.
  destruct ((0 <=? h) && (h <? 24) && (0 <=? mi) && (mi <? 60)) eqn:Hv; auto.
  rewrite !andb_true_iff, !Z.leb_le, !Z.ltb_lt in Hv. repeat split; lia.
Qed.

Lemma new_time_valid (h mi : Z) :
  0 <= h < 24 -> 0 <= mi < 60 -> Cal.new_time h mi = Ok (h, mi).
Proof.
  intros Hh Hmi. unfold Cal.new_time. rewrite !fits_c_int_small by lia.
  destruct (Z.leb_spec 0 h); [|lia]. destruct (Z.ltb_spec h 24); [|lia].
  destruct (Z.leb_spec 0 mi); [|lia]. destruct (Z.ltb_spec mi 60); [|lia].
  reflexivity.
Qed.

(** X24: when [format_date] of Task C returns a text, its argument has
    exactly three fields between hyphens, the integers of the fields are
    a valid calendar date, and the text is that date as [strftime]
    writes it, in at most ten characters and in exactly ten from the
    year 1000 on; when [format_time] returns a text, its argument has
    exactly two fields around a colon, the integers of the fields are an
    hour from 0 to 23 and a minute from 0 to 59, and the text is the
    five characters [HH.MM].  The only exceptions that the two functions
    raise are [ValueError] and [OverflowError]. *)
Theorem taskc_format_outcome (date_str time_str : string) :
  (forall text, TaskC.format_date date_str = Ok text ->
     exists year month day y m d,
       Str.split "-" date_str = [year; month; day]
       /\ Num.int_of_string year = Ok y
       /\ Num.int_of_string month = Ok m
       /\ Num.int_of_string day = Ok d
       /\ Cal.valid_date y m d = true
       /\ text = Cal.strftime_dmY (Cal.mkdate y m d)
       /\ (String.length text <= 10)%nat
       /\ (1000 <= y -> String.length text = 10%nat))
  /\ (forall e, TaskC.format_date date_str = Raise e ->
                e = ValueError \/ e = OverflowError)
  /\ (forall text, TaskC.format_time time_str = Ok text ->
        exists hour minute h mi,
          Str.split ":" time_str = [hour; minute]
          /\ Num.int_of_string hour = Ok h
          /\ Num.int_of_string minute = Ok mi
          /\ 0 <= h < 24 /\ 0 <= mi < 60
          /\ text = Spec.iso_time_with "." h mi
          /\ String.length text = 5%nat)
  /\ (forall e, TaskC.format_time time_str = Raise e ->
                e = ValueError \/ e = OverflowError).
Proof.
  assert (D : match TaskC.format_date date_str with
              | Ok text =>
                  exists year month day y m d,
                    Str.split "-" date_str = [year; month; day]
                    /\ Num.int_of_string year = Ok y
                    /\ Num.int_of_string month = Ok m
                    /\ Num.int_of_string day = Ok d
                    /\ Cal.valid_date y m d = true
                    /\ text = Cal.strftime_dmY (Cal.mkdate y m d)
              | Raise e => e = ValueError \/ e = OverflowError
              end).
  { unfold TaskC.format_date.
    destruct (Str.split "-" date_str) as [|year [|month [|day [|x l]]]];
      try (left; reflexivity).
    destruct (Num.int_of_string year) as [y|e] eqn:Ey;
      [|apply int_of_string_raises in Ey; left; exact Ey].
    destruct (Num.int_of_string month) as [m|e] eqn:Em;
      [|apply int_of_string_raises in Em; left; exact Em].
    destruct (Num.int_of_string day) as [d|e] eqn:Ed;
      [|apply int_of_string_raises in Ed; left; exact Ed].
    cbn [bind]. pose proof (new_date_outcome y m d) as N.
    destruct (Cal.new_date y m d) as [date|e]; cbn [bind]; [|exact N].
    destruct N as [Hv ->]. exists year, month, day, y, m, d. repeat split; auto. }
  assert (T : match TaskC.format_time time_str with
              | Ok text =>
                  exists hour minute h mi,
                    Str.split ":" time_str = [hour; minute]
                    /\ Num.int_of_string hour = Ok h
                    /\ Num.int_of_string minute = Ok mi
                    /\ 0 <= h < 24 /\ 0 <= mi < 60
                    /\ text = Spec.iso_time_with "." h mi
              | Raise e => e = ValueError \/ e = OverflowError
              end).
  { unfold TaskC.format_time.
    destruct (Str.split ":" time_str) as [|hour [|minute [|x l]]];
      try (left; reflexivity).
    destruct (Num.int_of_string hour) as [h|e] eqn:Eh;
      [|apply int_of_string_raises in Eh; left; exact Eh].
    destruct (Num.int_of_string minute) as [mi|e] eqn:Em;
      [|apply int_of_string_raises in Em; left; exact Em].
    cbn [bind]. pose proof (new_time_outcome h mi) as N.
    destruct (Cal.new_time h mi) as [t|e]; cbn [bind]; [|exact N].
    destruct N as (Hh & Hmi & ->). exists hour, minute, h, mi.
    repeat split; auto; lia. }
  split; [|split; [|split]].
  - intros text H. rewrite H in D.
    destruct D as (year & month & day & y & m & d & Hs & Hy & Hm & Hd & Hv & ->).
    exists year, month, day, y, m, d. repeat split; auto.
    + now apply strftime_dmY_length_le.
    + intros Hy4. now apply strftime_dmY_length.
  - intros e H. now rewrite H in D.
  - intros text H. rewrite H in T.
    destruct T as (hour & minute & h & mi & Hs & Hh & Hmi & Hhr & Hmr & ->).
    exists hour, minute, h, mi. repeat split; auto; try lia.
    unfold Spec.iso_time_with. rewrite length_app. cbn [String.length].
    rewrite !length_zfill.
    pose proof (of_Z_nonneg_length 1 h ltac:(change (10 ^ Z.of_nat 2) with 100; lia)).
    pose proof (of_Z_nonneg_length 1 mi ltac:(change (10 ^ Z.of_nat 2) with 100; lia)).
    lia.
  - intros e H. now rewrite H in T.
Qed.

Example taskc_format_examples :
  TaskC.format_date "2025-10-13" = Ok "13.10.2025"
  /\ TaskC.format_date "2025-13-01" = Raise ValueError
  /\ TaskC.format_date "2025-10" = Raise ValueError
  /\ TaskC.format_date "99999999999-01-01" = Raise OverflowError
  /\ TaskC.format_time "9:05" = Ok "09.05"
  /\ TaskC.format_time "24:00" = Raise ValueError
  /\ TaskC.format_time "99999999999:00" = Raise OverflowError.
Proof. vm_compute. repeat split. Qed.

(** X25: on a valid date with a year of four digits written
    [YYYY-MM-DD], [format_date] of Task C returns the same date written
    [dd.mm.yyyy], and on a time written [HH:MM] [format_time] returns the
    same time with a period in place of the colon.  The year is bounded
    because what [%Y] prints for a shorter year depends on the
    platform. *)
Theorem taskc_format_well_formed (d : Cal.date) (h mi : Z) :
  Cal.valid_date (Cal.year d) (Cal.month d) (Cal.day d) = true ->
  1000 <= Cal.year d ->
  0 <= h < 24 -> 0 <= mi < 60 ->
  TaskC.format_date (Spec.iso_date d) = Ok (Cal.strftime_dmY d)
  /\ Spec.parse_dmY (Cal.strftime_dmY d) = Some d
  /\ TaskC.format_time (Spec.iso_time_with ":" h mi)
     = Ok (Spec.iso_time_with "." h mi)
  /\ Spec.iso_time_with "." h mi
     = Str.replace ":" "." (Spec.iso_time_with ":" h mi).
Proof.
  intros Hv Hy4 Hh Hmi. destruct (valid_date_bounds _ _ _ Hv) as (Hy & Hm & Hd).
  assert (Hsep : forall w n, 0 <= n ->
            all_chars (fun c => negb (Ascii.eqb c "-")) (Str.zfill w (Str.of_Z_nonneg n))
            = true
            /\ all_chars (fun c => negb (Ascii.eqb c ":")) (Str.zfill w (Str.of_Z_nonneg n))
               = true).
  { intros w n Hn.
    split; apply (all_chars_impl Str.is_digit); try (now apply zfill_digits);
      intros c Hc; apply (digit_not_separator c Hc). }
  split; [|split; [|split]].
  - unfold TaskC.format_date, Spec.iso_date. cbn [String.append].
    rewrite split_app_sep by (apply Hsep; lia).
    rewrite split_app_sep by (apply Hsep; lia).
    rewrite split_no_sep by (apply Hsep; lia).
    rewrite !int_of_string_zfill
      by (try lia; try (change (10 ^ Z.of_nat 2) with 100; lia);
          change (10 ^ Z.of_nat 4) with 10000; lia).
    cbn [bind]. rewrite (new_date_valid _ _ _ Hv). cbn [bind]. now destruct d.
  - now apply parse_dmY_strftime.
  - unfold TaskC.format_time, Spec.iso_time_with.
    rewrite split_app_sep by (apply Hsep; lia).
    rewrite split_no_sep by (apply Hsep; lia).
    rewrite !int_of_string_zfill
      by (try lia; change (10 ^ Z.of_nat 2) with 100; lia).
    cbn [bind]. rewrite (new_time_valid _ _ Hh Hmi). reflexivity.
  - unfold Spec.iso_time_with. rewrite replace_append. cbn [Str.replace].
    change (Ascii.eqb ":" ":") with true. cbv iota.
    rewrite !(replace_not_in ":" ".") by (apply Hsep; lia).
    reflexivity.
Qed.

Lemma taskc_format_well_formed_witness :
  let d := Cal.mkdate 2025 1 9 in
  TaskC.format_date (Spec.iso_date d) = Ok (Cal.strftime_dmY d)
  /\ Spec.parse_dmY (Cal.strftime_dmY d) = Some d
  /\ TaskC.format_time (Spec.iso_time_with ":" 9 5)
     = Ok (Spec.iso_time_with "." 9 5)
  /\ Spec.iso_time_with "." 9 5
     = Str.replace ":" "." (Spec.iso_time_with ":" 9 5).
Proof.
  intros d. apply (taskc_format_well_formed d 9 5).
  - vm_compute. reflexivity.
  - unfold d. simpl. lia.
  - lia.
  - lia.
Defined.

(** ** Worked examples *)

Example split_example :
  Str.split ";" "a;b;;c" = ["a"; "b"; ""; "c"].
Proof. reflexivity. Qed.

Example float_of_string_100 :
  Num.float_of_string "100" = Ok (Num.float_of_Z 100).
Proof. vm_compute. reflexivity. Qed.

Example format_example :
  Num.format_2f (Num.fdiv (Num.float_of_Z 12345) (Num.float_of_Z 1000)) = "12.35"
  /\ Num.format_2f (Num.fdiv (Num.float_of_Z 1) (Num.float_of_Z 8)) = "0.12"
  /\ Num.float_of_string " -1_0.5e1 " = Ok (Num.float_of_Z (-105))
  /\ Num.float_of_string "0.1"
     = Ok (S754_finite false 7205759403792794 (-56)).
Proof. vm_compute. repeat split. Qed.

Example taskd_report :
  TaskD.print_report
    [(Cal.mkdate 2025 10 13,
         [("cons", [Num.float_of_Z 150; Num.float_of_Z 250; Num.float_of_Z 350]);
          ("prod", [Num.float_of_Z 15; Num.float_of_Z 25; Num.float_of_Z 35])])]
  = (TaskD.report_head ++
     ["Monday    13.10.2025    0,15    0,25    0,35    0,01    0,03    0,04"],
     Ok tt).
Proof. vm_compute. reflexivity. Qed.

Example taske_section :
  TaskE.format_week_section 42
     [(Cal.mkdate 2025 10 13,
         [("cons_v1", Num.float_of_Z 150); ("cons_v2", Num.float_of_Z 250);
          ("cons_v3", Num.float_of_Z 350); ("prod_v1", Num.float_of_Z 15);
          ("prod_v2", Num.float_of_Z 25); ("prod_v3", Num.float_of_Z 35)])]
  = Ok (TaskE.section_head 42 ++
        ["Monday    13.10.2025     0,15    0,25    0,35      0,01    0,03    0,04"; ""]).
Proof. vm_compute. reflexivity. Qed.

Example taska_line :
  TaskA.parse_reservation_line
    ("alice;room 1;2025-01-01 10:00;2025-01-01 11:30;True;3" +++ String "010" "")
  = Ok (TaskA.mkreservation "alice" "room 1"
          (Cal.mkdatetime (Cal.mkdate 2025 1 1) 10 0 0 0)
          (Cal.mkdatetime (Cal.mkdate 2025 1 1) 11 30 0 0) true 3).
Proof. vm_compute. reflexivity. Qed.
